(** * Share reconciliation engine of data.all: [backend/dataall/tasks/share_manager.py]

    A shallow embedding of [ShareManager] and the properties of its
    approve / reject workflows.  Python code that talks to the relational
    store runs in the monad [M] over a [world]; code that only talks to AWS
    runs in [Aws] over a [cloud].  Both are state monads with exceptions in
    which the state survives a raise, as it does in Python. *)

From stdpp Require Import gmap strings list fin_maps pretty.
From Stdlib Require Import ZArith Ascii.

Set Warnings "-register-all".

Local Open Scope string_scope.
Local Open Scope list_scope.

(** ** Python exceptions and results *)

Inductive exn : Type :=
  | ClientError (Code Message : string)
  | KeyError (key : string)
  | TypeError (what : string)
  | AttributeError (what : string)
  | ValueError (what : string)
  | IndexError
  | ObjectNotFound (kind uri : string)
  | InvalidInput (param : string)
  | Exception (message : string).

Inductive result (A : Type) : Type :=
  | Ok (a : A)
  | Raise (e : exn).
Arguments Ok {A} a.
Arguments Raise {A} e.

Definition is_raise {A} (r : result A) : bool :=
  match r with Ok _ => false | Raise _ => true end.

Definition is_ClientError (e : exn) : bool :=
  match e with ClientError _ _ => true | _ => false end.

(** [except Exception] catches every exception of the model. *)
Definition any_Exception (e : exn) : bool := true.

(** ** State and exception monad *)

Definition Run (S A : Type) : Type := S -> result A * S.

Definition ret {S A} (a : A) : Run S A := fun s => (Ok a, s).

Definition raise {S A} (e : exn) : Run S A := fun s => (Raise e, s).

Definition bind {S A B} (m : Run S A) (k : A -> Run S B) : Run S B :=
  fun s => match m s with
           | (Ok a, s') => k a s'
           | (Raise e, s') => (Raise e, s')
           end.

Definition gets {S A} (f : S -> A) : Run S A := fun s => (Ok (f s), s).

Definition modify {S} (f : S -> S) : Run S unit := fun s => (Ok tt, f s).

Definition of_result {S A} (r : result A) : Run S A := fun s => (r, s).

(** [try: body except <catches> as e: handler e] *)
Definition try_except {S A} (body : Run S A) (catches : exn -> bool)
    (handler : exn -> Run S A) : Run S A :=
  fun s => match body s with
           | (Raise e, s') => if catches e then handler e s' else (Raise e, s')
           | ok => ok
           end.

Declare Scope run_scope.
Delimit Scope run_scope with run.
Notation "'let*' x ':=' m 'in' k" := (bind m (fun x => k))
  (at level 10, x pattern, m at level 100, k at level 200, only parsing) : run_scope.
Notation "m '>>' k" := (bind m (fun _ => k))
  (at level 90, right associativity, only parsing) : run_scope.
Local Open Scope run_scope.

Definition rbind {A B} (r : result A) (k : A -> result B) : result B :=
  match r with
  | Ok a => k a
  | Raise e => Raise e
  end.

Notation "'let?' x ':=' r 'in' k" := (rbind r (fun x => k))
  (at level 10, x pattern, r at level 100, k at level 200, only parsing) : run_scope.

(** [for x in xs: body x] *)
Fixpoint for_each {S A} (xs : list A) (body : A -> Run S unit) : Run S unit :=
  match xs with
  | [] => ret tt
  | x :: rest => body x >> for_each rest body
  end.

(** Pure pieces of Python used below. *)
Module Py.

(** [range(start, stop, step)] for a positive step. *)
Definition range (start stop step : nat) : list nat :=
  (fun k => start + k * step) <$> seq 0 ((stop - start + (step - 1)) / step).

(** [l[i:j]] for non-negative indices. *)
Definition slice {A} (l : list A) (i j : nat) : list A :=
  take (j - i) (drop i l).

Fixpoint startswith (s p : string) : bool :=
  match p, s with
  | EmptyString, _ => true
  | String a p', String b s' => if Ascii.eqb a b then startswith s' p' else false
  | String _ _, EmptyString => false
  end.

(** [needle in hay] on [str]. *)
Fixpoint str_in (needle hay : string) : bool :=
  startswith hay needle ||
  match hay with
  | EmptyString => false
  | String _ hay' => str_in needle hay'
  end.

(** [sep.join(parts)] *)
Fixpoint join (sep : string) (parts : list string) : string :=
  match parts with
  | [] => EmptyString
  | [p] => p
  | p :: rest => p +:+ sep +:+ join sep rest
  end.

(** [s.lower()] on ASCII letters. *)
Definition lower_char (c : ascii) : ascii :=
  let n := nat_of_ascii c in
  if Nat.leb 65 n && Nat.leb n 90 then ascii_of_nat (n + 32) else c.

Fixpoint lower (s : string) : string :=
  match s with
  | EmptyString => EmptyString
  | String c rest => String (lower_char c) (lower rest)
  end.

(** [s[:-2]] *)
Definition chop2 (s : string) : string :=
  String.substring 0 (String.length s - 2) s.

(** Truthiness of a [str]. *)
Definition truthy_str (s : string) : bool :=
  match s with EmptyString => false | _ => true end.

End Py.

(** ** The AWS side

    Lake Formation, RAM and Quicksight are driven through boto3 clients.
    What such a call answers is up to the service: the model takes the
    answer from an oracle that sees the request and every call made so far,
    and records call and answer in [calls].  A boto3 client reports a
    service error by raising [ClientError]. *)

(** [session.client(service, region_name=region)] of the remote session of
    [accountid]. *)
Record boto_client : Type := {
  client_accountid : string;
  client_region : string;
}.

Inductive lf_resource : Type :=
  | ResTable (DatabaseName Name : string) (CatalogId : option string)
  | ResTableWithColumns (DatabaseName Name CatalogId : string)
  | ResDatabase (Name : string).

(** A grant or revoke request; [Id] is only present in batch entries. *)
Record lf_entry : Type := {
  Id : option string;
  Principal : string;
  Resource : lf_resource;
  Permissions : list string;
  PermissionsWithGrantOption : option (list string);
}.

(** One element of the ['Failures'] list of a batch response:
    [failure['Error']['ErrorCode']] and [failure['Error']['ErrorMessage']]. *)
Record failure : Type := {
  ErrorCode : string;
  ErrorMessage : string;
}.

Inductive response (A : Type) : Type :=
  | Answer (a : A)
  | ServiceError (Code Message : string).
Arguments Answer {A} a.
Arguments ServiceError {A} Code Message.

Definition response_result {A} (r : response A) : result A :=
  match r with
  | Answer a => Ok a
  | ServiceError c m => Raise (ClientError c m)
  end.

Inductive call : Type :=
  | BatchRevokePermissions (client : boto_client) (CatalogId : string)
      (Entries : list lf_entry) (answer : response (list failure))
  | GrantPermissions (client : boto_client) (grant : lf_entry)
      (answer : response unit)
  | GetResourceShareInvitations (client : boto_client)
      (answer : response (list string))
  | AcceptResourceShareInvitation (client : boto_client)
      (resourceShareInvitationArn : string) (answer : response unit)
  | DescribeGroup (AwsAccountId : string) (answer : response (option string)).

(** What the services answer. *)
Record services : Type := {
  lf_batch_revoke_permissions :
    list call -> boto_client -> string -> list lf_entry -> response (list failure);
  lf_grant_permissions : list call -> boto_client -> lf_entry -> response unit;
  ram_get_resource_share_invitations :
    list call -> boto_client -> response (list string);
  ram_accept_resource_share_invitation :
    list call -> boto_client -> string -> response unit;
  quicksight_describe_group : list call -> string -> response (option string);
}.

(** ** JSON documents as Python values

    [json.loads] gives [None], [bool], [int], [str], [list] and [dict]
    values; a [dict] keeps its keys in insertion order. *)
Module Json.

Inductive value : Type :=
  | VNone
  | VBool (b : bool)
  | VInt (n : Z)
  | VStr (s : string)
  | VList (items : list value)
  | VDict (fields : list (string * value)).

(** *** dict primitives on the ordered field list *)

Fixpoint lookup (k : string) (d : list (string * value)) : option value :=
  match d with
  | [] => None
  | (k', v) :: rest => if String.eqb k' k then Some v else lookup k rest
  end.

(** [d[k] = v]: an existing key keeps its place, a new key goes last. *)
Fixpoint update (k : string) (v : value) (d : list (string * value))
    : list (string * value) :=
  match d with
  | [] => [(k, v)]
  | (k', v') :: rest =>
      if String.eqb k' k then (k', v) :: rest else (k', v') :: update k v rest
  end.

(** *** Python [==] *)

Definition int_of_bool (b : bool) : Z := if b then 1%Z else 0%Z.

Fixpoint eqb (a b : value) {struct a} : bool :=
  match a, b with
  | VNone, VNone => true
  | VBool x, VBool y => Bool.eqb x y
  | VBool x, VInt n => Z.eqb (int_of_bool x) n
  | VInt n, VBool y => Z.eqb n (int_of_bool y)
  | VInt n, VInt m => Z.eqb n m
  | VStr s, VStr t => String.eqb s t
  | VList xs, VList ys =>
      (fix all2 (xs ys : list value) {struct xs} : bool :=
         match xs, ys with
         | [], [] => true
         | x :: xs', y :: ys' => eqb x y && all2 xs' ys'
         | _, _ => false
         end) xs ys
  | VDict xs, VDict ys =>
      Nat.eqb (length xs) (length ys) &&
      (fix sub (xs : list (string * value)) {struct xs} : bool :=
         match xs with
         | [] => true
         | (k, v) :: xs' =>
             match lookup k ys with
             | Some w => eqb v w
             | None => false
             end && sub xs'
         end) xs
  | _, _ => false
  end.

(** *** Operations of the code, with the exceptions Python raises *)

Definition type_name (v : value) : string :=
  match v with
  | VNone => "NoneType" | VBool _ => "bool" | VInt _ => "int"
  | VStr _ => "str" | VList _ => "list" | VDict _ => "dict"
  end.

(** [v[k]] for a [str] key. *)
Definition getitem (v : value) (k : string) : result value :=
  match v with
  | VDict d => match lookup k d with
               | Some x => Ok x
               | None => Raise (KeyError k)
               end
  | _ => Raise (TypeError (type_name v))
  end.

(** [v[0]] *)
Definition getitem0 (v : value) : result value :=
  match v with
  | VList (x :: _) => Ok x
  | VList [] => Raise IndexError
  | VStr (String c _) => Ok (VStr (String c EmptyString))
  | VStr EmptyString => Raise IndexError
  | VDict _ => Raise (KeyError "0")
  | _ => Raise (TypeError (type_name v))
  end.

(** [v[k] = x] *)
Definition setitem (v : value) (k : string) (x : value) : result value :=
  match v with
  | VDict d => Ok (VDict (update k x d))
  | _ => Raise (TypeError (type_name v))
  end.

(** [v[0] = x] *)
Definition setitem0 (v : value) (x : value) : result value :=
  match v with
  | VList (_ :: rest) => Ok (VList (x :: rest))
  | VList [] => Raise IndexError
  | VDict d => Ok (VDict (d ++ [("0", x)]))
  | _ => Raise (TypeError (type_name v))
  end.

(** [v.get(k)] *)
Definition get (v : value) (k : string) : result value :=
  match v with
  | VDict d => Ok (default VNone (lookup k d))
  | _ => Raise (AttributeError "get")
  end.

(** [v.append(x)] *)
Definition append (v : value) (x : value) : result value :=
  match v with
  | VList l => Ok (VList (l ++ [x]))
  | _ => Raise (AttributeError "append")
  end.

(** [v.extend(xs)] for a list [xs] *)
Definition extend (v : value) (xs : list value) : result value :=
  match v with
  | VList l => Ok (VList (l ++ xs))
  | _ => Raise (AttributeError "extend")
  end.

Definition chars (s : string) : list value :=
  (fun c => VStr (String c EmptyString)) <$> String.list_ascii_of_string s.

(** [for x in v] *)
Definition iter (v : value) : result (list value) :=
  match v with
  | VList l => Ok l
  | VDict d => Ok ((fun kv => VStr (fst kv)) <$> d)
  | VStr s => Ok (chars s)
  | _ => Raise (TypeError (type_name v))
  end.

(** [x in v] for a [str] [x] *)
Definition contains (v : value) (x : string) : result bool :=
  match v with
  | VList l => Ok (existsb (eqb (VStr x)) l)
  | VDict d => Ok (existsb (fun kv => String.eqb (fst kv) x) d)
  | VStr s => Ok (Py.str_in x s)
  | _ => Raise (TypeError (type_name v))
  end.

(** [l.remove(x)] on a Python list: the first element equal to [x]. *)
Fixpoint remove_first (x : value) (l : list value) : option (list value) :=
  match l with
  | [] => None
  | y :: rest => if eqb y x then Some rest
                 else cons y <$> remove_first x rest
  end.

(** [v.remove(x)] *)
Definition remove (v : value) (x : value) : result value :=
  match v with
  | VList l => match remove_first x l with
               | Some l' => Ok (VList l')
               | None => Raise (ValueError "list.remove(x): x not in list")
               end
  | _ => Raise (AttributeError "remove")
  end.

Definition isinstance_str (v : value) : bool :=
  match v with VStr _ => true | _ => false end.

Definition isinstance_list (v : value) : bool :=
  match v with VList _ => true | _ => false end.

(** Truthiness. *)
Definition truthy (v : value) : bool :=
  match v with
  | VNone => false
  | VBool b => b
  | VInt n => negb (Z.eqb n 0)
  | VStr s => Py.truthy_str s
  | VList l => match l with [] => false | _ => true end
  | VDict d => match d with [] => false | _ => true end
  end.

(** *** [json.dumps]

    Default separators, [ensure_ascii=True].  Characters are code points
    below 256: everything outside [' '..'~'] is written as an escape. *)

Definition quote : ascii := ascii_of_nat 34.
Definition backslash : ascii := ascii_of_nat 92.

Definition hex_digit (n : nat) : ascii :=
  if Nat.ltb n 10 then ascii_of_nat (48 + n) else ascii_of_nat (87 + n).

Definition u_escape (c : ascii) : string :=
  let n := nat_of_ascii c in
  String backslash
    ("u00" +:+ String (hex_digit (n / 16)) (String (hex_digit (n mod 16)) EmptyString)).

Definition plain_char (c : ascii) : bool :=
  let n := nat_of_ascii c in
  Nat.leb 32 n && Nat.leb n 126 && negb (Nat.eqb n 34) && negb (Nat.eqb n 92).

Definition escape_char (c : ascii) : string :=
  let n := nat_of_ascii c in
  if plain_char c then String c EmptyString
  else if Nat.eqb n 34 then String backslash (String quote EmptyString)
  else if Nat.eqb n 92 then String backslash (String backslash EmptyString)
  else if Nat.eqb n 10 then String backslash "n"
  else if Nat.eqb n 13 then String backslash "r"
  else if Nat.eqb n 9 then String backslash "t"
  else if Nat.eqb n 8 then String backslash "b"
  else if Nat.eqb n 12 then String backslash "f"
  else u_escape c.

Fixpoint escape (s : string) : string :=
  match s with
  | EmptyString => EmptyString
  | String c rest => escape_char c +:+ escape rest
  end.

(** The strings [json.dumps] writes between the quotes as they are. *)
Fixpoint plain (s : string) : bool :=
  match s with
  | EmptyString => true
  | String c rest => plain_char c && plain rest
  end.

Definition dumps_str (s : string) : string :=
  String quote (escape s +:+ String quote EmptyString).

Fixpoint dumps (v : value) : string :=
  match v with
  | VNone => "null"
  | VBool true => "true"
  | VBool false => "false"
  | VInt n => pretty n
  | VStr s => dumps_str s
  | VList items =>
      "[" +:+
      (fix elems (l : list value) : string :=
         match l with
         | [] => EmptyString
         | [x] => dumps x
         | x :: rest => dumps x +:+ ", " +:+ elems rest
         end) items +:+ "]"
  | VDict fields =>
      "{" +:+
      (fix members (l : list (string * value)) : string :=
         match l with
         | [] => EmptyString
         | [(k, x)] => dumps_str k +:+ ": " +:+ dumps x
         | (k, x) :: rest => dumps_str k +:+ ": " +:+ dumps x +:+ ", " +:+ members rest
         end) fields +:+ "}"
  end.

End Json.

Import Json.

(** A policy text.  The text of a stored policy is kept as the document
    it denotes: [json.loads] returns the document, [json.dumps] the text
    of a document, and the characters of a text (which the [in] tests on a
    key policy look at) are those [json.dumps] writes. *)
Record text : Type := { document : value }.

Definition json_dumps (v : value) : text := {| document := v |}.

(** [json.loads(s)]; [s] is [None] where a handler found no policy. *)
Definition json_loads (s : option text) : result value :=
  match s with
  | Some t => Ok (document t)
  | None => Raise (TypeError "the JSON object must be str, bytes or bytearray, not NoneType")
  end.

(** [needle in s] for a policy text [s]. *)
Definition str_in_text (needle : string) (s : text) : bool :=
  Py.str_in needle (Json.dumps (document s)).

Record cloud : Type := {
  service : services;
  calls : list call;
  uuids : nat;
  (** Glue catalog: (account, region, database) to its table names *)
  glue : gmap (string * string * string) (list string);
  (** S3: (account, bucket) to the bucket policy *)
  bucket_policies : gmap (string * string) text;
  (** S3: (account, access point name) to the policy of the access point,
      [None] while it has none *)
  access_points : gmap (string * string) (option text);
  access_point_arns : string -> string -> string;
  (** IAM: (account, role name, policy name) to the inline policy *)
  role_policies : gmap (string * string * string) text;
  role_ids : string -> string -> string;
  delegation_role_arns : string -> string;
  (** KMS: (account, key id, policy name) to the key policy *)
  key_ids : string -> string -> string;
  key_policies : gmap (string * string * string) text;
}.

Definition Aws (A : Type) : Type := Run cloud A.

Definition set_calls (f : list call -> list call) (c : cloud) : cloud :=
  {| service := service c; calls := f (calls c); uuids := uuids c; glue := glue c;
     bucket_policies := bucket_policies c; access_points := access_points c;
     access_point_arns := access_point_arns c; role_policies := role_policies c;
     role_ids := role_ids c; delegation_role_arns := delegation_role_arns c;
     key_ids := key_ids c; key_policies := key_policies c |}.

Definition set_uuids (f : nat -> nat) (c : cloud) : cloud :=
  {| service := service c; calls := calls c; uuids := f (uuids c); glue := glue c;
     bucket_policies := bucket_policies c; access_points := access_points c;
     access_point_arns := access_point_arns c; role_policies := role_policies c;
     role_ids := role_ids c; delegation_role_arns := delegation_role_arns c;
     key_ids := key_ids c; key_policies := key_policies c |}.

Definition set_glue
    (f : gmap (string * string * string) (list string) ->
         gmap (string * string * string) (list string)) (c : cloud) : cloud :=
  {| service := service c; calls := calls c; uuids := uuids c; glue := f (glue c);
     bucket_policies := bucket_policies c; access_points := access_points c;
     access_point_arns := access_point_arns c; role_policies := role_policies c;
     role_ids := role_ids c; delegation_role_arns := delegation_role_arns c;
     key_ids := key_ids c; key_policies := key_policies c |}.

Definition set_bucket_policies
    (f : gmap (string * string) text -> gmap (string * string) text)
    (c : cloud) : cloud :=
  {| service := service c; calls := calls c; uuids := uuids c; glue := glue c;
     bucket_policies := f (bucket_policies c); access_points := access_points c;
     access_point_arns := access_point_arns c; role_policies := role_policies c;
     role_ids := role_ids c; delegation_role_arns := delegation_role_arns c;
     key_ids := key_ids c; key_policies := key_policies c |}.

Definition set_access_points
    (f : gmap (string * string) (option text) -> gmap (string * string) (option text))
    (c : cloud) : cloud :=
  {| service := service c; calls := calls c; uuids := uuids c; glue := glue c;
     bucket_policies := bucket_policies c; access_points := f (access_points c);
     access_point_arns := access_point_arns c; role_policies := role_policies c;
     role_ids := role_ids c; delegation_role_arns := delegation_role_arns c;
     key_ids := key_ids c; key_policies := key_policies c |}.

Definition set_role_policies
    (f : gmap (string * string * string) text -> gmap (string * string * string) text)
    (c : cloud) : cloud :=
  {| service := service c; calls := calls c; uuids := uuids c; glue := glue c;
     bucket_policies := bucket_policies c; access_points := access_points c;
     access_point_arns := access_point_arns c; role_policies := f (role_policies c);
     role_ids := role_ids c; delegation_role_arns := delegation_role_arns c;
     key_ids := key_ids c; key_policies := key_policies c |}.

Definition set_key_policies
    (f : gmap (string * string * string) text -> gmap (string * string * string) text)
    (c : cloud) : cloud :=
  {| service := service c; calls := calls c; uuids := uuids c; glue := glue c;
     bucket_policies := bucket_policies c; access_points := access_points c;
     access_point_arns := access_point_arns c; role_policies := role_policies c;
     role_ids := role_ids c; delegation_role_arns := delegation_role_arns c;
     key_ids := key_ids c; key_policies := f (key_policies c) |}.

(** [str(uuid.uuid4())]: a fresh identifier. *)
Definition uuid4 : Aws string :=
  fun c => (Ok (pretty (uuids c)), set_uuids S c).

(** *** boto3 clients *)
Module Client.

Definition batch_revoke_permissions (client : boto_client) (CatalogId : string)
    (Entries : list lf_entry) : Aws (list failure) :=
  fun c =>
    let answer := lf_batch_revoke_permissions (service c) (calls c) client CatalogId Entries in
    (response_result answer,
     set_calls (fun l => l ++ [BatchRevokePermissions client CatalogId Entries answer]) c).

Definition grant_permissions (client : boto_client) (grant : lf_entry) : Aws unit :=
  fun c =>
    let answer := lf_grant_permissions (service c) (calls c) client grant in
    (response_result answer,
     set_calls (fun l => l ++ [GrantPermissions client grant answer]) c).

Definition get_resource_share_invitations (client : boto_client) : Aws (list string) :=
  fun c =>
    let answer := ram_get_resource_share_invitations (service c) (calls c) client in
    (response_result answer,
     set_calls (fun l => l ++ [GetResourceShareInvitations client answer]) c).

Definition accept_resource_share_invitation (client : boto_client)
    (resourceShareInvitationArn : string) : Aws unit :=
  fun c =>
    let answer := ram_accept_resource_share_invitation (service c) (calls c) client
                    resourceShareInvitationArn in
    (response_result answer,
     set_calls (fun l => l ++ [AcceptResourceShareInvitation client
                                 resourceShareInvitationArn answer]) c).

End Client.

(** *** The handlers of [dataall.aws.handlers] *)

Module SessionHelper.

(** [SessionHelper.remote_session(accountid).client(service, region_name)] *)
Definition client (accountid region : string) : boto_client :=
  {| client_accountid := accountid; client_region := region |}.

(** Modelled from the spec: [getRoleNumericId(account, role)] of the
    RolePolicyStore; the handler itself is not part of this file. *)
Definition get_role_id (accountid name : string) : Aws string :=
  gets (fun c => role_ids c accountid name).

(** Modelled from the spec: [getRoleNumericIds(account, [roles])]. *)
Definition get_role_ids (accountid : string) (names : list string) : Aws (list string) :=
  gets (fun c => role_ids c accountid <$> names).

(** Modelled from the spec: the delegation role of §4.4, one per account. *)
Definition get_delegation_role_arn (accountid : string) : Aws string :=
  gets (fun c => delegation_role_arns c accountid).

End SessionHelper.

Module Glue.

(** Modelled from the spec: [listDatabaseObjects(account, database)];
    the code reads [table['Name']] of each object, kept here as the name.
    A database that does not exist has no objects. *)
Definition list_glue_database_tables (accountid database region : string)
    : Aws (list string) :=
  gets (fun c => default [] (glue c !! (accountid, region, database))).

(** Modelled from the spec: [objectExists(account, database, object)]. *)
Definition table_exists (accountid region database tablename : string) : Aws bool :=
  gets (fun c => bool_decide (tablename ∈ default [] (glue c !! (accountid, region, database)))).

(** Modelled from the spec: [batchDeleteObjects(account, database, names)]. *)
Definition batch_delete_tables (accountid region database : string)
    (tables : list string) : Aws unit :=
  modify (set_glue (fun g =>
    match g !! (accountid, region, database) with
    | Some names =>
        <[(accountid, region, database) :=
            filter (fun n => n ∉ tables) names]> g
    | None => g
    end)).

(** Modelled from the spec: [createShadowObject(account, database, name,
    sourceRef)], the database being created if absent (§4.3 step 4). *)
Definition _create_table (accountid region database tablename : string) : Aws unit :=
  modify (set_glue (fun g =>
    let names := default [] (g !! (accountid, region, database)) in
    <[(accountid, region, database) :=
        if bool_decide (tablename ∈ names) then names else names ++ [tablename]]> g)).

End Glue.

Module S3.

(** Modelled from the spec: [getBucketPolicy] of ObjectStoreAccessControl;
    [None] for a bucket without policy. *)
Definition get_bucket_policy (account_id bucket_name : string) : Aws (option text) :=
  gets (fun c => bucket_policies c !! (account_id, bucket_name)).

(** Modelled from the spec: [putBucketPolicy]. *)
Definition create_bucket_policy (account_id bucket_name : string) (policy : text)
    : Aws unit :=
  modify (set_bucket_policies <[(account_id, bucket_name) := policy]>).

(** Modelled from the spec: the ARN of an existing access point, [None]
    when there is none ([getOrCreateAccessPoint], first half). *)
Definition get_bucket_access_point_arn (account_id access_point_name : string)
    : Aws (option string) :=
  gets (fun c =>
    match access_points c !! (account_id, access_point_name) with
    | Some _ => Some (access_point_arns c account_id access_point_name)
    | None => None
    end).

(** Modelled from the spec: [getOrCreateAccessPoint], second half; a new
    access point has no policy. *)
Definition create_bucket_access_point (account_id bucket_name access_point_name : string)
    : Aws string :=
  fun c =>
    (Ok (access_point_arns c account_id access_point_name),
     set_access_points (fun m =>
       match m !! (account_id, access_point_name) with
       | Some _ => m
       | None => <[(account_id, access_point_name) := None]> m
       end) c).

(** Modelled from the spec: [getAccessPointPolicy]; [None] when the access
    point or its policy does not exist. *)
Definition get_access_point_policy (account_id access_point_name : string)
    : Aws (option text) :=
  gets (fun c => mjoin (access_points c !! (account_id, access_point_name))).

(** Modelled from the spec: [putAccessPointPolicy]. *)
Definition attach_access_point_policy (account_id access_point_name : string)
    (policy : text) : Aws unit :=
  modify (set_access_points <[(account_id, access_point_name) := Some policy]>).

(** Modelled from the spec: [deleteAccessPoint]. *)
Definition delete_bucket_access_point (account_id access_point_name : string)
    : Aws unit :=
  modify (set_access_points (delete (account_id, access_point_name))).

(** Modelled from the spec: the fresh pair of statements of §4.4 step 3,
    [<roleId>0] carrying the prefix condition and [<roleId>1] the object
    resources, both conditioned on the role id. *)
Definition generate_access_point_policy_template
    (principal_id access_point_arn s3_prefix : string) : value :=
  VDict [
    ("Version", VStr "2012-10-17");
    ("Statement", VList [
      VDict [
        ("Sid", VStr (principal_id +:+ "0"));
        ("Effect", VStr "Allow");
        ("Principal", VDict [("AWS", VStr "*")]);
        ("Action", VStr "s3:ListBucket");
        ("Resource", VStr access_point_arn);
        ("Condition", VDict [
          ("StringLike", VDict [
            ("s3:prefix", VList [VStr (s3_prefix +:+ "/*")]);
            ("aws:userId", VList [VStr (principal_id +:+ ":*")])])])];
      VDict [
        ("Sid", VStr (principal_id +:+ "1"));
        ("Effect", VStr "Allow");
        ("Principal", VDict [("AWS", VStr "*")]);
        ("Action", VStr "s3:GetObject");
        ("Resource", VList [VStr (access_point_arn +:+ "/object/" +:+ s3_prefix +:+ "/*")]);
        ("Condition", VDict [
          ("StringLike", VDict [
            ("aws:userId", VList [VStr (principal_id +:+ ":*")])])])]])].

End S3.

Module IAM.

(** Modelled from the spec: [getRolePolicy(account, role, policyName)];
    the document as a dict, [None] when the role has no such policy. *)
Definition get_role_policy (account_id role_name policy_name : string)
    : Aws (option value) :=
  gets (fun c => document <$> role_policies c !! (account_id, role_name, policy_name)).

(** Modelled from the spec: [putRolePolicy]. *)
Definition update_role_policy (account_id role_name policy_name : string)
    (policy : text) : Aws unit :=
  modify (set_role_policies <[(account_id, role_name, policy_name) := policy]>).

(** Modelled from the spec: [deleteRolePolicy]. *)
Definition delete_role_policy (account_id role_name policy_name : string) : Aws unit :=
  modify (set_role_policies (delete (account_id, role_name, policy_name))).

End IAM.

Module KMS.

(** Modelled from the spec: [getKeyId(account, keyAlias)]. *)
Definition get_key_id (account_id key_alias : string) : Aws string :=
  gets (fun c => key_ids c account_id key_alias).

(** Modelled from the spec: [getKeyPolicy(account, keyId, policyName)]. *)
Definition get_key_policy (account_id key_id policy_name : string) : Aws (option text) :=
  gets (fun c => key_policies c !! (account_id, key_id, policy_name)).

(** Modelled from the spec: [putKeyPolicy]. *)
Definition put_key_policy (account_id key_id policy_name : string) (policy : text)
    : Aws unit :=
  modify (set_key_policies <[(account_id, key_id, policy_name) := policy]>).

End KMS.

Module Quicksight.

(** Modelled from the spec: the dashboard group of the target account
    (§4.3 step 5); the answer is [group['Group']['Arn']] when the group
    exists. *)
Definition describe_group (AwsAccountId : string) : Aws (option string) :=
  fun c =>
    let answer := quicksight_describe_group (service c) (calls c) AwsAccountId in
    (response_result answer, set_calls (fun l => l ++ [DescribeGroup AwsAccountId answer]) c).

End Quicksight.

(** ** The relational store

    The classes of [dataall.db.models] with the attributes this file reads. *)
Module models.

Inductive ShareObjectStatus : Type :=
  | Approved
  | Rejected
  | PendingApproval
  | Share_In_Progress
  | Share_Succeeded
  | Share_Failed
  | Revoke_In_Progress
  | Revoke_Share_Succeeded
  | Revoke_Share_Failed.

#[global] Instance ShareObjectStatus_eq_dec : EqDecision ShareObjectStatus.
Proof. solve_decision. Defined.

Module ShareObject.
Record t : Type := {
  shareUri : string;
  datasetUri : string;
  environmentUri : string;
  principalId : string;
  status : ShareObjectStatus;
}.
End ShareObject.

Module ShareObjectItem.
Record t : Type := {
  shareUri : string;
  itemUri : string;
  GlueTableName : string;
  S3AccessPointName : string;
  status : ShareObjectStatus;
}.
End ShareObjectItem.

Module Dataset.
Record t : Type := {
  datasetUri : string;
  environmentUri : string;
  SamlAdminGroupName : string;
  AwsAccountId : string;
  region : string;
  GlueDatabaseName : string;
  S3BucketName : string;
  KmsAlias : string;
  IAMDatasetAdminRoleArn : string;
}.
End Dataset.

Module DatasetTable.
Record t : Type := {
  tableUri : string;
  GlueDatabaseName : string;
  GlueTableName : string;
}.
End DatasetTable.

Module DatasetStorageLocation.
Record t : Type := {
  locationUri : string;
  AWSAccountId : string;
  region : string;
  S3BucketName : string;
  S3Prefix : string;
}.
End DatasetStorageLocation.

Module Environment.
Record t : Type := {
  environmentUri : string;
  name : string;
  AwsAccountId : string;
  region : string;
  dashboardsEnabled : bool;
}.
End Environment.

Module EnvironmentGroup.
Record t : Type := {
  groupUri : string;
  environmentUri : string;
  environmentIAMRoleArn : string;
  environmentIAMRoleName : string;
}.
End EnvironmentGroup.

End models.
Import models.

(** The rows behind a [session].  The queries this file leaves to
    [dataall.db.api] on tables and storage locations are answered by the
    store. *)
Record db : Type := {
  share_objects : list ShareObject.t;
  share_object_items : list ShareObjectItem.t;
  datasets : list Dataset.t;
  environments : list Environment.t;
  environment_groups : list EnvironmentGroup.t;
  dataset_tables_shared_with_env :
    string -> string -> list ShareObjectStatus -> list DatasetTable.t;
  dataset_locations_shared_with_env :
    string -> string -> list ShareObjectStatus -> list DatasetStorageLocation.t;
  location_by_s3_prefix : string -> string -> string -> option DatasetStorageLocation.t;
}.

Definition set_share_object_items
    (f : list ShareObjectItem.t -> list ShareObjectItem.t) (s : db) : db :=
  {| share_objects := share_objects s; share_object_items := f (share_object_items s);
     datasets := datasets s; environments := environments s;
     environment_groups := environment_groups s;
     dataset_tables_shared_with_env := dataset_tables_shared_with_env s;
     dataset_locations_shared_with_env := dataset_locations_shared_with_env s;
     location_by_s3_prefix := location_by_s3_prefix s |}.

(** Alarms raised through [AlarmService]. *)
Inductive alarm : Type :=
  | table_sharing_failure_alarm
      (table : DatasetTable.t) (share : ShareObject.t) (target_environment : Environment.t)
  | folder_sharing_failure_alarm
      (folder : DatasetStorageLocation.t) (share : ShareObject.t)
      (target_environment : Environment.t)
  | revoke_sharing_failure_alarm
      (table : DatasetTable.t) (share : ShareObject.t) (target_environment : Environment.t)
  | revoke_folder_sharing_failure_alarm
      (folder : option DatasetStorageLocation.t) (share : ShareObject.t)
      (target_environment : Environment.t).

(** Everything a run can change: the store, the AWS accounts, the alarms
    sent, and [journal], the names of the steps [approve_share] and
    [reject_share] have entered, in order. *)
Record world : Type := {
  session : db;
  aws : cloud;
  alarms : list alarm;
  journal : list string;
}.

Definition M (A : Type) : Type := Run world A.

Definition set_session (f : db -> db) (w : world) : world :=
  {| session := f (session w); aws := aws w; alarms := alarms w; journal := journal w |}.

Definition set_aws (f : cloud -> cloud) (w : world) : world :=
  {| session := session w; aws := f (aws w); alarms := alarms w; journal := journal w |}.

Definition set_alarms (f : list alarm -> list alarm) (w : world) : world :=
  {| session := session w; aws := aws w; alarms := f (alarms w); journal := journal w |}.

Definition set_journal (f : list string -> list string) (w : world) : world :=
  {| session := session w; aws := aws w; alarms := alarms w; journal := f (journal w) |}.

(** Code without a [session] parameter runs on the AWS side only. *)
Definition lift_aws {A} (m : Aws A) : M A :=
  fun w => let '(r, c) := m (aws w) in (r, set_aws (fun _ => c) w).

(** Entering a step of a run. *)
Definition enter {A} (step : string) (m : M A) : M A :=
  modify (set_journal (fun j => j ++ [step])) >> m.

(** A local variable that code inside a [try] block assigns to: it is part
    of the state, so that what was assigned before a raise is still there
    in the [except] clause and after it. *)
Definition with_local {L S A} (init : L) (m : Run (L * S) A) : Run S A :=
  fun s => let '(r, (_, s')) := m (init, s) in (r, s').

Definition outer {L S A} (m : Run S A) : Run (L * S) A :=
  fun ls => let '(r, s') := m ls.2 in (r, (ls.1, s')).

Definition local {L S} : Run (L * S) L := gets fst.

Definition set_local {L S} (l : L) : Run (L * S) unit :=
  modify (fun ls => (l, ls.2)).

Module AlarmService.

(** Modelled from the spec: the structured failure notification of §7;
    the alarm service is not part of this file. *)
Definition trigger (a : alarm) : M unit := modify (set_alarms (fun l => l ++ [a])).

Definition trigger_table_sharing_failure_alarm table share target_environment : M unit :=
  trigger (table_sharing_failure_alarm table share target_environment).

Definition trigger_folder_sharing_failure_alarm folder share target_environment : M unit :=
  trigger (folder_sharing_failure_alarm folder share target_environment).

Definition trigger_revoke_sharing_failure_alarm table share target_environment : M unit :=
  trigger (revoke_sharing_failure_alarm table share target_environment).

Definition trigger_revoke_folder_sharing_failure_alarm folder share target_environment
    : M unit :=
  trigger (revoke_folder_sharing_failure_alarm folder share target_environment).

End AlarmService.

(** Python: an attribute of [None] raises [AttributeError]. *)
Definition not_None {S A} (attribute : string) (o : option A) : Run S A :=
  match o with
  | Some a => ret a
  | None => raise (AttributeError attribute)
  end.

(** [dataall.db.api] *)
Module api.

(** Modelled from the spec: the environment of a share or dataset;
    a missing one is the [NotFound] of §7. *)
Definition get_environment_by_uri (uri : string) : M Environment.t :=
  let* found := gets (fun w =>
    List.find (fun e => String.eqb (Environment.environmentUri e) uri)
              (environments (session w))) in
  match found with
  | Some e => ret e
  | None => raise (ObjectNotFound "Environment" uri)
  end.

(** Modelled from the spec: the environment membership record of a team
    (§6), [None] when there is none. *)
Definition get_environment_group (group_uri environment_uri : string)
    : M (option EnvironmentGroup.t) :=
  gets (fun w =>
    List.find (fun g => String.eqb (EnvironmentGroup.groupUri g) group_uri &&
                        String.eqb (EnvironmentGroup.environmentUri g) environment_uri)
              (environment_groups (session w))).

(** Modelled from the spec: the shared tables of "get share data" (§6). *)
Definition get_dataset_tables_shared_with_env
    (dataset_uri environment_uri : string) (status : list ShareObjectStatus)
    : M (list DatasetTable.t) :=
  gets (fun w => dataset_tables_shared_with_env (session w) dataset_uri environment_uri status).

(** Modelled from the spec: the shared folders of "get share data" (§6). *)
Definition get_dataset_locations_shared_with_env
    (dataset_uri share_uri : string) (status : list ShareObjectStatus)
    : M (list DatasetStorageLocation.t) :=
  gets (fun w => dataset_locations_shared_with_env (session w) dataset_uri share_uri status).

(** Modelled from the spec: the folder record of a prefix, for the alarm
    of a failed sweep (§4.5). *)
Definition get_location_by_s3_prefix (s3_prefix accountid region : string)
    : M (option DatasetStorageLocation.t) :=
  gets (fun w => location_by_s3_prefix (session w) s3_prefix accountid region).

End api.

(** * ShareManager *)
Module ShareManager.

(** ** Batch revoke *)

(** [entries[i : i + 20] for i in range(0, len(entries), 20)] *)
Definition entries_chunks (entries : list lf_entry) : list (list lf_entry) :=
  (fun i => Py.slice entries i (i + 20)) <$> Py.range 0 (length entries) 20.

(** The failures the code treats as the entry being in the wanted state
    already. *)
Definition already_revoked (f : failure) : bool :=
  String.eqb (ErrorCode f) "InvalidInputException" &&
  (Py.str_in "Grantee has no permissions" (ErrorMessage f) ||
   Py.str_in "No permissions revoked" (ErrorMessage f)).

(** The body of the [try]: the local list [failures] is what the [except]
    clause iterates over, so the loop returns it next to its outcome. *)
Fixpoint revoke_chunks (client : boto_client) (accountid : string)
    (chunks : list (list lf_entry)) (failures : list failure) (c : cloud)
    : (list failure * result unit) * cloud :=
  match chunks with
  | [] => ((failures, Ok tt), c)
  | entries_chunk :: rest =>
      match Client.batch_revoke_permissions client accountid entries_chunk c with
      | (Ok response_Failures, c') =>
          revoke_chunks client accountid rest (failures ++ response_Failures) c'
      | (Raise e, c') => ((failures, Raise e), c')
      end
  end.

(** [for failure in failures: if not (...): raise e] *)
Fixpoint raise_unless_already_revoked (e : exn) (failures : list failure) : result unit :=
  match failures with
  | [] => Ok tt
  | f :: rest => if negb (already_revoked f) then Raise e
                 else raise_unless_already_revoked e rest
  end.

(** The text of the failures in the message of the raised error; only the
    ['Error'] part of each failure is kept in the model. *)
Definition repr_failures (failures : list failure) : string :=
  "[" +:+ Py.join ", " ((fun f => "{'Error': {'ErrorCode': '" +:+ ErrorCode f +:+
                                  "', 'ErrorMessage': '" +:+ ErrorMessage f +:+ "'}}")
                         <$> failures) +:+ "]".

Definition batch_revoke_permissions (client : boto_client) (accountid : string)
    (entries : list lf_entry) : Aws unit :=
  fun c =>
    let '((failures, tried), c') :=
      revoke_chunks client accountid (entries_chunks entries) [] c in
    let tried :=
      match tried with
      | Ok _ =>
          match failures with
          | [] => Ok tt
          | _ => Raise (ClientError "LakeFormation.batch_revoke_permissions"
                          ("Operation ended with failures: " +:+ repr_failures failures))
          end
      | Raise e => Raise e
      end in
    match tried with
    | Raise e => if is_ClientError e then (raise_unless_already_revoked e failures, c')
                 else (Raise e, c')
    | Ok _ => (Ok tt, c')
    end.


(** ** Share items *)

(** The second argument of [get_share_item] is typed [Any]. *)
Inductive share_category : Type :=
  | a_table (table : DatasetTable.t)
  | a_folder (folder : DatasetStorageLocation.t)
  | anything_else.

(** A share item is a row of the session: the model holds its position in
    [share_object_items]. *)
Definition get_share_item (share : ShareObject.t) (category : share_category) : M nat :=
  let* category_uri :=
    match category with
    | a_table t => ret (DatasetTable.tableUri t)
    | a_folder l => ret (DatasetStorageLocation.locationUri l)
    | anything_else => raise (InvalidInput "share_category")
    end in
  let* share_item := gets (fun w =>
    list_find (fun i => ShareObjectItem.itemUri i = category_uri /\
                        ShareObjectItem.shareUri i = ShareObject.shareUri share)
              (share_object_items (session w))) in
  match share_item with
  | Some (index, _) => ret index
  | None => raise (ObjectNotFound "ShareObjectItem" category_uri)
  end.

Definition with_status (status : ShareObjectStatus) (i : ShareObjectItem.t)
    : ShareObjectItem.t :=
  {| ShareObjectItem.shareUri := ShareObjectItem.shareUri i;
     ShareObjectItem.itemUri := ShareObjectItem.itemUri i;
     ShareObjectItem.GlueTableName := ShareObjectItem.GlueTableName i;
     ShareObjectItem.S3AccessPointName := ShareObjectItem.S3AccessPointName i;
     ShareObjectItem.status := status |}.

(** [share_item.status = status; session.commit()] *)
Definition update_share_item_status (share_item : nat) (status : ShareObjectStatus)
    : M nat :=
  modify (set_session (set_share_object_items (alter (with_status status) share_item))) >>
  ret share_item.

(** [share_item.S3AccessPointName] *)
Definition S3AccessPointName_of (share_item : nat) : M string :=
  let* row := gets (fun w => share_object_items (session w) !! share_item) in
  let* row := not_None "S3AccessPointName" row in
  ret (ShareObjectItem.S3AccessPointName row).

(** ** Tables: granting *)

Record source_data : Type := {
  source_accountid : string;
  source_region : string;
  source_database : string;
  source_tablename : string;
}.

Record target_data : Type := {
  target_accountid : string;
  target_region : string;
  target_principals : list string;
}.

Definition revoke_iamallowedgroups_super_permission_from_table
    (client : boto_client) (accountid database table : string) : Aws unit :=
  try_except
    (let* id := uuid4 in
     batch_revoke_permissions client accountid
       [ {| Id := Some id;
            Principal := "EVERYONE";
            Resource := ResTable database table (Some accountid);
            Permissions := ["ALL"];
            PermissionsWithGrantOption := Some [] |} ])
    is_ClientError
    (fun e => ret tt).

Definition grant_permissions_to_database (client : boto_client) (principals : list string)
    (database_name : string) (permissions : list string) : Aws unit :=
  for_each principals (fun principal =>
    try_except
      (Client.grant_permissions client
         {| Id := None;
            Principal := principal;
            Resource := ResDatabase database_name;
            Permissions := permissions;
            PermissionsWithGrantOption := None |})
      is_ClientError
      (fun e => ret tt)).

Definition grant_permissions_to_table (client : boto_client)
    (principal database_name table_name : string) (permissions : list string)
    (permissions_with_grant_options : option (list string)) : Aws unit :=
  try_except
    (Client.grant_permissions client
       {| Id := None;
          Principal := principal;
          Resource := ResTable database_name table_name None;
          Permissions := permissions;
          PermissionsWithGrantOption :=
            match permissions_with_grant_options with
            | Some (p :: ps) => Some (p :: ps)
            | _ => None
            end |})
    is_ClientError
    (fun e => ret tt).

Definition share_table_with_target_account (source : source_data) (target : target_data)
    : Aws bool :=
  let source_accountid := source_accountid source in
  let source_lf_client := SessionHelper.client source_accountid (source_region source) in
  let target_accountid := target_accountid target in
  try_except
    (revoke_iamallowedgroups_super_permission_from_table
       source_lf_client source_accountid (source_database source) (source_tablename source) >>
     grant_permissions_to_table
       source_lf_client target_accountid (source_database source) (source_tablename source)
       ["DESCRIBE"; "SELECT"] (Some ["DESCRIBE"; "SELECT"]) >>
     ret true)
    is_ClientError
    (fun e => raise e).

Definition grant_resource_link_permission_on_target (client : boto_client)
    (source : source_data) (target : target_data) : Aws unit :=
  for_each (target_principals target) (fun principal =>
    Client.grant_permissions client
      {| Id := None;
         Principal := principal;
         Resource := ResTableWithColumns (source_database source) (source_tablename source)
                       (source_accountid source);
         Permissions := ["DESCRIBE"; "SELECT"];
         PermissionsWithGrantOption := Some [] |}).

Definition grant_resource_link_permission (lakeformation_client : boto_client)
    (source : source_data) (target : target_data) (target_database : string) : Aws unit :=
  for_each (target_principals target) (fun principal =>
    try_except
      (Client.grant_permissions lakeformation_client
         {| Id := None;
            Principal := principal;
            Resource := ResTable target_database (source_tablename source)
                          (Some (target_accountid target));
            Permissions := ["DESCRIBE"; "DROP"; "ALL"];
            PermissionsWithGrantOption := Some [] |})
      is_ClientError
      (fun e => ret tt)).

Definition create_resource_link_on_target_account (source : source_data)
    (target : target_data) : Aws unit :=
  let lakeformation_client :=
    SessionHelper.client (target_accountid target) (target_region target) in
  let target_database := source_database source +:+ "shared" in
  try_except
    (Glue._create_table (target_accountid target) (target_region target) target_database
       (source_tablename source) >>
     grant_permissions_to_database lakeformation_client (target_principals target)
       target_database ["ALL"] >>
     grant_resource_link_permission lakeformation_client source target target_database >>
     grant_resource_link_permission_on_target lakeformation_client source target)
    is_ClientError
    (fun e => raise e).

Definition get_resource_share_invitations (client : boto_client) : Aws (list string) :=
  try_except
    (Client.get_resource_share_invitations client)
    is_ClientError
    (fun e => raise e).

Definition accept_resource_share_invitation (client : boto_client)
    (resource_share_invitation_arn : string) : Aws unit :=
  try_except
    (Client.accept_resource_share_invitation client resource_share_invitation_arn)
    is_ClientError
    (fun e =>
       match e with
       | ClientError Code _ =>
           if String.eqb Code "ResourceShareInvitationAlreadyAcceptedException"
           then ret tt
           else raise e
       | _ => raise e
       end).

Definition accept_ram_invitation (source : source_data) (target : target_data) : Aws bool :=
  let ram := SessionHelper.client (target_accountid target) (target_region target) in
  let* ram_invitations := get_resource_share_invitations ram in
  for_each ram_invitations (fun invitation =>
    accept_resource_share_invitation ram invitation) >>
  ret true.

Definition add_quicksight_group_to_shared_with_principals
    (target_environment : Environment.t) (principals : list string) : Aws (list string) :=
  try_except
    (let* group := Quicksight.describe_group (Environment.AwsAccountId target_environment) in
     match group with
     | Some Arn => if Py.truthy_str Arn then ret (principals ++ [Arn]) else ret principals
     | None => ret principals
     end)
    is_ClientError
    (fun e => ret principals).

Definition share_tables (share : ShareObject.t)
    (source_environment target_environment : Environment.t)
    (shared_tables : list DatasetTable.t) (principals : list string) : M unit :=
  for_each shared_tables (fun table =>
    let* share_item := get_share_item share (a_table table) in
    update_share_item_status share_item Share_In_Progress >>
    try_except
      (let source :=
         {| source_accountid := Environment.AwsAccountId source_environment;
            source_region := Environment.region source_environment;
            source_database := DatasetTable.GlueDatabaseName table;
            source_tablename := DatasetTable.GlueTableName table |} in
       let target :=
         {| target_accountid := Environment.AwsAccountId target_environment;
            target_region := Environment.region target_environment;
            target_principals := principals |} in
       lift_aws (share_table_with_target_account source target) >>
       lift_aws (accept_ram_invitation source target) >>
       lift_aws (create_resource_link_on_target_account source target) >>
       update_share_item_status share_item Share_Succeeded >>
       ret tt)
      any_Exception
      (fun e =>
         update_share_item_status share_item Share_Failed >>
         AlarmService.trigger_table_sharing_failure_alarm table share target_environment)).

(** ** Folders: the four policy steps *)

(** Truthiness of what a handler returned for a policy: a JSON text is
    never empty, so only [None] is false. *)
Definition truthy_text (s : option text) : bool :=
  match s with Some _ => true | None => false end.

(** [p[k].append(x)] *)
Definition append_at (p : value) (k : string) (x : value) : result value :=
  let? l := getitem p k in
  let? l := Json.append l x in
  setitem p k l.

(** [p[k].extend(xs)] *)
Definition extend_at (p : value) (k : string) (xs : list value) : result value :=
  let? l := getitem p k in
  let? l := Json.extend l xs in
  setitem p k l.

(** [sid in ["AllowAllToAdmin", "DelegateAccessToAccessPoint"]] *)
Definition is_admin_sid (sid : value) : bool :=
  existsb (fun s => Json.eqb sid (VStr s)) ["AllowAllToAdmin"; "DelegateAccessToAccessPoint"].

(** [for statement in ...: if statement.get("Sid") in [...]: return] *)
Fixpoint has_admin_statement (statements : list value) : result bool :=
  match statements with
  | [] => Ok false
  | statement :: rest =>
      let? sid := Json.get statement "Sid" in
      if is_admin_sid sid then Ok true else has_admin_statement rest
  end.

Definition bucket_resources (bucket_name : string) : value :=
  VList [VStr ("arn:aws:s3:::" +:+ bucket_name);
         VStr ("arn:aws:s3:::" +:+ bucket_name +:+ "/*")].

Definition manage_bucket_policy
    (dataset_admin source_account_id bucket_name source_env_admin : string) : Aws unit :=
  let* policy_text := S3.get_bucket_policy source_account_id bucket_name in
  let* bucket_policy := of_result (json_loads policy_text) in
  let* statements := of_result (let? s := getitem bucket_policy "Statement" in iter s) in
  let* found := of_result (has_admin_statement statements) in
  if found then ret tt else
  let* delegation_role := SessionHelper.get_delegation_role_arn source_account_id in
  let* role_ids := SessionHelper.get_role_ids source_account_id
                     [dataset_admin; source_env_admin; delegation_role] in
  let exceptions_roleId := (fun item => VStr (item +:+ ":*")) <$> role_ids in
  let allow_owner_access :=
    VDict [("Sid", VStr "AllowAllToAdmin");
           ("Effect", VStr "Allow");
           ("Principal", VStr "*");
           ("Action", VStr "s3:*");
           ("Resource", bucket_resources bucket_name);
           ("Condition", VDict [("StringLike",
              VDict [("aws:userId", VList exceptions_roleId)])])] in
  let delegated_to_accesspoint :=
    VDict [("Sid", VStr "DelegateAccessToAccessPoint");
           ("Effect", VStr "Allow");
           ("Principal", VStr "*");
           ("Action", VStr "s3:*");
           ("Resource", bucket_resources bucket_name);
           ("Condition", VDict [("StringEquals",
              VDict [("s3:DataAccessPointAccount", VStr source_account_id)])])] in
  let* bucket_policy := of_result (append_at bucket_policy "Statement" allow_owner_access) in
  let* bucket_policy := of_result (append_at bucket_policy "Statement" delegated_to_accesspoint) in
  S3.create_bucket_policy source_account_id bucket_name (json_dumps bucket_policy).

(** [sep.join(v)] *)
Fixpoint all_str (items : list value) : result (list string) :=
  match items with
  | [] => Ok []
  | VStr s :: rest => let? strs := all_str rest in Ok (s :: strs)
  | _ :: _ => Raise (TypeError "sequence item: expected str instance")
  end.

Definition str_join (sep : string) (v : value) : result string :=
  let? items := iter v in
  let? strs := all_str items in
  Ok (Py.join sep strs).

(** [policy["Statement"][0]["Resource"]] *)
Definition first_statement_resource (policy : value) : result value :=
  let? statements := getitem policy "Statement" in
  let? statement := getitem0 statements in
  getitem statement "Resource".

(** The four resources of a dataset folder share in the target role policy. *)
Definition dataset_resources (bucket_name access_point_name : string) (dataset : Dataset.t)
    : list value :=
  let access_point :=
    "arn:aws:s3:" +:+ Dataset.region dataset +:+ ":" +:+ Dataset.AwsAccountId dataset +:+
    ":accesspoint/" +:+ access_point_name in
  [VStr ("arn:aws:s3:::" +:+ bucket_name);
   VStr ("arn:aws:s3:::" +:+ bucket_name +:+ "/*");
   VStr access_point;
   VStr (access_point +:+ "/*")].

Definition truthy_policy (p : option value) : bool :=
  match p with Some v => Json.truthy v | None => false end.

Definition grant_target_role_access_policy
    (bucket_name access_point_name target_account_id target_env_admin : string)
    (dataset : Dataset.t) : Aws unit :=
  let* existing_policy :=
    IAM.get_role_policy target_account_id target_env_admin "targetDatasetAccessControlPolicy" in
  (* [policy] is [None] below where the code returns early *)
  let* policy :=
    if truthy_policy existing_policy then
      let* existing_policy := not_None "__getitem__" existing_policy in
      let* resource := of_result (first_statement_resource existing_policy) in
      let* joined := of_result (str_join "," resource) in
      if negb (Py.str_in bucket_name joined) then
        let target_resources := dataset_resources bucket_name access_point_name dataset in
        (* [list.extend] returns [None], and that is what [policy] gets *)
        let* extended := of_result (Json.extend resource target_resources) in
        ret (Some VNone)
      else ret None
    else
      ret (Some (VDict [
        ("Version", VStr "2012-10-17");
        ("Statement", VList [
           VDict [("Effect", VStr "Allow");
                  ("Action", VList [VStr "s3:*"]);
                  ("Resource",
                   VList (dataset_resources bucket_name access_point_name dataset))]])]))
  in
  match policy with
  | None => ret tt
  | Some policy =>
      IAM.update_role_policy target_account_id target_env_admin
        "targetDatasetAccessControlPolicy" (json_dumps policy)
  end.

(** *** A Python dict keyed by the [Sid] of the statements

    [{item["Sid"]: item for item in statements}]: a later item with an equal
    key replaces the value and keeps the place (and the key) of the first. *)

Definition hashable (v : value) : bool :=
  match v with
  | VList _ | VDict _ => false
  | _ => true
  end.

Fixpoint dict_lookup (k : value) (d : list (value * value)) : option value :=
  match d with
  | [] => None
  | (k', v) :: rest => if Json.eqb k' k then Some v else dict_lookup k rest
  end.

Fixpoint dict_update (k v : value) (d : list (value * value)) : list (value * value) :=
  match d with
  | [] => [(k, v)]
  | (k', v') :: rest =>
      if Json.eqb k' k then (k', v) :: rest else (k', v') :: dict_update k v rest
  end.

Definition dict_mem (k : value) (d : list (value * value)) : bool :=
  match dict_lookup k d with Some _ => true | None => false end.

(** [d[k]] *)
Definition dict_getitem (d : list (value * value)) (k : string) : result value :=
  match dict_lookup (VStr k) d with
  | Some v => Ok v
  | None => Raise (KeyError k)
  end.

Definition dict_values (d : list (value * value)) : list value := snd <$> d.

Fixpoint by_sid_from (statements : list (value * value)) (items : list value)
    : result (list (value * value)) :=
  match items with
  | [] => Ok statements
  | item :: rest =>
      let? sid := getitem item "Sid" in
      if hashable sid then by_sid_from (dict_update sid item statements) rest
      else Raise (TypeError "unhashable type")
  end.

Definition by_sid (policy : value) : result (list (value * value)) :=
  let? statements := getitem policy "Statement" in
  let? items := iter statements in
  by_sid_from [] items.

(** [statement["Condition"]["StringLike"]["s3:prefix"]] *)
Definition condition_prefix (statement : value) : result value :=
  let? condition := getitem statement "Condition" in
  let? string_like := getitem condition "StringLike" in
  getitem string_like "s3:prefix".

(** [statement["Condition"]["StringLike"]["s3:prefix"] = prefix_list] *)
Definition set_condition_prefix (statement prefix_list : value) : result value :=
  let? condition := getitem statement "Condition" in
  let? string_like := getitem condition "StringLike" in
  let? string_like := setitem string_like "s3:prefix" prefix_list in
  let? condition := setitem condition "StringLike" string_like in
  setitem statement "Condition" condition.

(** [if isinstance(l, str): l = [l]] *)
Definition as_list (l : value) : value :=
  if isinstance_str l then VList [l] else l.

(** The branch of [manage_access_point_and_policy] for a role that has its
    statements already. *)
Definition extend_role_statements (existing_policy : value)
    (statements : list (value * value))
    (target_env_admin_id access_point_arn s3_prefix : string) : result value :=
  let sid0 := target_env_admin_id +:+ "0" in
  let sid1 := target_env_admin_id +:+ "1" in
  let? statement0 := dict_getitem statements sid0 in
  let? prefix_list := condition_prefix statement0 in
  let prefix_list := as_list prefix_list in
  let? present := contains prefix_list (s3_prefix +:+ "/*") in
  let? statements :=
    if negb present then
      let? prefix_list := Json.append prefix_list (VStr (s3_prefix +:+ "/*")) in
      let? statement0 := set_condition_prefix statement0 prefix_list in
      Ok (dict_update (VStr sid0) statement0 statements)
    else Ok statements in
  let? statement1 := dict_getitem statements sid1 in
  let? resource_list := getitem statement1 "Resource" in
  let resource_list := as_list resource_list in
  let? present := contains resource_list (access_point_arn +:+ "/object/" +:+ s3_prefix +:+ "/*") in
  let? statements :=
    if negb present then
      let? resource_list :=
        Json.append resource_list
          (VStr (access_point_arn +:+ "/object/" +:+ s3_prefix +:+ "/*")) in
      let? statement1 := setitem statement1 "Resource" resource_list in
      Ok (dict_update (VStr sid1) statement1 statements)
    else Ok statements in
  setitem existing_policy "Statement" (VList (dict_values statements)).

(** The branch of [manage_access_point_and_policy] for an access point
    that has a policy. *)
Definition update_access_point_policy (existing_policy : option text)
    (target_env_admin_id access_point_arn s3_prefix : string) : result value :=
  let? existing_policy := json_loads existing_policy in
  let? statements := by_sid existing_policy in
  if dict_mem (VStr (target_env_admin_id +:+ "0")) statements then
    extend_role_statements existing_policy statements
      target_env_admin_id access_point_arn s3_prefix
  else
    let additional_policy :=
      S3.generate_access_point_policy_template target_env_admin_id access_point_arn s3_prefix in
    let? additional := getitem additional_policy "Statement" in
    let? additional := iter additional in
    extend_at existing_policy "Statement" additional.

Definition manage_access_point_and_policy
    (dataset_admin source_account_id target_account_id source_env_admin
     target_env_admin bucket_name s3_prefix access_point_name : string) : Aws unit :=
  let* access_point_arn := S3.get_bucket_access_point_arn source_account_id access_point_name in
  let* access_point_arn :=
    match access_point_arn with
    | Some arn =>
        if Py.truthy_str arn then ret arn
        else S3.create_bucket_access_point source_account_id bucket_name access_point_name
    | None => S3.create_bucket_access_point source_account_id bucket_name access_point_name
    end in
  let* existing_policy := S3.get_access_point_policy source_account_id access_point_name in
  let* target_env_admin_id := SessionHelper.get_role_id target_account_id target_env_admin in
  let* access_point_policy :=
    if truthy_text existing_policy then
      of_result (update_access_point_policy existing_policy
                   target_env_admin_id access_point_arn s3_prefix)
    else
      let access_point_policy :=
        S3.generate_access_point_policy_template target_env_admin_id access_point_arn
          s3_prefix in
      let* delegation_role := SessionHelper.get_delegation_role_arn source_account_id in
      let* role_ids := SessionHelper.get_role_ids source_account_id
                         [dataset_admin; source_env_admin; delegation_role] in
      let exceptions_roleId := (fun item => VStr (item +:+ ":*")) <$> role_ids in
      let admin_statement :=
        VDict [("Sid", VStr "AllowAllToAdmin");
               ("Effect", VStr "Allow");
               ("Principal", VStr "*");
               ("Action", VStr "s3:*");
               ("Resource", VStr access_point_arn);
               ("Condition", VDict [("StringLike",
                  VDict [("aws:userId", VList exceptions_roleId)])])] in
      of_result (append_at access_point_policy "Statement" admin_statement) in
  S3.attach_access_point_policy source_account_id access_point_name
    (json_dumps access_point_policy).

Definition update_dataset_bucket_key_policy
    (source_account_id target_account_id target_env_admin : string)
    (dataset : Dataset.t) : Aws unit :=
  let key_alias := "alias/" +:+ Dataset.KmsAlias dataset in
  let* kms_keyId := KMS.get_key_id source_account_id key_alias in
  let* existing_policy := KMS.get_key_policy source_account_id kms_keyId "default" in
  let* target_env_admin_id := SessionHelper.get_role_id target_account_id target_env_admin in
  match existing_policy with
  | Some policy_text =>
      if negb (str_in_text (target_env_admin_id +:+ ":*") policy_text) then
        let* policy := of_result (json_loads existing_policy) in
        let* policy := of_result (append_at policy "Statement"
          (VDict [("Sid", VStr target_env_admin_id);
                  ("Effect", VStr "Allow");
                  ("Principal", VDict [("AWS", VStr "*")]);
                  ("Action", VStr "kms:Decrypt");
                  ("Resource", VStr "*");
                  ("Condition", VDict [("StringLike",
                     VDict [("aws:userId", VStr (target_env_admin_id +:+ ":*"))])])])) in
        KMS.put_key_policy source_account_id kms_keyId "default" (json_dumps policy)
      else ret tt
  | None => ret tt
  end.

Definition share_folders (share : ShareObject.t)
    (source_env_group : option EnvironmentGroup.t) (target_env_group : EnvironmentGroup.t)
    (target_environment : Environment.t)
    (shared_folders : list DatasetStorageLocation.t) (dataset : Dataset.t) : M unit :=
  for_each shared_folders (fun folder =>
    let* share_item := get_share_item share (a_folder folder) in
    update_share_item_status share_item Share_In_Progress >>
    let source_account_id := DatasetStorageLocation.AWSAccountId folder in
    let* access_point_name := S3AccessPointName_of share_item in
    let bucket_name := DatasetStorageLocation.S3BucketName folder in
    let target_account_id := Environment.AwsAccountId target_environment in
    let* source_env_group := not_None "environmentIAMRoleArn" source_env_group in
    let source_env_admin := EnvironmentGroup.environmentIAMRoleArn source_env_group in
    let dataset_admin := Dataset.IAMDatasetAdminRoleArn dataset in
    let target_env_admin := EnvironmentGroup.environmentIAMRoleName target_env_group in
    let s3_prefix := DatasetStorageLocation.S3Prefix folder in
    try_except
      (lift_aws (manage_bucket_policy dataset_admin source_account_id bucket_name
                   source_env_admin) >>
       lift_aws (grant_target_role_access_policy bucket_name access_point_name
                   target_account_id target_env_admin dataset) >>
       lift_aws (manage_access_point_and_policy dataset_admin source_account_id
                   target_account_id source_env_admin target_env_admin bucket_name
                   s3_prefix access_point_name) >>
       lift_aws (update_dataset_bucket_key_policy source_account_id target_account_id
                   target_env_admin dataset) >>
       update_share_item_status share_item Share_Succeeded >>
       ret tt)
      any_Exception
      (fun e =>
         update_share_item_status share_item Share_Failed >>
         AlarmService.trigger_folder_sharing_failure_alarm folder share target_environment)).

(** ** Folders: revoking *)

(** [f"{x}"] for an [x] that may be [None] *)
Definition format_optional (x : option string) : string := default "None" x.

(** [statement["Condition"]["StringLike"]["s3:prefix"].remove(x)] and the
    like change a list inside a statement in place. *)
Definition remove_condition_prefix (statement : value) (x : string) : result value :=
  let? prefix_list := condition_prefix statement in
  let? prefix_list := Json.remove prefix_list (VStr x) in
  set_condition_prefix statement prefix_list.

Definition remove_resource (statement : value) (x : string) : result value :=
  let? resource_list := getitem statement "Resource" in
  let? resource_list := Json.remove resource_list (VStr x) in
  setitem statement "Resource" resource_list.

Definition delete_access_point_policy
    (source_account_id target_account_id access_point_name target_env_admin
     s3_prefix : string) : Aws unit :=
  let* policy_text := S3.get_access_point_policy source_account_id access_point_name in
  let* access_point_policy := of_result (json_loads policy_text) in
  let* access_point_arn := S3.get_bucket_access_point_arn source_account_id access_point_name in
  let* target_env_admin_id := SessionHelper.get_role_id target_account_id target_env_admin in
  let sid0 := target_env_admin_id +:+ "0" in
  let sid1 := target_env_admin_id +:+ "1" in
  let* statements := of_result (by_sid access_point_policy) in
  let* access_point_policy :=
    if dict_mem (VStr sid0) statements then
      of_result (
        let? statement0 := dict_getitem statements sid0 in
        let? prefix_list := condition_prefix statement0 in
        let? listed :=
          if isinstance_list prefix_list then contains prefix_list (s3_prefix +:+ "/*")
          else Ok false in
        if listed then
          let? statement0 := remove_condition_prefix statement0 (s3_prefix +:+ "/*") in
          let statements := dict_update (VStr sid0) statement0 statements in
          let? statement1 := dict_getitem statements sid1 in
          let? statement1 :=
            remove_resource statement1
              (format_optional access_point_arn +:+ "/object/" +:+ s3_prefix +:+ "/*") in
          let statements := dict_update (VStr sid1) statement1 statements in
          setitem access_point_policy "Statement" (VList (dict_values statements))
        else
          let? l := getitem access_point_policy "Statement" in
          let? l := Json.remove l statement0 in
          let? statement1 := dict_getitem statements sid1 in
          let? l := Json.remove l statement1 in
          setitem access_point_policy "Statement" l)
    else ret access_point_policy in
  S3.attach_access_point_policy source_account_id access_point_name
    (json_dumps access_point_policy).

(** [len(v)] *)
Definition len (v : value) : result nat :=
  match v with
  | VList l => Ok (length l)
  | VDict d => Ok (length d)
  | VStr s => Ok (String.length s)
  | _ => Raise (TypeError (type_name v))
  end.

Definition delete_access_point (source_account_id access_point_name : string) : Aws bool :=
  let* policy_text := S3.get_access_point_policy source_account_id access_point_name in
  let* access_point_policy := of_result (json_loads policy_text) in
  let* n := of_result (let? s := getitem access_point_policy "Statement" in len s) in
  if Nat.leb n 1 then
    S3.delete_bucket_access_point source_account_id access_point_name >>
    ret true
  else ret false.

(** [policy["Statement"][0]["Resource"].remove(item)] *)
Definition remove_first_statement_resource (policy : value) (item : value) : result value :=
  let? statements := getitem policy "Statement" in
  let? statement := getitem0 statements in
  let? resource := getitem statement "Resource" in
  let? resource := Json.remove resource item in
  let? statement := setitem statement "Resource" resource in
  let? statements := setitem0 statements statement in
  setitem policy "Statement" statements.

Fixpoint remove_all_resources (policy : value) (items : list value) : result value :=
  match items with
  | [] => Ok policy
  | item :: rest =>
      let? policy := remove_first_statement_resource policy item in
      remove_all_resources policy rest
  end.

Definition delete_target_role_access_policy
    (target_account_id target_env_admin bucket_name access_point_name : string)
    (dataset : Dataset.t) : Aws unit :=
  let* existing_policy :=
    IAM.get_role_policy target_account_id target_env_admin "targetDatasetAccessControlPolicy" in
  if truthy_policy existing_policy then
    let* existing_policy := not_None "__getitem__" existing_policy in
    let* resource := of_result (first_statement_resource existing_policy) in
    let* joined := of_result (str_join "," resource) in
    if Py.str_in bucket_name joined then
      let target_resources := dataset_resources bucket_name access_point_name dataset in
      let* existing_policy := of_result (remove_all_resources existing_policy target_resources) in
      let* resource := of_result (first_statement_resource existing_policy) in
      if negb (Json.truthy resource) then
        IAM.delete_role_policy target_account_id target_env_admin
          "targetDatasetAccessControlPolicy"
      else
        IAM.update_role_policy target_account_id target_env_admin
          "targetDatasetAccessControlPolicy" (json_dumps existing_policy)
    else ret tt
  else ret tt.

(** [[item for item in items if item["Sid"] != sid]] *)
Fixpoint without_sid (sid : string) (items : list value) : result (list value) :=
  match items with
  | [] => Ok []
  | item :: rest =>
      let? item_sid := getitem item "Sid" in
      let? rest := without_sid sid rest in
      Ok (if negb (Json.eqb item_sid (VStr sid)) then item :: rest else rest)
  end.

Definition delete_dataset_bucket_key_policy
    (source_account_id target_account_id target_env_admin : string)
    (dataset : Dataset.t) : Aws unit :=
  let key_alias := "alias/" +:+ Dataset.KmsAlias dataset in
  let* kms_keyId := KMS.get_key_id source_account_id key_alias in
  let* existing_policy := KMS.get_key_policy source_account_id kms_keyId "default" in
  let* target_env_admin_id := SessionHelper.get_role_id target_account_id target_env_admin in
  match existing_policy with
  | Some policy_text =>
      if str_in_text (target_env_admin_id +:+ ":*") policy_text then
        let* policy := of_result (json_loads existing_policy) in
        let* policy := of_result (
          let? statements := getitem policy "Statement" in
          let? items := iter statements in
          let? kept := without_sid target_env_admin_id items in
          setitem policy "Statement" (VList kept)) in
        KMS.put_key_policy source_account_id kms_keyId "default" (json_dumps policy)
      else ret tt
  | None => ret tt
  end.

Definition revoke_shared_folders (share : ShareObject.t)
    (source_env_group : option EnvironmentGroup.t) (target_env_group : EnvironmentGroup.t)
    (target_environment : Environment.t)
    (rejected_folders : list DatasetStorageLocation.t) (dataset : Dataset.t) : M unit :=
  for_each rejected_folders (fun folder =>
    let* rejected_item := get_share_item share (a_folder folder) in
    update_share_item_status rejected_item Revoke_In_Progress >>
    let source_account_id := DatasetStorageLocation.AWSAccountId folder in
    let* access_point_name := S3AccessPointName_of rejected_item in
    let bucket_name := DatasetStorageLocation.S3BucketName folder in
    let target_account_id := Environment.AwsAccountId target_environment in
    let target_env_admin := EnvironmentGroup.environmentIAMRoleName target_env_group in
    let s3_prefix := DatasetStorageLocation.S3Prefix folder in
    try_except
      (lift_aws (delete_access_point_policy source_account_id target_account_id
                   access_point_name target_env_admin s3_prefix) >>
       let* cleanup := lift_aws (delete_access_point source_account_id access_point_name) in
       (if cleanup : bool then
          lift_aws (delete_target_role_access_policy target_account_id target_env_admin
                      bucket_name access_point_name dataset) >>
          lift_aws (delete_dataset_bucket_key_policy source_account_id target_account_id
                      target_env_admin dataset)
        else ret tt) >>
       update_share_item_status rejected_item Revoke_Share_Succeeded >>
       ret tt)
      any_Exception
      (fun e =>
         update_share_item_status rejected_item Revoke_Share_Failed >>
         AlarmService.trigger_revoke_folder_sharing_failure_alarm (Some folder) share
           target_environment)).

(** [[prefix[:-2] for prefix in prefix_list]]; the elements of a prefix
    condition are strings, for anything else the model raises. *)
Fixpoint chop_prefixes (items : list value) : result (list string) :=
  match items with
  | [] => Ok []
  | VStr s :: rest => let? rest := chop_prefixes rest in Ok (Py.chop2 s :: rest)
  | v :: _ => Raise (TypeError (type_name v))
  end.

Definition clean_shared_folders (share : ShareObject.t)
    (source_env_group : option EnvironmentGroup.t) (target_env_group : EnvironmentGroup.t)
    (target_environment : Environment.t) (dataset : Dataset.t)
    (shared_folders : list DatasetStorageLocation.t) : M unit :=
  let source_account_id := Dataset.AwsAccountId dataset in
  let access_point_name :=
    Py.lower (Dataset.datasetUri dataset +:+ "-" +:+ ShareObject.principalId share) in
  let target_account_id := Environment.AwsAccountId target_environment in
  let target_env_admin := EnvironmentGroup.environmentIAMRoleName target_env_group in
  let* access_point_policy :=
    lift_aws (S3.get_access_point_policy source_account_id access_point_name) in
  if truthy_text access_point_policy then
    let* policy := of_result (json_loads access_point_policy) in
    let* target_env_admin_id :=
      lift_aws (SessionHelper.get_role_id target_account_id target_env_admin) in
    let* statements := of_result (by_sid policy) in
    if dict_mem (VStr (target_env_admin_id +:+ "0")) statements then
      let* prefix_list := of_result (
        let? statement0 := dict_getitem statements (target_env_admin_id +:+ "0") in
        let? prefix_list := condition_prefix statement0 in
        let? items := iter (as_list prefix_list) in
        chop_prefixes items) in
      let shared_prefix := DatasetStorageLocation.S3Prefix <$> shared_folders in
      let removed_prefixes := filter (fun prefix => prefix ∉ shared_prefix) prefix_list in
      for_each removed_prefixes (fun prefix =>
        let bucket_name := Dataset.S3BucketName dataset in
        try_except
          (lift_aws (delete_access_point_policy source_account_id target_account_id
                       access_point_name target_env_admin prefix) >>
           let* cleanup := lift_aws (delete_access_point source_account_id access_point_name) in
           if cleanup : bool then
             lift_aws (delete_target_role_access_policy target_account_id target_env_admin
                         bucket_name access_point_name dataset) >>
             lift_aws (delete_dataset_bucket_key_policy source_account_id target_account_id
                         target_env_admin dataset)
           else ret tt)
          any_Exception
          (fun e =>
             let* location :=
               api.get_location_by_s3_prefix prefix (Dataset.AwsAccountId dataset)
                 (Dataset.region dataset) in
             AlarmService.trigger_revoke_folder_sharing_failure_alarm location share
               target_environment))
    else ret tt
  else ret tt.

(** ** Tables: sweeping and revoking *)

(** The query of [clean_shared_database]: an item of that table name in an
    approved share of the dataset with the target environment. *)
Definition is_shared_query (table_name : string) (dataset : Dataset.t)
    (target_environment : Environment.t) : M (option ShareObjectItem.t) :=
  gets (fun w =>
    List.find
      (fun item =>
         existsb
           (fun share =>
              String.eqb (ShareObjectItem.shareUri item) (ShareObject.shareUri share) &&
              String.eqb (ShareObjectItem.GlueTableName item) table_name &&
              String.eqb (ShareObject.datasetUri share) (Dataset.datasetUri dataset) &&
              bool_decide (ShareObject.status share = Approved) &&
              String.eqb (ShareObject.environmentUri share)
                         (Environment.environmentUri target_environment))
           (share_objects (session w)))
      (share_object_items (session w))).

Definition clean_shared_database (dataset : Dataset.t)
    (shared_tables : list DatasetTable.t) (target_environment : Environment.t) : M unit :=
  let* shared_glue_tables :=
    lift_aws (Glue.list_glue_database_tables (Environment.AwsAccountId target_environment)
                (Dataset.GlueDatabaseName dataset +:+ "shared")
                (Environment.region target_environment)) in
  let shared_tables := DatasetTable.GlueTableName <$> shared_tables in
  let client := SessionHelper.client (Dataset.AwsAccountId dataset) (Dataset.region dataset) in
  let* tables_to_delete :=
    with_local ([] : list string) (
      for_each shared_glue_tables (fun table =>
        if bool_decide (table ∉ shared_tables) then
          let* is_shared := outer (is_shared_query table dataset target_environment) in
          (if negb (bool_decide (is_Some is_shared)) then
             let* found := outer (lift_aws (
               Glue.table_exists (Dataset.AwsAccountId dataset) (Dataset.region dataset)
                 (Dataset.GlueDatabaseName dataset) table)) in
             if found : bool then
               let* id := outer (lift_aws uuid4) in
               outer (lift_aws (
                 batch_revoke_permissions client (Environment.AwsAccountId target_environment)
                   [ {| Id := Some id;
                        Principal := Environment.AwsAccountId target_environment;
                        Resource := ResTableWithColumns (Dataset.GlueDatabaseName dataset)
                                      table (Dataset.AwsAccountId dataset);
                        Permissions := ["SELECT"];
                        PermissionsWithGrantOption := Some ["SELECT"] |} ]))
             else ret tt
           else ret tt) >>
          let* tables_to_delete := local in
          set_local (tables_to_delete ++ [table])
        else ret tt) >>
      local) in
  match tables_to_delete with
  | [] => ret tt
  | _ =>
      lift_aws (Glue.batch_delete_tables (Environment.AwsAccountId target_environment)
                  (Environment.region target_environment)
                  (Dataset.GlueDatabaseName dataset +:+ "shared") tables_to_delete)
  end.

Definition revoke_external_account_access_on_source_account
    (shared_tables : list DatasetTable.t)
    (source_environment target_environment : Environment.t) : Aws unit :=
  let client := SessionHelper.client (Environment.AwsAccountId source_environment)
                  (Environment.region source_environment) in
  with_local ([] : list lf_entry) (
    for_each shared_tables (fun table =>
      let* id := outer uuid4 in
      let* revoke_entries := local in
      set_local (revoke_entries ++
        [ {| Id := Some id;
             Principal := Environment.AwsAccountId target_environment;
             Resource := ResTableWithColumns (DatasetTable.GlueDatabaseName table)
                           (DatasetTable.GlueTableName table)
                           (Environment.AwsAccountId source_environment);
             Permissions := ["SELECT"];
             PermissionsWithGrantOption := Some ["SELECT"] |} ]) >>
      let* revoke_entries := local in
      outer (batch_revoke_permissions client (Environment.AwsAccountId target_environment)
               revoke_entries))).

Definition delete_resource_links_on_target_account (dataset : Dataset.t)
    (shared_tables : list DatasetTable.t) (target_environment : Environment.t) : Aws unit :=
  let resource_links := DatasetTable.GlueTableName <$> shared_tables in
  Glue.batch_delete_tables (Environment.AwsAccountId target_environment)
    (Environment.region target_environment)
    (Dataset.GlueDatabaseName dataset +:+ "shared") resource_links.

Definition revoke_resource_links_access_on_target_account
    (env_group : option EnvironmentGroup.t) (share : ShareObject.t)
    (shared_tables : list DatasetTable.t) (target_environment : Environment.t) : M unit :=
  let client := SessionHelper.client (Environment.AwsAccountId target_environment)
                  (Environment.region target_environment) in
  with_local ([] : list lf_entry) (
    for_each shared_tables (fun table =>
      let* share_item := outer (get_share_item share (a_table table)) in
      outer (update_share_item_status share_item Revoke_In_Progress) >>
      try_except
        (let* found := outer (lift_aws (
           Glue.table_exists (Environment.AwsAccountId target_environment)
             (Environment.region target_environment)
             (DatasetTable.GlueDatabaseName table +:+ "shared")
             (DatasetTable.GlueTableName table))) in
         if found : bool then
           let* id := outer (lift_aws uuid4) in
           let* env_group := not_None "environmentIAMRoleArn" env_group in
           let* revoke_entries := local in
           set_local (revoke_entries ++
             [ {| Id := Some id;
                  Principal := EnvironmentGroup.environmentIAMRoleArn env_group;
                  Resource := ResTable (DatasetTable.GlueDatabaseName table +:+ "shared")
                                (DatasetTable.GlueTableName table)
                                (Some (Environment.AwsAccountId target_environment));
                  Permissions := ["ALL"; "DESCRIBE"; "DROP"];
                  PermissionsWithGrantOption := None |} ]) >>
           let* revoke_entries := local in
           outer (lift_aws (
             batch_revoke_permissions client (Environment.AwsAccountId target_environment)
               revoke_entries)) >>
           outer (update_share_item_status share_item Revoke_Share_Succeeded) >>
           ret tt
         else ret tt)
        any_Exception
        (fun e =>
           outer (update_share_item_status share_item Revoke_Share_Failed) >>
           outer (AlarmService.trigger_revoke_sharing_failure_alarm table share
                    target_environment)))).

(** ** Entry points *)

Definition get_share_data (share_uri : string) (status : list ShareObjectStatus)
    : M (option EnvironmentGroup.t * EnvironmentGroup.t * Dataset.t * ShareObject.t *
         list DatasetTable.t * list DatasetStorageLocation.t *
         Environment.t * Environment.t) :=
  let* share := gets (fun w =>
    List.find (fun s => String.eqb (ShareObject.shareUri s) share_uri)
              (share_objects (session w))) in
  let* share := not_None "datasetUri" share in
  let* dataset := gets (fun w =>
    List.find (fun d => String.eqb (Dataset.datasetUri d) (ShareObject.datasetUri share))
              (datasets (session w))) in
  let* dataset := not_None "environmentUri" dataset in
  let* source_environment := api.get_environment_by_uri (Dataset.environmentUri dataset) in
  let* target_environment := api.get_environment_by_uri (ShareObject.environmentUri share) in
  let* shared_tables :=
    api.get_dataset_tables_shared_with_env (Dataset.datasetUri dataset)
      (Environment.environmentUri target_environment) status in
  let* shared_folders :=
    api.get_dataset_locations_shared_with_env (Dataset.datasetUri dataset) share_uri status in
  let* source_env_group :=
    api.get_environment_group (Dataset.SamlAdminGroupName dataset)
      (Dataset.environmentUri dataset) in
  let* target_env_group :=
    api.get_environment_group (ShareObject.principalId share)
      (ShareObject.environmentUri share) in
  match target_env_group with
  | None =>
      raise (Exception ("Share object Team " +:+ ShareObject.principalId share +:+
                        " is not a member of the environment " +:+
                        Environment.name target_environment +:+ "/" +:+
                        Environment.AwsAccountId target_environment))
  | Some target_env_group =>
      ret (source_env_group, target_env_group, dataset, share, shared_tables,
           shared_folders, source_environment, target_environment)
  end.

(** [session.query(models.ShareObject).filter(and_(
       models.Environment.environmentUri == environment_uri,
       models.ShareObject.status == Approved)).all()]

    The first condition is on a column of [models.Environment], a table the
    query does not select from otherwise: the query ranges over the pairs of
    a share object and an environment. *)
Definition other_approved_share_object_exists (environment_uri : string)
    : M (list ShareObject.t) :=
  gets (fun w =>
    share ← share_objects (session w);
    environment ← environments (session w);
    if String.eqb (Environment.environmentUri environment) environment_uri &&
       bool_decide (ShareObject.status share = Approved)
    then [share] else []).

Definition approve_share (share_uri : string) : M bool :=
  let* (source_env_group, target_env_group, dataset, share, shared_tables,
        shared_folders, source_environment, target_environment) :=
    enter "get_share_data" (get_share_data share_uri [Approved]) in
  let principals := [EnvironmentGroup.environmentIAMRoleArn target_env_group] in
  let* principals :=
    if Environment.dashboardsEnabled target_environment then
      lift_aws (add_quicksight_group_to_shared_with_principals target_environment principals)
    else ret principals in
  enter "share_tables"
    (share_tables share source_environment target_environment shared_tables principals) >>
  enter "clean_shared_database"
    (clean_shared_database dataset shared_tables target_environment) >>
  enter "share_folders"
    (share_folders share source_env_group target_env_group target_environment
       shared_folders dataset) >>
  enter "clean_shared_folders"
    (clean_shared_folders share source_env_group target_env_group target_environment
       dataset shared_folders) >>
  ret true.

Definition reject_share (share_uri : string) : M bool :=
  let* (source_env_group, target_env_group, dataset, share, shared_tables,
        shared_folders, source_environment, target_environment) :=
    enter "get_share_data" (get_share_data share_uri [Rejected]) in
  enter "revoke_resource_links_access_on_target_account"
    (revoke_resource_links_access_on_target_account source_env_group share shared_tables
       target_environment) >>
  enter "delete_resource_links_on_target_account"
    (lift_aws (delete_resource_links_on_target_account dataset shared_tables
                 target_environment)) >>
  enter "clean_shared_database"
    (clean_shared_database dataset shared_tables target_environment) >>
  let* others :=
    other_approved_share_object_exists (Environment.environmentUri target_environment) in
  (match others with
   | [] =>
       enter "revoke_external_account_access_on_source_account"
         (lift_aws (revoke_external_account_access_on_source_account shared_tables
                      source_environment target_environment))
   | _ => ret tt
   end) >>
  enter "revoke_shared_folders"
    (revoke_shared_folders share source_env_group target_env_group target_environment
       shared_folders dataset) >>
  ret true.

End ShareManager.
Import ShareManager.

(** The per-entry failures reported by a sequence of answers of the
    batch-revoke API. *)
Definition reported_failures (answers : list (response (list failure))) : list failure :=
  concat ((fun a => match a with Answer fs => fs | ServiceError _ _ => [] end) <$> answers).

Definition is_ServiceError {A} (a : response A) : bool :=
  match a with ServiceError _ _ => true | Answer _ => false end.

(** [s] occurs in [t]: what [s in t] tests on strings. *)
Definition occurs_in (s t : string) : Prop := exists a b, t = a +:+ s +:+ b.

(** The last character of a string. *)
Fixpoint last_char (s : string) : option ascii :=
  match s with
  | EmptyString => None
  | String c EmptyString => Some c
  | String _ rest => last_char rest
  end.

(** A dict as [{item["Sid"]: item for item in items}] builds it when no two
    items have equal Sids: every value sits under its own Sid, and no key
    equals one of [seen] or an earlier key. *)
Fixpoint well_keyed (seen : list value) (d : list (value * value)) : Prop :=
  match d with
  | [] => True
  | (k, v) :: rest =>
      getitem v "Sid" = Ok k /\ hashable k = true /\
      existsb (fun k' => Json.eqb k' k) seen = false /\
      well_keyed (seen ++ [k]) rest
  end.

(** The statements of a policy have pairwise distinct Sids: keyed by Sid
    they are as many as before. *)
Definition distinct_sids (policy : value) : bool :=
  match by_sid policy, (let? statements := getitem policy "Statement" in len statements) with
  | Ok statements, Ok n => Nat.eqb (length statements) n
  | _, _ => true
  end.

(** A policy holds the resource statement [<role id>1] of a role only next
    to its prefix statement [<role id>0]. *)
Definition paired_sids (target_env_admin_id : string) (policy : value) : bool :=
  match by_sid policy with
  | Ok statements =>
      implb (dict_mem (VStr (target_env_admin_id +:+ "1")) statements)
            (dict_mem (VStr (target_env_admin_id +:+ "0")) statements)
  | Raise _ => true
  end.

(** The policy of the access point, if it has one, is well formed for the
    role: distinct Sids, and the role's statements come in pairs. *)
Definition access_point_policy_well_formed (c : cloud)
    (source_account_id access_point_name target_env_admin_id : string) : bool :=
  match mjoin (access_points c !! (source_account_id, access_point_name)) with
  | Some policy_text =>
      distinct_sids (document policy_text) &&
      paired_sids target_env_admin_id (document policy_text)
  | None => true
  end.

(** Applying [step] in [c] and then once more leaves everything as the
    first application left it. *)
Definition applied_twice_as_once (step : Aws unit) (c : cloud) : Prop :=
  forall c1, step c = (Ok tt, c1) -> step c1 = (Ok tt, c1).

(** [statementCount] of the policy of an access point. *)
Definition access_point_statement_count (c : cloud) (account_id name : string)
    : option nat :=
  match mjoin (access_points c !! (account_id, name)) with
  | Some policy_text =>
      match getitem (document policy_text) "Statement" with
      | Ok (VList statements) => Some (length statements)
      | _ => None
      end
  | None => None
  end.

(** *** The grant sequence of one item

    The AWS calls of the [try] block of [share_tables] and [share_folders],
    as one computation. *)

Definition table_source (source_environment : Environment.t) (table : DatasetTable.t)
    : source_data :=
  {| source_accountid := Environment.AwsAccountId source_environment;
     source_region := Environment.region source_environment;
     source_database := DatasetTable.GlueDatabaseName table;
     source_tablename := DatasetTable.GlueTableName table |}.

Definition table_target (target_environment : Environment.t) (principals : list string)
    : target_data :=
  {| target_accountid := Environment.AwsAccountId target_environment;
     target_region := Environment.region target_environment;
     target_principals := principals |}.

Definition table_grant_sequence (source : source_data) (target : target_data) : Aws unit :=
  share_table_with_target_account source target >>
  accept_ram_invitation source target >>
  create_resource_link_on_target_account source target.

Definition folder_grant_sequence (source_env_group target_env_group : EnvironmentGroup.t)
    (target_environment : Environment.t) (folder : DatasetStorageLocation.t)
    (dataset : Dataset.t) (access_point_name : string) : Aws unit :=
  let source_account_id := DatasetStorageLocation.AWSAccountId folder in
  let bucket_name := DatasetStorageLocation.S3BucketName folder in
  let target_account_id := Environment.AwsAccountId target_environment in
  let source_env_admin := EnvironmentGroup.environmentIAMRoleArn source_env_group in
  let dataset_admin := Dataset.IAMDatasetAdminRoleArn dataset in
  let target_env_admin := EnvironmentGroup.environmentIAMRoleName target_env_group in
  let s3_prefix := DatasetStorageLocation.S3Prefix folder in
  manage_bucket_policy dataset_admin source_account_id bucket_name source_env_admin >>
  grant_target_role_access_policy bucket_name access_point_name target_account_id
    target_env_admin dataset >>
  manage_access_point_and_policy dataset_admin source_account_id target_account_id
    source_env_admin target_env_admin bucket_name s3_prefix access_point_name >>
  update_dataset_bucket_key_policy source_account_id target_account_id target_env_admin
    dataset.

(** The share has an item row for the catalog object [uri]. *)
Definition has_share_item (s : db) (share : ShareObject.t) (uri : string) : Prop :=
  Exists (fun i => ShareObjectItem.itemUri i = uri /\
                   ShareObjectItem.shareUri i = ShareObject.shareUri share)
         (share_object_items s).

(** The world in which the item [share_item] has ended in [status], the AWS
    side is [c], and the alarm [a] has been sent. *)
Definition item_ended (w : world) (share_item : nat) (status : ShareObjectStatus)
    (c : cloud) (sent : list alarm) : world :=
  {| session := set_share_object_items (alter (with_status status) share_item) (session w);
     aws := c; alarms := alarms w ++ sent; journal := journal w |}.

(** The status of the item at a position. *)
Definition status_of (w : world) (share_item : nat) : option ShareObjectStatus :=
  ShareObjectItem.status <$> share_object_items (session w) !! share_item.

(** The resource links of the shadow database of a table's database in the
    target account. *)
Definition resource_links (c : cloud) (target_environment : Environment.t)
    (table : DatasetTable.t) : list string :=
  default [] (glue c !! (Environment.AwsAccountId target_environment,
                         Environment.region target_environment,
                         DatasetTable.GlueDatabaseName table +:+ "shared")).

(** The world in which the run of the item [share_item] has begun. *)
Definition item_begun (w : world) (share_item : nat) (status : ShareObjectStatus) : world :=
  set_session (set_share_object_items (alter (with_status status) share_item)) w.

(** The batch revokes sent to Lake Formation of an account. *)
Definition is_batch_revoke_at (accountid : string) (x : call) : bool :=
  match x with
  | BatchRevokePermissions client _ _ _ => String.eqb (client_accountid client) accountid
  | _ => false
  end.

Definition batch_revokes_at (accountid : string) (c : cloud) : list call :=
  List.filter (is_batch_revoke_at accountid) (calls c).

(** *** Observations on the sweep of the shadow database *)

(** The tables whose column grants a call asks to revoke. *)
Definition revoked_columns_of (x : call) : list string :=
  match x with
  | BatchRevokePermissions _ _ entries _ =>
      omap (fun e => match Resource e with
                     | ResTableWithColumns _ name _ => Some name
                     | _ => None
                     end) entries
  | _ => []
  end.

Definition revoked_tables (c : cloud) : list string :=
  x ← calls c; revoked_columns_of x.

(** The shadow database of a dataset in the target account. *)
Definition shadow_database (dataset : Dataset.t) (target_environment : Environment.t)
    : string * string * string :=
  (Environment.AwsAccountId target_environment, Environment.region target_environment,
   Dataset.GlueDatabaseName dataset +:+ "shared").

Definition shadow_tables (c : cloud) (dataset : Dataset.t)
    (target_environment : Environment.t) : list string :=
  default [] (glue c !! shadow_database dataset target_environment).

(** The query of the sweep finds an approved share of the table. *)
Definition is_shared_in (w : world) (dataset : Dataset.t)
    (target_environment : Environment.t) (table_name : string) : bool :=
  match (is_shared_query table_name dataset target_environment w).1 with
  | Ok (Some _) => true
  | _ => false
  end.

(** The table is in the catalog of the dataset's own account. *)
Definition exists_at_source (w : world) (dataset : Dataset.t) (table_name : string) : bool :=
  match (Glue.table_exists (Dataset.AwsAccountId dataset) (Dataset.region dataset)
           (Dataset.GlueDatabaseName dataset) table_name (aws w)).1 with
  | Ok found => found
  | Raise _ => false
  end.

(** The objects of the shadow database that are not among the tables handed
    to the sweep. *)
Definition orphans (c : cloud) (dataset : Dataset.t) (target_environment : Environment.t)
    (shared_tables : list DatasetTable.t) : list string :=
  filter (fun t => t ∉ DatasetTable.GlueTableName <$> shared_tables)
         (shadow_tables c dataset target_environment).

(** *** Observations on the order of the steps of a run *)

(** A computation leaves an observation [f] of the state as it was,
    whether it returns or raises. *)
Definition keeps {S J A} (f : S -> J) (m : Run S A) : Prop :=
  forall s, f (m s).2 = f s.

(** From [w], the computation enters the steps of [steps] in this order,
    all of them if it returns, and no other step. *)
Definition logs_at {A} (w : world) (steps : list string) (m : M A) : Prop :=
  (exists n, journal (m w).2 = journal w ++ take n steps) /\
  (is_raise (m w).1 = false -> journal (m w).2 = journal w ++ steps).

(** The steps of the body of [approve_share], in the order of the code. *)
Definition approve_phases : list string :=
  ["get_share_data"; "share_tables"; "clean_shared_database"; "share_folders";
   "clean_shared_folders"].

(** The steps of the body of [reject_share], in the order of the code; the
    revoke at the source is under a condition. *)
Definition reject_phases (source_revoke : bool) : list string :=
  ["get_share_data"; "revoke_resource_links_access_on_target_account";
   "delete_resource_links_on_target_account"; "clean_shared_database"] ++
  (if source_revoke then ["revoke_external_account_access_on_source_account"] else []) ++
  ["revoke_shared_folders"].

(** The world in which a step of a run has just been entered. *)
Definition entered (step : string) (w : world) : world :=
  set_journal (fun j => j ++ [step]) w.

(** The [phases] run one after another from [w]: each of them is entered
    and runs from the world its predecessor left, and the first that raises
    ends the run.  The outcome is that of the last phase that ran, in the
    world it left. *)
Inductive runs_in_order : list (string * M unit) -> world -> result unit -> world -> Prop :=
  | runs_none w : runs_in_order [] w (Ok tt) w
  | runs_raise step phase phases w e w' :
      phase (entered step w) = (Raise e, w') ->
      runs_in_order ((step, phase) :: phases) w (Raise e) w'
  | runs_next step phase phases w w1 r w' :
      phase (entered step w) = (Ok tt, w1) ->
      runs_in_order phases w1 r w' ->
      runs_in_order ((step, phase) :: phases) w r w'.

(** What a run answers when its phases have ended with [r]. *)
Definition run_outcome (r : result unit) : result bool :=
  match r with Ok _ => Ok true | Raise e => Raise e end.

(** [approve_share] with its steps in the order C9 gives them: the table
    workflow, then the folder workflow, then the sweeper.  The steps are
    those of the code, each with the arguments of the code. *)
Definition approve_share_as_specified (share_uri : string) : M bool :=
  let* (source_env_group, target_env_group, dataset, share, shared_tables,
        shared_folders, source_environment, target_environment) :=
    enter "get_share_data" (get_share_data share_uri [Approved]) in
  let principals := [EnvironmentGroup.environmentIAMRoleArn target_env_group] in
  let* principals :=
    if Environment.dashboardsEnabled target_environment then
      lift_aws (add_quicksight_group_to_shared_with_principals target_environment principals)
    else ret principals in
  enter "share_tables"
    (share_tables share source_environment target_environment shared_tables principals) >>
  enter "share_folders"
    (share_folders share source_env_group target_env_group target_environment
       shared_folders dataset) >>
  enter "clean_shared_database"
    (clean_shared_database dataset shared_tables target_environment) >>
  enter "clean_shared_folders"
    (clean_shared_folders share source_env_group target_env_group target_environment
       dataset shared_folders) >>
  ret true.

(** *** Observations on the store *)

(** The URI [get_share_item] looks for: that of a table or of a folder. *)
Definition category_uri (category : share_category) : option string :=
  match category with
  | a_table table => Some (DatasetTable.tableUri table)
  | a_folder folder => Some (DatasetStorageLocation.locationUri folder)
  | anything_else => None
  end.

(** The row is the item of the share for the catalog object [uri]. *)
Definition is_item_of (share : ShareObject.t) (uri : string) (row : ShareObjectItem.t)
    : Prop :=
  ShareObjectItem.itemUri row = uri /\
  ShareObjectItem.shareUri row = ShareObject.shareUri share.

(** The columns of an item other than its status. *)
Definition item_key (row : ShareObjectItem.t) : string * string * string * string :=
  (ShareObjectItem.shareUri row, ShareObjectItem.itemUri row,
   ShareObjectItem.GlueTableName row, ShareObjectItem.S3AccessPointName row).

(** Everything of the store but the statuses of the items: the store with
    its items taken out, and the items without their status. *)
Definition store_but_statuses (w : world)
    : db * list (string * string * string * string) :=
  (set_share_object_items (fun _ => []) (session w),
   item_key <$> share_object_items (session w)).

(** A computation raises no exception but those [allowed]. *)
Definition raises_only {S A} (allowed : exn -> bool) (m : Run S A) : Prop :=
  forall s, match (m s).1 with Raise e => allowed e = true | Ok _ => True end.

(** The outcome of a computation, and the store it leaves, depend on
    nothing but the store. *)
Definition reads_the_store {A} (m : M A) : Prop :=
  forall w w', session w = session w' ->
    (m w).1 = (m w').1 /\ session (m w).2 = session (m w').2.

(** *** Observations on the calls made *)

(** The error a call was answered with, if it was. *)
Definition call_error (x : call) : option (string * string) :=
  let error {A} (answer : response A) :=
    match answer with ServiceError code msg => Some (code, msg) | Answer _ => None end in
  match x with
  | BatchRevokePermissions _ _ _ answer => error answer
  | GrantPermissions _ _ answer => error answer
  | GetResourceShareInvitations _ answer => error answer
  | AcceptResourceShareInvitation _ _ answer => error answer
  | DescribeGroup _ answer => error answer
  end.

(** The call is the grant of [grant] by [client]. *)
Definition is_grant (client : boto_client) (grant : lf_entry) (x : call) : Prop :=
  exists answer, x = GrantPermissions client grant answer.

(** The call accepts the invitation [arn], and the invitation is accepted
    afterwards: by this call, or as it was already. *)
Definition is_accepted (client : boto_client) (arn : string) (x : call) : Prop :=
  exists answer,
    x = AcceptResourceShareInvitation client arn answer /\
    match answer with
    | Answer _ => True
    | ServiceError code _ => code = "ResourceShareInvitationAlreadyAcceptedException"
    end.

(** *** Observations on the policies *)

(** The shape of the inline policy [grant_target_role_access_policy]
    creates: one statement allowing [s3:*] on [resources]. *)
Definition role_policy_on (resources : list value) : value :=
  VDict [
    ("Version", VStr "2012-10-17");
    ("Statement", VList [
       VDict [("Effect", VStr "Allow");
              ("Action", VList [VStr "s3:*"]);
              ("Resource", VList resources)]])].

(** The two statements of a role in the policy of an access point:
    [prefix] is what its first statement has under ["s3:prefix"], and
    [resource] the ["Resource"] of its second statement.  For a role with
    one folder S3 gives each of them back as a list of one element or as a
    string. *)
Definition role_statements (principal_id access_point_arn : string)
    (prefix resource : value) : list value :=
  [VDict [
     ("Sid", VStr (principal_id +:+ "0"));
     ("Effect", VStr "Allow");
     ("Principal", VDict [("AWS", VStr "*")]);
     ("Action", VStr "s3:ListBucket");
     ("Resource", VStr access_point_arn);
     ("Condition", VDict [
       ("StringLike", VDict [
         ("s3:prefix", prefix);
         ("aws:userId", VList [VStr (principal_id +:+ ":*")])])])];
   VDict [
     ("Sid", VStr (principal_id +:+ "1"));
     ("Effect", VStr "Allow");
     ("Principal", VDict [("AWS", VStr "*")]);
     ("Action", VStr "s3:GetObject");
     ("Resource", resource);
     ("Condition", VDict [
       ("StringLike", VDict [
         ("aws:userId", VList [VStr (principal_id +:+ ":*")])])])]].

(** A value that a policy holds once, as S3 gives it back: a string, or a
    list of one string. *)
Definition read_back (as_string : bool) (x : string) : value :=
  if as_string then VStr x else VList [VStr x].

(** The AWS calls of the [try] block of [revoke_shared_folders], as one
    computation. *)
Definition folder_revoke_sequence (target_env_group : EnvironmentGroup.t)
    (target_environment : Environment.t) (folder : DatasetStorageLocation.t)
    (dataset : Dataset.t) (access_point_name : string) : Aws unit :=
  let source_account_id := DatasetStorageLocation.AWSAccountId folder in
  let bucket_name := DatasetStorageLocation.S3BucketName folder in
  let target_account_id := Environment.AwsAccountId target_environment in
  let target_env_admin := EnvironmentGroup.environmentIAMRoleName target_env_group in
  let s3_prefix := DatasetStorageLocation.S3Prefix folder in
  delete_access_point_policy source_account_id target_account_id access_point_name
    target_env_admin s3_prefix >>
  let* cleanup := delete_access_point source_account_id access_point_name in
  if cleanup : bool then
    delete_target_role_access_policy target_account_id target_env_admin bucket_name
      access_point_name dataset >>
    delete_dataset_bucket_key_policy source_account_id target_account_id target_env_admin
      dataset
  else ret tt.

(** One turn of the loop of
    [revoke_resource_links_access_on_target_account]: the body of
    [for table in shared_tables], run on the [revoke_entries] that the
    turns before it have accumulated. *)
Definition revoke_link_turn (env_group : option EnvironmentGroup.t)
    (share : ShareObject.t) (target_environment : Environment.t) (table : DatasetTable.t)
    : Run (list lf_entry * world) unit :=
  let client := SessionHelper.client (Environment.AwsAccountId target_environment)
                  (Environment.region target_environment) in
  let* share_item := outer (get_share_item share (a_table table)) in
  outer (update_share_item_status share_item Revoke_In_Progress) >>
  try_except
    (let* found := outer (lift_aws (
       Glue.table_exists (Environment.AwsAccountId target_environment)
         (Environment.region target_environment)
         (DatasetTable.GlueDatabaseName table +:+ "shared")
         (DatasetTable.GlueTableName table))) in
     if found : bool then
       let* id := outer (lift_aws uuid4) in
       let* env_group := not_None "environmentIAMRoleArn" env_group in
       let* revoke_entries := local in
       set_local (revoke_entries ++
         [ {| Id := Some id;
              Principal := EnvironmentGroup.environmentIAMRoleArn env_group;
              Resource := ResTable (DatasetTable.GlueDatabaseName table +:+ "shared")
                            (DatasetTable.GlueTableName table)
                            (Some (Environment.AwsAccountId target_environment));
              Permissions := ["ALL"; "DESCRIBE"; "DROP"];
              PermissionsWithGrantOption := None |} ]) >>
       let* revoke_entries := local in
       outer (lift_aws (
         batch_revoke_permissions client (Environment.AwsAccountId target_environment)
           revoke_entries)) >>
       outer (update_share_item_status share_item Revoke_Share_Succeeded) >>
       ret tt
     else ret tt)
    any_Exception
    (fun e =>
       outer (update_share_item_status share_item Revoke_Share_Failed) >>
       outer (AlarmService.trigger_revoke_sharing_failure_alarm table share
                target_environment)).

(** The entry of a table in the revoke of the resource links: everything
    the group was granted on the link. *)
Definition link_revoke_entry (id : string) (env_group : EnvironmentGroup.t)
    (target_environment : Environment.t) (table : DatasetTable.t) : lf_entry :=
  {| Id := Some id;
     Principal := EnvironmentGroup.environmentIAMRoleArn env_group;
     Resource := ResTable (DatasetTable.GlueDatabaseName table +:+ "shared")
                   (DatasetTable.GlueTableName table)
                   (Some (Environment.AwsAccountId target_environment));
     Permissions := ["ALL"; "DESCRIBE"; "DROP"];
     PermissionsWithGrantOption := None |}.

(** The tables named by the column-level entries of a revoke. *)
Definition entry_tables (entries : list lf_entry) : list string :=
  omap (fun e => match Resource e with
                 | ResTableWithColumns _ name _ => Some name
                 | _ => None
                 end) entries.

(** ** Concrete inputs used by the examples *)
Module Sample.

Definition ok_services : services :=
  {| lf_batch_revoke_permissions := fun _ _ _ _ => Answer [];
     lf_grant_permissions := fun _ _ _ => Answer tt;
     ram_get_resource_share_invitations := fun _ _ => Answer [];
     ram_accept_resource_share_invitation := fun _ _ _ => Answer tt;
     quicksight_describe_group := fun _ _ => Answer None |}.

(** Every batch revoke is throttled. *)
Definition throttled_services : services :=
  {| lf_batch_revoke_permissions :=
       fun _ _ _ _ => ServiceError "ThrottlingException" "Rate exceeded";
     lf_grant_permissions := fun _ _ _ => Answer tt;
     ram_get_resource_share_invitations := fun _ _ => Answer [];
     ram_accept_resource_share_invitation := fun _ _ _ => Answer tt;
     quicksight_describe_group := fun _ _ => Answer None |}.

(** No table has the legacy grant: a revoke for 'EVERYONE' is answered
    with the failure Lake Formation reports for a grantee without
    permissions. *)
Definition no_legacy_grant_services : services :=
  {| lf_batch_revoke_permissions := fun _ _ _ entries =>
       Answer ((fun _ => {| ErrorCode := "InvalidInputException";
                            ErrorMessage := "Grantee has no permissions on the resource" |})
               <$> filter (fun e => Principal e = "EVERYONE") entries);
     lf_grant_permissions := fun _ _ _ => Answer tt;
     ram_get_resource_share_invitations := fun _ _ => Answer [];
     ram_accept_resource_share_invitation := fun _ _ _ => Answer tt;
     quicksight_describe_group := fun _ _ => Answer None |}.

(** The caller may not revoke: every batch revoke is answered with a
    failure for its first entry. *)
Definition denied_services : services :=
  {| lf_batch_revoke_permissions := fun _ _ _ _ =>
       Answer [{| ErrorCode := "AccessDeniedException";
                  ErrorMessage := "Insufficient Lake Formation permission(s)" |}];
     lf_grant_permissions := fun _ _ _ => Answer tt;
     ram_get_resource_share_invitations := fun _ _ => Answer [];
     ram_accept_resource_share_invitation := fun _ _ _ => Answer tt;
     quicksight_describe_group := fun _ _ => Answer None |}.

(** RAM cannot be reached. *)
Definition ram_down_services : services :=
  {| lf_batch_revoke_permissions := fun _ _ _ _ => Answer [];
     lf_grant_permissions := fun _ _ _ => Answer tt;
     ram_get_resource_share_invitations :=
       fun _ _ => ServiceError "ServiceUnavailableException" "try again";
     ram_accept_resource_share_invitation := fun _ _ _ => Answer tt;
     quicksight_describe_group := fun _ _ => Answer None |}.

(** Accounts with nothing in them. *)
Definition empty_cloud (s : services) : cloud :=
  {| service := s; calls := []; uuids := 0; glue := ∅;
     bucket_policies := ∅; access_points := ∅;
     access_point_arns := fun account name =>
       "arn:aws:s3:eu-west-1:" +:+ account +:+ ":accesspoint/" +:+ name;
     role_policies := ∅;
     role_ids := fun _ name => "AROA" +:+ name;
     delegation_role_arns := fun account =>
       "arn:aws:iam::" +:+ account +:+ ":role/dataallPivotRole";
     key_ids := fun _ alias => "key-" +:+ alias;
     key_policies := ∅ |}.

Definition lf_client : boto_client := SessionHelper.client "111111111111" "eu-west-1".

Definition select_entry (table : string) : lf_entry :=
  {| Id := Some table; Principal := "222222222222";
     Resource := ResTableWithColumns "db" table "111111111111";
     Permissions := ["SELECT"]; PermissionsWithGrantOption := Some ["SELECT"] |}.

Definition source_account : string := "111111111111".
Definition target_account : string := "222222222222".

Definition source_env : Environment.t :=
  {| Environment.environmentUri := "env-src"; Environment.name := "producers-env";
     Environment.AwsAccountId := source_account; Environment.region := "eu-west-1";
     Environment.dashboardsEnabled := false |}.

Definition target_env : Environment.t :=
  {| Environment.environmentUri := "env-tgt"; Environment.name := "consumers-env";
     Environment.AwsAccountId := target_account; Environment.region := "eu-west-1";
     Environment.dashboardsEnabled := false |}.

Definition other_env : Environment.t :=
  {| Environment.environmentUri := "env-other"; Environment.name := "other-env";
     Environment.AwsAccountId := "333333333333"; Environment.region := "eu-west-1";
     Environment.dashboardsEnabled := false |}.

Definition sales : Dataset.t :=
  {| Dataset.datasetUri := "ds1"; Dataset.environmentUri := "env-src";
     Dataset.SamlAdminGroupName := "producers"; Dataset.AwsAccountId := source_account;
     Dataset.region := "eu-west-1"; Dataset.GlueDatabaseName := "sales";
     Dataset.S3BucketName := "b1"; Dataset.KmsAlias := "ds1";
     Dataset.IAMDatasetAdminRoleArn := "ds1-admin" |}.

Definition producers : EnvironmentGroup.t :=
  {| EnvironmentGroup.groupUri := "producers"; EnvironmentGroup.environmentUri := "env-src";
     EnvironmentGroup.environmentIAMRoleArn := "arn:aws:iam::111111111111:role/producers";
     EnvironmentGroup.environmentIAMRoleName := "producers" |}.

Definition consumers : EnvironmentGroup.t :=
  {| EnvironmentGroup.groupUri := "consumers"; EnvironmentGroup.environmentUri := "env-tgt";
     EnvironmentGroup.environmentIAMRoleArn := "arn:aws:iam::222222222222:role/consumers";
     EnvironmentGroup.environmentIAMRoleName := "consumers" |}.

Definition share1 (status : ShareObjectStatus) : ShareObject.t :=
  {| ShareObject.shareUri := "share-1"; ShareObject.datasetUri := "ds1";
     ShareObject.environmentUri := "env-tgt"; ShareObject.principalId := "consumers";
     ShareObject.status := status |}.

Definition orders : DatasetTable.t :=
  {| DatasetTable.tableUri := "table-orders"; DatasetTable.GlueDatabaseName := "sales";
     DatasetTable.GlueTableName := "orders" |}.

Definition invoices : DatasetTable.t :=
  {| DatasetTable.tableUri := "table-invoices"; DatasetTable.GlueDatabaseName := "sales";
     DatasetTable.GlueTableName := "invoices" |}.

Definition p1 : DatasetStorageLocation.t :=
  {| DatasetStorageLocation.locationUri := "folder-p1";
     DatasetStorageLocation.AWSAccountId := source_account;
     DatasetStorageLocation.region := "eu-west-1";
     DatasetStorageLocation.S3BucketName := "b1";
     DatasetStorageLocation.S3Prefix := "p1" |}.

Definition item (share_uri item_uri table_name access_point : string) : ShareObjectItem.t :=
  {| ShareObjectItem.shareUri := share_uri; ShareObjectItem.itemUri := item_uri;
     ShareObjectItem.GlueTableName := table_name;
     ShareObjectItem.S3AccessPointName := access_point;
     ShareObjectItem.status := PendingApproval |}.

(** A store with the one share [share-1] of the table [orders] and the
    folder [p1] of the dataset [sales], in the given status, next to the
    share objects [others]. *)
Definition store (status : ShareObjectStatus) (others : list ShareObject.t)
    (other_items : list ShareObjectItem.t) : db :=
  {| share_objects := share1 status :: others;
     share_object_items :=
       [item "share-1" "table-orders" "orders" EmptyString;
        item "share-1" "folder-p1" EmptyString "ds1-consumers"] ++ other_items;
     datasets := [sales];
     environments := [source_env; target_env; other_env];
     environment_groups := [producers; consumers];
     dataset_tables_shared_with_env := fun dataset_uri environment_uri _ =>
       if String.eqb dataset_uri "ds1" && String.eqb environment_uri "env-tgt"
       then [orders] else [];
     dataset_locations_shared_with_env := fun dataset_uri share_uri _ =>
       if String.eqb dataset_uri "ds1" && String.eqb share_uri "share-1"
       then [p1] else [];
     location_by_s3_prefix := fun _ _ _ => None |}.

Definition policy_document (statements : list value) : text :=
  json_dumps (VDict [("Version", VStr "2012-10-17"); ("Statement", VList statements)]).

(** The source account with the bucket and the key of [sales], each with a
    policy without statements, and the given shadow catalog in the target
    account. *)
Definition cloud_with (s : services) (shadow_tables : list string) : cloud :=
  set_glue (fun g => <[(target_account, "eu-west-1", "salesshared") := shadow_tables]>
                       (<[(source_account, "eu-west-1", "sales") :=
                            ["orders"; "invoices"]]> g))
    (set_bucket_policies <[(source_account, "b1") := policy_document []]>
       (set_key_policies
          <[(source_account, "key-alias/ds1", "default") := policy_document []]>
          (empty_cloud s))).

Definition world_with (d : db) (c : cloud) : world :=
  {| session := d; aws := c; alarms := []; journal := [] |}.

Definition statement (sid effect : string) : value :=
  VDict [("Sid", VStr sid); ("Effect", VStr effect); ("Principal", VStr "*");
         ("Action", VStr "s3:GetObject"); ("Resource", VStr "*")].

(** The access point of [share-1] with the given policy statements. *)
Definition with_access_point (statements : list value) (c : cloud) : cloud :=
  set_access_points
    <[(source_account, "ds1-consumers") := Some (policy_document statements)]> c.

(** The step of [share_folders] on the access point of [share-1]. *)
Definition access_point_step : Aws unit :=
  manage_access_point_and_policy "ds1-admin" source_account target_account
    "arn:aws:iam::111111111111:role/producers" "consumers" "b1" "p1" "ds1-consumers".

(** The inline policy of the role [consumers], granting what an earlier
    share of another bucket needed. *)
Definition role_policy_text (resources : list string) : text :=
  json_dumps (VDict [
    ("Version", VStr "2012-10-17");
    ("Statement", VList [
       VDict [("Effect", VStr "Allow");
              ("Action", VList [VStr "s3:*"]);
              ("Resource", VList (VStr <$> resources))]])]).

Definition with_role_policy (resources : list string) (c : cloud) : cloud :=
  set_role_policies
    <[(target_account, "consumers", "targetDatasetAccessControlPolicy") :=
        role_policy_text resources]> c.

(** An approved share of another dataset with another environment. *)
Definition share2 : ShareObject.t :=
  {| ShareObject.shareUri := "share-2"; ShareObject.datasetUri := "ds2";
     ShareObject.environmentUri := "env-other"; ShareObject.principalId := "others";
     ShareObject.status := Approved |}.

(** An approved share of the dataset [sales] with the same target
    environment, asked for by another team, and its item: the table
    [invoices]. *)
Definition share3 : ShareObject.t :=
  {| ShareObject.shareUri := "share-3"; ShareObject.datasetUri := "ds1";
     ShareObject.environmentUri := "env-tgt"; ShareObject.principalId := "analysts";
     ShareObject.status := Approved |}.

Definition invoices_item : ShareObjectItem.t :=
  item "share-3" "table-invoices" "invoices" EmptyString.

(** [share-1] is rejected while [share-3] stays approved; the shadow
    database holds the links of both tables. *)
Definition two_shares_world : world :=
  world_with (store Rejected [share3] [invoices_item])
    (cloud_with ok_services ["orders"; "invoices"]).

End Sample.
(** * Properties *)

(** ** Chunking *)

Lemma take_add_split {A} (a b : nat) (l : list A) :
  take (a + b) l = take a l ++ take b (drop a l).
Proof.
  revert l; induction a as [|a IH]; intros l; simpl; [done|].
  destruct l as [|x l]; simpl; [by rewrite take_nil|].
  by rewrite IH.
Qed.

Lemma concat_slices {A} (l : list A) (step a n : nat) :
  concat ((fun i => Py.slice l i (i + step)) <$> ((fun k => 0 + k * step) <$> seq a n))
  = take (n * step) (drop (a * step) l).
Proof.
  revert a; induction n as [|n IH]; intros a; simpl; [done|].
  rewrite IH. unfold Py.slice.
  replace (a * step + step - a * step) with step by lia.
  rewrite take_add_split, drop_drop.
  by replace (a * step + step) with (step + a * step) by lia.
Qed.

Lemma entries_chunks_concat entries : concat (entries_chunks entries) = entries.
Proof.
  unfold entries_chunks, Py.range. rewrite concat_slices. simpl.
  apply take_ge.
  pose proof (Nat.div_mod_eq (length entries - 0 + 19) 20).
  pose proof (Nat.mod_upper_bound (length entries - 0 + 19) 20).
  simpl in *. lia.
Qed.

Lemma entries_chunks_length entries :
  length (entries_chunks entries) = (length entries + 19) / 20.
Proof.
  unfold entries_chunks, Py.range. rewrite !length_fmap, length_seq.
  simpl. by rewrite Nat.sub_0_r.
Qed.

Lemma entries_chunks_sizes entries :
  Forall (fun chunk => 1 <= length chunk <= 20) (entries_chunks entries).
Proof.
  unfold entries_chunks, Py.range. rewrite Forall_fmap, Forall_fmap.
  apply Forall_forall. intros k Hk. apply elem_of_seq in Hk. simpl.
  unfold Py.slice. rewrite length_take, length_drop.
  pose proof (Nat.div_mod_eq (length entries - 0 + 19) 20).
  pose proof (Nat.mod_upper_bound (length entries - 0 + 19) 20).
  simpl in *. lia.
Qed.

(** ** [batch_revoke_permissions] *)

Lemma raise_unless_already_revoked_spec e failures :
  raise_unless_already_revoked e failures =
  if existsb (fun f => negb (already_revoked f)) failures then Raise e else Ok tt.
Proof.
  induction failures as [|f fs IH]; simpl; [done|].
  destruct (already_revoked f); simpl; [exact IH | done].
Qed.

Lemma reported_failures_app a b :
  reported_failures (a ++ b) = reported_failures a ++ reported_failures b.
Proof. unfold reported_failures. by rewrite fmap_app, concat_app. Qed.

(** The loop of the [try] body: it calls the API on the chunks in order,
    stops at the first call that raises, and accumulates what was reported. *)
Lemma revoke_chunks_spec client accountid chunks :
  forall failures c failures' tried c',
    revoke_chunks client accountid chunks failures c = ((failures', tried), c') ->
    exists answers,
      length answers <= length chunks /\
      calls c' = calls c ++ zip_with (BatchRevokePermissions client accountid) chunks answers /\
      failures' = failures ++ reported_failures answers /\
      ((tried = Ok tt /\ length answers = length chunks /\
        forallb (fun a => negb (is_ServiceError a)) answers = true) \/
       (exists code msg, tried = Raise (ClientError code msg) /\
          last answers = Some (ServiceError code msg))).
Proof.
  induction chunks as [|chunk rest IH]; intros failures c failures' tried c' H; simpl in H.
  - inversion H; subst. exists []. simpl. rewrite !app_nil_r. eauto 10.
  - unfold Client.batch_revoke_permissions in H.
    destruct (lf_batch_revoke_permissions (service c) (calls c) client accountid chunk)
      as [fs|code msg] eqn:Hanswer; simpl in H.
    + apply IH in H as (answers & Hlen & Hcalls & Hfail & Hend).
      exists (Answer fs :: answers). simpl in *.
      rewrite Hcalls, Hfail, <- !app_assoc. simpl.
      split; [lia|]. split; [done|]. split; [done|].
      destruct Hend as [(-> & Hl & Hall)|(code & msg & -> & Hlast)].
      * left. by rewrite Hl, Hall.
      * right. exists code, msg. split; [done|].
        destruct answers; [done|]. exact Hlast.
    + inversion H; subst. exists [ServiceError code msg]. simpl.
      rewrite app_nil_r. split; [lia|].
      split; [by destruct rest|]. split; [reflexivity|].
      right. eauto.
Qed.

(** What one call of [batch_revoke_permissions] does, in terms of the
    answers the API gave. *)
Lemma batch_revoke_permissions_spec client accountid entries c :
  exists answers,
    length answers <= length (entries_chunks entries) /\
    calls (batch_revoke_permissions client accountid entries c).2 =
      calls c ++ zip_with (BatchRevokePermissions client accountid)
                   (entries_chunks entries) answers /\
    (length answers = length (entries_chunks entries) \/
     exists code msg, last answers = Some (ServiceError code msg)) /\
    is_raise (batch_revoke_permissions client accountid entries c).1 =
      existsb (fun f => negb (already_revoked f)) (reported_failures answers).
Proof.
  unfold batch_revoke_permissions.
  destruct (revoke_chunks client accountid (entries_chunks entries) [] c)
    as [[failures tried] c'] eqn:Hrun.
  apply revoke_chunks_spec in Hrun as (answers & Hlen & Hcalls & -> & Hend).
  exists answers. simpl.
  destruct Hend as [(-> & Hl & _)|(code & msg & -> & Hlast)].
  - destruct (reported_failures answers) as [|f fs] eqn:Hrep; simpl.
    + eauto.
    + rewrite raise_unless_already_revoked_spec. simpl.
      split; [done|]. split; [done|]. split; [by left|].
      by destruct (negb (already_revoked f)), (existsb _ fs).
  - simpl. rewrite raise_unless_already_revoked_spec.
    split; [done|]. split; [done|]. split; [right; eauto|].
    by destruct (existsb _ _).
Qed.

Lemma zip_with_answers_inj client accountid chunks :
  forall a b,
    length a <= length chunks -> length b <= length chunks ->
    zip_with (BatchRevokePermissions client accountid) chunks a =
    zip_with (BatchRevokePermissions client accountid) chunks b ->
    a = b.
Proof.
  induction chunks as [|ch chunks IH]; intros [|x a] [|y b] Ha Hb H;
    simpl in *; try done; try lia.
  inversion H; subst. f_equal. apply IH; [lia | lia | done].
Qed.

(** C5: the entries go to the API in consecutive chunks of at most 20 (45
    entries make 3 chunks), chunk after chunk until a call raises; the call
    raises exactly when one of the reported per-entry failures is not an
    [InvalidInputException] whose message contains 'Grantee has no
    permissions' or 'No permissions revoked', so it returns normally when
    every reported failure is of that kind. *)
Theorem batch_revoke_permissions_chunks_and_outcome client accountid entries c :
  concat (entries_chunks entries) = entries /\
  Forall (fun chunk => 1 <= length chunk <= 20) (entries_chunks entries) /\
  length (entries_chunks entries) = (length entries + 19) / 20 /\
  (forall e, length (entries_chunks (replicate 45 e)) = 3) /\
  exists answers,
    length answers <= length (entries_chunks entries) /\
    calls (batch_revoke_permissions client accountid entries c).2 =
      calls c ++ zip_with (BatchRevokePermissions client accountid)
                   (entries_chunks entries) answers /\
    (length answers = length (entries_chunks entries) \/
     exists code msg, last answers = Some (ServiceError code msg)) /\
    is_raise (batch_revoke_permissions client accountid entries c).1 =
      existsb (fun f => negb (already_revoked f)) (reported_failures answers).
Proof.
  split; [apply entries_chunks_concat|].
  split; [apply entries_chunks_sizes|].
  split; [apply entries_chunks_length|].
  split; [intros e; by rewrite entries_chunks_length, length_replicate|].
  apply batch_revoke_permissions_spec.
Qed.

(** C10: when a batch-revoke API call raises a [ClientError] and no
    per-entry failure has been recorded, [batch_revoke_permissions]
    returns normally: the error does not reach the caller. *)
Theorem batch_revoke_permissions_swallows_api_error
    client accountid entries c answers code msg :
  length answers <= length (entries_chunks entries) ->
  calls (batch_revoke_permissions client accountid entries c).2 =
    calls c ++ zip_with (BatchRevokePermissions client accountid)
                 (entries_chunks entries) answers ->
  last answers = Some (ServiceError code msg) ->
  reported_failures answers = [] ->
  (batch_revoke_permissions client accountid entries c).1 = Ok tt.
Proof.
  intros Hlen Hcalls Hlast Hnone.
  destruct (batch_revoke_permissions_spec client accountid entries c)
    as (answers' & Hlen' & Hcalls' & _ & Hraise).
  rewrite Hcalls in Hcalls'. apply app_inv_head in Hcalls'.
  apply zip_with_answers_inj in Hcalls'; [subst answers'|done|done].
  rewrite Hnone in Hraise. simpl in Hraise.
  destruct (batch_revoke_permissions client accountid entries c).1 as [[]|]; done.
Qed.

Lemma batch_revoke_permissions_swallows_api_error_witness :
  (batch_revoke_permissions Sample.lf_client "222222222222" [Sample.select_entry "t1"]
     (Sample.empty_cloud Sample.throttled_services)).1 = Ok tt.
Proof.
  apply (batch_revoke_permissions_swallows_api_error _ _ _ _
           [ServiceError "ThrottlingException" "Rate exceeded"]
           "ThrottlingException" "Rate exceeded").
  - vm_compute. lia.
  - reflexivity.
  - reflexivity.
  - reflexivity.
Defined.

(** ** Running monadic code *)

Lemma bind_Ok_inv {S A B} (m : Run S A) (k : A -> Run S B) s b s' :
  bind m k s = (Ok b, s') -> exists a s1, m s = (Ok a, s1) /\ k a s1 = (Ok b, s').
Proof.
  unfold bind. destruct (m s) as [[a|e] s1]; [eauto | done].
Qed.

Lemma bind_eq {S A B} (m : Run S A) (k : A -> Run S B) s a s1 :
  m s = (Ok a, s1) -> bind m k s = k a s1.
Proof. unfold bind. by intros ->. Qed.

Lemma bind_raise {S A B} (m : Run S A) (k : A -> Run S B) s e s1 :
  m s = (Raise e, s1) -> bind m k s = (Raise e, s1).
Proof. unfold bind. by intros ->. Qed.

Lemma run_eta_Ok {S A} (p : result A * S) a : p.1 = Ok a -> p = (Ok a, p.2).
Proof. destruct p as [r s]. simpl. by intros ->. Qed.

Lemma run_eta_Raise {S A} (p : result A * S) :
  is_raise p.1 = true -> exists e, p = (Raise e, p.2).
Proof. destruct p as [[a|e] s]; simpl; [done | eauto]. Qed.

Lemma of_result_Ok_inv {S A} (r : result A) (s s' : S) a :
  of_result r s = (Ok a, s') -> r = Ok a /\ s' = s.
Proof. unfold of_result. by intros [= -> ->]. Qed.

Lemma rbind_Ok_inv {A B} (r : result A) (k : A -> result B) b :
  rbind r k = Ok b -> exists a, r = Ok a /\ k a = Ok b.
Proof. destruct r; simpl; [eauto | done]. Qed.

(** Take the next [let*] of a successful run [H] apart. *)
Tactic Notation "next_bind" hyp(H) "as" ident(a) ident(s) ident(Hm) :=
  apply bind_Ok_inv in H as (a & s & Hm & H); cbv beta in H.

Tactic Notation "next_rbind" hyp(H) "as" ident(a) ident(Hm) :=
  apply rbind_Ok_inv in H as (a & Hm & H); cbv beta in H.

(** The next [let*] is an [of_result]: the state stays. *)
Tactic Notation "next_pure" hyp(H) "as" ident(a) ident(Hm) :=
  let s := fresh "s" in
  apply bind_Ok_inv in H as (a & s & Hm & H); cbv beta in H;
  apply of_result_Ok_inv in Hm as [Hm ->].

(** ** Python dicts *)

Lemma lookup_update_eq k v d : Json.lookup k (Json.update k v d) = Some v.
Proof.
  induction d as [|[k' v'] d IH]; simpl.
  - by rewrite String.eqb_refl.
  - destruct (String.eqb k' k) eqn:E; simpl; rewrite E; [done | exact IH].
Qed.

Lemma lookup_update_ne k k' v d :
  k <> k' -> Json.lookup k' (Json.update k v d) = Json.lookup k' d.
Proof.
  intros Hne. induction d as [|[k0 v0] d IH]; simpl.
  - destruct (String.eqb k k') eqn:E; [|done].
    apply String.eqb_eq in E. contradiction.
  - destruct (String.eqb k0 k) eqn:E; simpl.
    + apply String.eqb_eq in E. subst k0.
      destruct (String.eqb k k') eqn:E'; [|done].
      apply String.eqb_eq in E'. contradiction.
    + by rewrite IH.
Qed.

Lemma update_update k v v' d :
  Json.update k v (Json.update k v' d) = Json.update k v d.
Proof.
  induction d as [|[k0 v0] d IH]; simpl.
  - by rewrite String.eqb_refl.
  - destruct (String.eqb k0 k) eqn:E; simpl; rewrite E; [done | by rewrite IH].
Qed.

Lemma update_same k v d : Json.lookup k d = Some v -> Json.update k v d = d.
Proof.
  induction d as [|[k0 v0] d IH]; simpl; [done|].
  destruct (String.eqb k0 k) eqn:E.
  - by intros [= ->].
  - intros H. by rewrite IH.
Qed.

Lemma getitem_setitem_eq p k v p' :
  setitem p k v = Ok p' -> getitem p' k = Ok v.
Proof.
  destruct p; simpl; try done. intros [= <-]. simpl. by rewrite lookup_update_eq.
Qed.

Lemma getitem_setitem_ne p k k' v p' :
  k <> k' -> setitem p k v = Ok p' -> getitem p' k' = getitem p k'.
Proof.
  intros Hne. destruct p; simpl; try done. intros [= <-]. simpl.
  by rewrite lookup_update_ne.
Qed.

Lemma setitem_setitem p k v v' p' :
  setitem p k v' = Ok p' -> setitem p' k v = setitem p k v.
Proof.
  destruct p; simpl; try done. intros [= <-]. simpl. by rewrite update_update.
Qed.

Lemma setitem_same p k v : getitem p k = Ok v -> setitem p k v = Ok p.
Proof.
  destruct p; simpl; try done.
  destruct (Json.lookup k fields) eqn:E; [|done]. intros [= ->].
  by rewrite update_same.
Qed.

Lemma eqb_str_l s v : Json.eqb (VStr s) v = true -> v = VStr s.
Proof. destruct v; simpl; try done. intros H. apply String.eqb_eq in H. by subst. Qed.

Lemma eqb_str_r s v : Json.eqb v (VStr s) = true -> v = VStr s.
Proof. destruct v; simpl; try done. intros H. apply String.eqb_eq in H. by subst. Qed.

Lemma eqb_str_refl s : Json.eqb (VStr s) (VStr s) = true.
Proof. simpl. apply String.eqb_refl. Qed.

(** ** The bucket policy step *)

Lemma has_admin_statement_app statements added :
  has_admin_statement statements = Ok false ->
  has_admin_statement (statements ++ added) = has_admin_statement added.
Proof.
  induction statements as [|s rest IH]; simpl; [done|].
  destruct (Json.get s "Sid") as [sid|e]; simpl; [|done].
  destruct (is_admin_sid sid); [done | exact IH].
Qed.

Lemma manage_bucket_policy_again dataset_admin source_account_id bucket_name
    source_env_admin c c1 :
  manage_bucket_policy dataset_admin source_account_id bucket_name source_env_admin c
    = (Ok tt, c1) ->
  manage_bucket_policy dataset_admin source_account_id bucket_name source_env_admin c1
    = (Ok tt, c1).
Proof.
  intros H. pose proof H as Hfirst. unfold manage_bucket_policy in H.
  next_bind H as policy_text c' Htext. injection Htext as <- <-.
  next_pure H as bucket_policy Hloads.
  next_pure H as statements Hitems.
  next_rbind Hitems as stmts Hstmts.
  next_pure H as found Hfound.
  destruct found.
  { injection H as <-. exact Hfirst. }
  next_bind H as delegation c' Hd. injection Hd as <- <-.
  next_bind H as ids c' Hids. injection Hids as <- <-.
  next_pure H as policy1 Happ1.
  next_pure H as policy2 Happ2.
  injection H as <-.
  unfold append_at in Happ1, Happ2.
  rewrite Hstmts in Happ1. simpl in Happ1.
  next_rbind Happ1 as l Hl. destruct stmts; try done. injection Hl as <-.
  simpl in Hitems. injection Hitems as <-.
  rewrite (getitem_setitem_eq _ _ _ _ Happ1) in Happ2. simpl in Happ2.
  rewrite (setitem_setitem _ _ _ _ _ Happ1) in Happ2.
  unfold manage_bucket_policy.
  erewrite bind_eq; [|reflexivity]. simpl.
  rewrite lookup_insert_eq. simpl.
  erewrite bind_eq; [|reflexivity].
  rewrite (getitem_setitem_eq _ _ _ _ Happ2).
  erewrite bind_eq; [|reflexivity].
  rewrite <- app_assoc, has_admin_statement_app by done.
  reflexivity.
Qed.

(** ** Strings and [json.dumps] *)

Lemma append_cons x (a b : string) : String x a +:+ b = String x (a +:+ b).
Proof. reflexivity. Qed.

Lemma append_nil_l (b : string) : EmptyString +:+ b = b.
Proof. reflexivity. Qed.

Lemma append_assoc (a b c : string) : (a +:+ b) +:+ c = a +:+ (b +:+ c).
Proof.
  induction a as [|x a IH]; [done|]. by rewrite !append_cons, IH.
Qed.

Lemma append_nil_r (a : string) : a +:+ EmptyString = a.
Proof.
  induction a as [|x a IH]; [done|]. by rewrite append_cons, IH.
Qed.

Lemma startswith_append p s : Py.startswith (p +:+ s) p = true.
Proof.
  induction p as [|x p IH]; [by destruct s|].
  rewrite append_cons. simpl. by rewrite Ascii.eqb_refl.
Qed.

Lemma str_in_occurs needle hay : occurs_in needle hay -> Py.str_in needle hay = true.
Proof.
  intros (a & b & ->). induction a as [|x a IH].
  - rewrite append_nil_l.
    assert (Py.str_in needle (needle +:+ b) =
            Py.startswith (needle +:+ b) needle ||
            match needle +:+ b with
            | EmptyString => false
            | String _ hay' => Py.str_in needle hay'
            end) as -> by (by destruct (needle +:+ b)).
    by rewrite startswith_append.
  - rewrite append_cons. simpl. rewrite IH. apply orb_true_r.
Qed.

Lemma occurs_in_refl s : occurs_in s s.
Proof. exists EmptyString, EmptyString. by rewrite append_nil_l, append_nil_r. Qed.

Lemma occurs_in_append s a t b : occurs_in s t -> occurs_in s (a +:+ t +:+ b).
Proof.
  intros (x & y & ->). exists (a +:+ x), (y +:+ b).
  by rewrite !append_assoc.
Qed.

Lemma occurs_in_trans s t u : occurs_in s t -> occurs_in t u -> occurs_in s u.
Proof. intros Hst (a & b & ->). by apply occurs_in_append. Qed.

Lemma occurs_in_join s sep parts : s ∈ parts -> occurs_in s (Py.join sep parts).
Proof.
  induction parts as [|p rest IH]; [by intros ?%elem_of_nil|].
  intros [->|Hin]%elem_of_cons.
  - destruct rest as [|q rest]; simpl; [apply occurs_in_refl|].
    exists EmptyString, (sep +:+ Py.join sep (q :: rest)). done.
  - specialize (IH Hin). destruct rest as [|q rest]; [by apply elem_of_nil in Hin|].
    change (Py.join sep (p :: q :: rest)) with (p +:+ sep +:+ Py.join sep (q :: rest)).
    destruct IH as (a & b & ->). exists (p +:+ sep +:+ a), b.
    by rewrite !append_assoc.
Qed.

Lemma escape_plain s : Json.plain s = true -> Json.escape s = s.
Proof.
  induction s as [|c s IH]; simpl; [done|].
  intros [Hc Hs]%andb_true_iff. unfold Json.escape_char. rewrite Hc. cbv iota.
  by rewrite append_cons, append_nil_l, IH.
Qed.

Lemma plain_append a b : Json.plain a = true -> Json.plain b = true ->
  Json.plain (a +:+ b) = true.
Proof.
  induction a as [|c a IH]; [done|]. simpl.
  intros [Hc Ha]%andb_true_iff Hb. rewrite Hc. simpl. by apply IH.
Qed.

Lemma dumps_VList l :
  Json.dumps (VList l) = "[" +:+ Py.join ", " (Json.dumps <$> l) +:+ "]".
Proof.
  simpl. do 2 f_equal. induction l as [|x [|y l] IH]; simpl; try done.
  simpl in IH. by rewrite IH.
Qed.

Lemma dumps_VDict d :
  Json.dumps (VDict d) =
  "{" +:+ Py.join ", " ((fun kv => Json.dumps_str kv.1 +:+ ": " +:+ Json.dumps kv.2) <$> d)
      +:+ "}".
Proof.
  simpl. do 2 f_equal. induction d as [|[k x] [|[k' y] d] IH]; simpl; try done.
  simpl in IH. by rewrite IH, !append_assoc.
Qed.

Lemma occurs_in_dumps_elem v l : v ∈ l -> occurs_in (Json.dumps v) (Json.dumps (VList l)).
Proof.
  intros Hin. rewrite dumps_VList. apply (occurs_in_append _ "[" _ "]").
  apply occurs_in_join. by apply list_elem_of_fmap_2.
Qed.

Lemma lookup_elem_of k v d : Json.lookup k d = Some v -> exists k', (k', v) ∈ d.
Proof.
  induction d as [|[k0 v0] d IH]; simpl; [done|].
  destruct (String.eqb k0 k).
  - intros [= ->]. exists k0. apply elem_of_cons. by left.
  - intros H. destruct (IH H) as [k' Hin]. exists k'. apply elem_of_cons. by right.
Qed.

Lemma occurs_in_dumps_getitem p k v :
  getitem p k = Ok v -> occurs_in (Json.dumps v) (Json.dumps p).
Proof.
  destruct p; simpl; try done.
  destruct (Json.lookup k fields) eqn:E; [|done]. intros [= ->].
  apply lookup_elem_of in E as [k' Hin].
  change (occurs_in (Json.dumps v) (Json.dumps (VDict fields))).
  rewrite dumps_VDict. apply (occurs_in_append _ "{" _ "}").
  eapply occurs_in_trans; [|apply occurs_in_join; by apply (list_elem_of_fmap_2 _ _ _ Hin)].
  simpl. exists (Json.dumps_str k' +:+ ": "), EmptyString.
  by rewrite append_nil_r, !append_assoc.
Qed.

Lemma occurs_in_dumps_plain s : Json.plain s = true -> occurs_in s (Json.dumps (VStr s)).
Proof.
  intros Hs. simpl. unfold Json.dumps_str. rewrite escape_plain by done.
  exists (String Json.quote EmptyString), (String Json.quote EmptyString). done.
Qed.

(** ** The key policy step *)

Lemma append_at_elem p k x p' :
  append_at p k x = Ok p' -> exists l, getitem p' k = Ok (VList l) /\ x ∈ l.
Proof.
  unfold append_at. intros H.
  next_rbind H as l Hl. next_rbind H as l' Happ.
  destruct l as [| | | |items|]; simpl in Happ; try done. injection Happ as <-.
  exists (items ++ [x]). split; [by eapply getitem_setitem_eq|].
  apply elem_of_app. right. by apply list_elem_of_singleton.
Qed.

Lemma update_dataset_bucket_key_policy_again source_account_id target_account_id
    target_env_admin dataset c c1 :
  Json.plain (role_ids c target_account_id target_env_admin) = true ->
  update_dataset_bucket_key_policy source_account_id target_account_id target_env_admin
    dataset c = (Ok tt, c1) ->
  update_dataset_bucket_key_policy source_account_id target_account_id target_env_admin
    dataset c1 = (Ok tt, c1).
Proof.
  intros Hplain H. pose proof H as Hfirst. unfold update_dataset_bucket_key_policy in H.
  next_bind H as key_id c' Hk. injection Hk as <- <-.
  next_bind H as existing c' Hex. injection Hex as <- <-.
  next_bind H as id c' Hid. injection Hid as <- <-.
  destruct (key_policies c !! _) as [policy_text|] eqn:Hpol;
    [|by injection H as <-].
  destruct (str_in_text _ policy_text) eqn:Hin; simpl in H;
    [by injection H as <-|].
  next_pure H as policy Hloads.
  next_pure H as policy' Happ.
  injection H as <-.
  unfold update_dataset_bucket_key_policy.
  erewrite bind_eq; [|reflexivity].
  erewrite bind_eq; [|reflexivity].
  erewrite bind_eq; [|reflexivity].
  simpl. rewrite lookup_insert_eq.
  assert (str_in_text (role_ids c target_account_id target_env_admin +:+ ":*")
            (json_dumps policy') = true) as ->; [|done].
  apply str_in_occurs. simpl.
  apply append_at_elem in Happ as (l & Hl & Hx).
  eapply occurs_in_trans; [|by eapply occurs_in_dumps_getitem].
  eapply occurs_in_trans; [|by eapply occurs_in_dumps_elem].
  eapply occurs_in_trans; [|by apply (occurs_in_dumps_getitem _ "Condition")].
  eapply occurs_in_trans; [|by apply (occurs_in_dumps_getitem _ "StringLike")].
  eapply occurs_in_trans; [|by apply (occurs_in_dumps_getitem _ "aws:userId")].
  apply occurs_in_dumps_plain. by apply plain_append.
Qed.

(** ** Dicts keyed by Sid *)

Lemma dict_lookup_seen k d :
  dict_lookup k d = None <-> existsb (fun k' => Json.eqb k' k) d.*1 = false.
Proof.
  induction d as [|[k' v] d IH]; simpl; [done|].
  destruct (Json.eqb k' k); simpl; [split; done | exact IH].
Qed.

Lemma dict_update_fresh k v d :
  dict_lookup k d = None -> dict_update k v d = d ++ [(k, v)].
Proof.
  induction d as [|[k' v'] d IH]; simpl; [done|].
  destruct (Json.eqb k' k); [done|]. intros H. by rewrite IH.
Qed.

Lemma dict_update_length k v d :
  length (dict_update k v d) = if dict_mem k d then length d else S (length d).
Proof.
  unfold dict_mem. induction d as [|[k' v'] d IH]; simpl; [done|].
  destruct (Json.eqb k' k); simpl; [done|].
  rewrite IH. by destruct (dict_lookup k d).
Qed.

Lemma dict_update_keys k v d :
  dict_mem k d = true -> (dict_update k v d).*1 = d.*1.
Proof.
  unfold dict_mem. induction d as [|[k' v'] d IH]; simpl; [done|].
  destruct (Json.eqb k' k); simpl; [done|]. intros H. f_equal. by apply IH.
Qed.

Lemma dict_lookup_update_eq s v d :
  dict_lookup (VStr s) (dict_update (VStr s) v d) = Some v.
Proof.
  induction d as [|[k' v'] d IH]; simpl.
  - by rewrite String.eqb_refl.
  - destruct (Json.eqb k' (VStr s)) eqn:E; simpl; rewrite E; [done | exact IH].
Qed.

Lemma dict_lookup_update_ne s s' v d :
  s <> s' ->
  dict_lookup (VStr s') (dict_update (VStr s) v d) = dict_lookup (VStr s') d.
Proof.
  intros Hne. induction d as [|[k' v'] d IH]; simpl.
  - destruct (String.eqb s s') eqn:E; [|done].
    apply String.eqb_eq in E. contradiction.
  - destruct (Json.eqb k' (VStr s)) eqn:E; simpl.
    + apply eqb_str_r in E. subst k'. simpl.
      destruct (String.eqb s s') eqn:E'; [|done].
      apply String.eqb_eq in E'. contradiction.
    + by rewrite IH.
Qed.

Lemma by_sid_from_app acc l1 l2 :
  by_sid_from acc (l1 ++ l2) = rbind (by_sid_from acc l1) (fun d => by_sid_from d l2).
Proof.
  revert acc. induction l1 as [|x l1 IH]; intros acc; simpl; [done|].
  destruct (getitem x "Sid") as [sid|]; simpl; [|done].
  destruct (hashable sid); [apply IH | done].
Qed.

Lemma by_sid_from_length acc items d :
  by_sid_from acc items = Ok d -> length d <= length acc + length items.
Proof.
  revert acc. induction items as [|x items IH]; intros acc; simpl.
  - intros [= ->]. lia.
  - destruct (getitem x "Sid") as [sid|]; simpl; [|done].
    destruct (hashable sid); [|done].
    intros H%IH. rewrite dict_update_length in H.
    destruct (dict_mem sid acc); lia.
Qed.

(** As many entries as items: the dict is the list of the items under
    their Sids. *)
Lemma by_sid_from_distinct acc items d :
  by_sid_from acc items = Ok d ->
  length d = length acc + length items ->
  exists d', d = acc ++ d' /\ d'.*2 = items /\ well_keyed acc.*1 d'.
Proof.
  revert acc. induction items as [|x items IH]; intros acc; simpl.
  - intros [= ->] _. exists []. by rewrite app_nil_r.
  - destruct (getitem x "Sid") as [sid|] eqn:Hsid; simpl; [|done].
    destruct (hashable sid) eqn:Hhash; [|done].
    intros H Hlen. pose proof (by_sid_from_length _ _ _ H) as Hle.
    rewrite dict_update_length in Hle. unfold dict_mem in Hle.
    destruct (dict_lookup sid acc) eqn:Hlook; [lia|].
    rewrite dict_update_fresh in H by done.
    apply IH in H as (d' & -> & Hvals & Hwk); [|rewrite length_app; simpl; lia].
    exists ((sid, x) :: d'). rewrite <- app_assoc. simpl.
    split; [done|]. split; [by f_equal|].
    rewrite fmap_app in Hwk. simpl in Hwk.
    by apply dict_lookup_seen in Hlook.
Qed.

Lemma by_sid_from_well_keyed acc d :
  well_keyed acc.*1 d -> by_sid_from acc d.*2 = Ok (acc ++ d).
Proof.
  revert acc. induction d as [|[k v] d IH]; intros acc; simpl.
  - intros _. by rewrite app_nil_r.
  - intros (Hsid & Hhash & Hfresh & Hwk). rewrite Hsid. simpl. rewrite Hhash.
    apply dict_lookup_seen in Hfresh. rewrite dict_update_fresh by done.
    rewrite IH; [by rewrite <- app_assoc|].
    by rewrite fmap_app.
Qed.

(** Writing another item with the same Sid over an entry keeps the dict
    well keyed. *)
Lemma well_keyed_update seen d s v :
  well_keyed seen d -> dict_mem (VStr s) d = true ->
  getitem v "Sid" = Ok (VStr s) ->
  well_keyed seen (dict_update (VStr s) v d).
Proof.
  unfold dict_mem. revert seen. induction d as [|[k' v'] d IH]; intros seen; simpl; [done|].
  intros (Hsid & Hhash & Hfresh & Hwk) Hmem Hv.
  destruct (Json.eqb k' (VStr s)) eqn:E; simpl.
  - apply eqb_str_r in E. subst k'. done.
  - split; [done|]. split; [done|]. split; [done|]. by apply IH.
Qed.

Lemma well_keyed_lookup seen d s v :
  well_keyed seen d -> dict_lookup (VStr s) d = Some v -> getitem v "Sid" = Ok (VStr s).
Proof.
  revert seen. induction d as [|[k' v'] d IH]; intros seen; simpl; [done|].
  intros (Hsid & _ & _ & Hwk).
  destruct (Json.eqb k' (VStr s)) eqn:E.
  - apply eqb_str_r in E. subst k'. by intros [= <-].
  - by eapply IH.
Qed.

(** ** The access point policy step *)

Lemma set_condition_prefix_spec s pl s' :
  set_condition_prefix s pl = Ok s' ->
  condition_prefix s' = Ok pl /\ getitem s' "Sid" = getitem s "Sid".
Proof.
  unfold set_condition_prefix, condition_prefix. intros H.
  next_rbind H as cond Hcond. next_rbind H as sl Hsl.
  next_rbind H as sl' Hsl'. next_rbind H as cond' Hcond'.
  split.
  - rewrite (getitem_setitem_eq _ _ _ _ H). simpl.
    rewrite (getitem_setitem_eq _ _ _ _ Hcond'). simpl.
    by rewrite (getitem_setitem_eq _ _ _ _ Hsl').
  - by apply (getitem_setitem_ne _ "Condition" "Sid" cond').
Qed.

Lemma contains_appended v x v' :
  Json.append (as_list v) (VStr x) = Ok v' -> as_list v' = v' /\ contains v' x = Ok true.
Proof.
  unfold as_list. destruct v; simpl; try done; intros [= <-]; simpl.
  - split; [done|]. by rewrite String.eqb_refl, orb_true_r.
  - split; [done|]. f_equal. rewrite existsb_app. simpl.
    by rewrite String.eqb_refl, orb_true_r.
Qed.

(** The pattern of both halves of the update: read a list (or a single
    string) from a statement of the role, and append [x] to it unless it is
    there.  Afterwards [x] is there, and the dict is as well keyed as
    before. *)
Lemma ensure_member_spec (read : value -> result value)
    (write : value -> value -> result value) d sid x
    (statement : value) (l : value) (present : bool) d' :
  (forall s v s', write s v = Ok s' ->
     read s' = Ok v /\ getitem s' "Sid" = getitem s "Sid") ->
  well_keyed [] d ->
  dict_lookup (VStr sid) d = Some statement ->
  read statement = Ok l ->
  contains (as_list l) x = Ok present ->
  (if negb present then
     let? l := Json.append (as_list l) (VStr x) in
     let? statement := write statement l in
     Ok (dict_update (VStr sid) statement d)
   else Ok d) = Ok d' ->
  well_keyed [] d' /\
  (forall sid', sid <> sid' -> dict_lookup (VStr sid') d' = dict_lookup (VStr sid') d) /\
  exists statement' l',
    dict_lookup (VStr sid) d' = Some statement' /\
    read statement' = Ok l' /\ contains (as_list l') x = Ok true.
Proof.
  intros Hwrite Hwk Hlook Hread Hcontains H.
  destruct present; simpl in H.
  - injection H as <-. split; [done|]. split; [done|]. eauto.
  - next_rbind H as l' Hl'. next_rbind H as statement' Hst. injection H as <-.
    apply Hwrite in Hst as [Hread' Hsid'].
    apply contains_appended in Hl' as [Has Hin].
    split.
    { apply well_keyed_update; [done| |].
      - unfold dict_mem. by rewrite Hlook.
      - rewrite Hsid'. by eapply well_keyed_lookup. }
    split; [intros sid' Hne; by apply dict_lookup_update_ne|].
    exists statement', l'. rewrite dict_lookup_update_eq, Has. done.
Qed.

Lemma setitem_Resource_spec s v s' :
  setitem s "Resource" v = Ok s' ->
  getitem s' "Resource" = Ok v /\ getitem s' "Sid" = getitem s "Sid".
Proof.
  intros H. split; [by eapply getitem_setitem_eq|].
  by apply (getitem_setitem_ne _ "Resource" "Sid" v).
Qed.

Lemma sid0_ne_sid1 id : id +:+ "0" <> id +:+ "1".
Proof. intros H. by apply String.app_inj in H. Qed.

(** A policy in which the role has its two statements, with the prefix and
    the resource in them, is what the update leaves as it is. *)
Lemma update_access_point_policy_settled P d id arn prefix s0 s1 pl rl :
  getitem P "Statement" = Ok (VList d.*2) ->
  well_keyed [] d ->
  dict_lookup (VStr (id +:+ "0")) d = Some s0 ->
  dict_lookup (VStr (id +:+ "1")) d = Some s1 ->
  condition_prefix s0 = Ok pl ->
  contains (as_list pl) (prefix +:+ "/*") = Ok true ->
  getitem s1 "Resource" = Ok rl ->
  contains (as_list rl) (arn +:+ "/object/" +:+ prefix +:+ "/*") = Ok true ->
  update_access_point_policy (Some (json_dumps P)) id arn prefix = Ok P.
Proof.
  intros HP Hwk H0 H1 Hpl Hin0 Hrl Hin1.
  unfold update_access_point_policy, by_sid. simpl. rewrite HP. simpl.
  rewrite (by_sid_from_well_keyed [] d) by done. simpl.
  unfold dict_mem. rewrite H0.
  unfold extend_role_statements, dict_getitem. rewrite H0. simpl.
  rewrite Hpl. simpl. rewrite Hin0. simpl. rewrite H1. simpl.
  rewrite Hrl. simpl. rewrite Hin1. simpl.
  by apply setitem_same.
Qed.

(** The update of a policy in which the role has its statements already. *)
Lemma extend_role_statements_settles P d id arn prefix P1 :
  getitem P "Statement" = Ok (VList d.*2) ->
  well_keyed [] d ->
  extend_role_statements P d id arn prefix = Ok P1 ->
  update_access_point_policy (Some (json_dumps P1)) id arn prefix = Ok P1.
Proof.
  intros HP Hwk H. unfold extend_role_statements, dict_getitem in H.
  destruct (dict_lookup (VStr (id +:+ "0")) d) as [s0|] eqn:H0; [|done]. simpl in H.
  next_rbind H as pl Hpl. next_rbind H as present0 Hin0.
  next_rbind H as d1 Hd1.
  destruct (ensure_member_spec condition_prefix set_condition_prefix
              _ _ _ _ _ _ _ set_condition_prefix_spec Hwk H0 Hpl Hin0 Hd1)
    as (Hwk1 & Hother1 & s0' & pl' & H0' & Hpl' & Hin0').
  destruct (dict_lookup (VStr (id +:+ "1")) d1) as [s1|] eqn:H1; [|done]. simpl in H.
  next_rbind H as rl Hrl. next_rbind H as present1 Hin1.
  next_rbind H as d2 Hd2.
  destruct (ensure_member_spec (fun s => getitem s "Resource")
              (fun s v => setitem s "Resource" v)
              _ _ _ _ _ _ _ setitem_Resource_spec Hwk1 H1 Hrl Hin1 Hd2)
    as (Hwk2 & Hother2 & s1' & rl' & H1' & Hrl' & Hin1').
  eapply (update_access_point_policy_settled _ d2);
    [by eapply getitem_setitem_eq | done | | done | done | done | done | done].
  rewrite Hother2; [done|]. intros Heq. by apply (sid0_ne_sid1 id).
Qed.

Lemma last_char_append s c : last_char (s +:+ String c EmptyString) = Some c.
Proof.
  induction s as [|x s IH]; [done|].
  rewrite append_cons. simpl. rewrite IH.
  by destruct (s +:+ String c EmptyString) eqn:E; [destruct s|].
Qed.

Lemma sid_ne_AllowAllToAdmin id (digit : ascii) :
  digit <> "n"%char ->
  String.eqb (id +:+ String digit EmptyString) "AllowAllToAdmin" = false.
Proof.
  intros Hd. apply String.eqb_neq. intros H.
  pose proof (last_char_append id digit) as Hl. rewrite H in Hl.
  simpl in Hl. congruence.
Qed.

Lemma dict_lookup_app k d1 d2 :
  dict_lookup k (d1 ++ d2) =
  match dict_lookup k d1 with Some v => Some v | None => dict_lookup k d2 end.
Proof.
  induction d1 as [|[k' v'] d1 IH]; simpl; [done|].
  by destruct (Json.eqb k' k).
Qed.

Lemma well_keyed_app seen d1 d2 :
  well_keyed seen d1 -> well_keyed (seen ++ d1.*1) d2 -> well_keyed seen (d1 ++ d2).
Proof.
  revert seen. induction d1 as [|[k v] d1 IH]; intros seen; simpl.
  - by rewrite app_nil_r.
  - intros (Hsid & Hhash & Hfresh & Hwk) H2.
    split; [done|]. split; [done|]. split; [done|].
    apply IH; [done|]. by rewrite <- app_assoc.
Qed.

(** The two statements of the template, appended to statements that have
    neither Sid, or standing in front of the admin statement. *)
Lemma template_statements_settled P d rest id arn prefix t0 t1 :
  getitem (S3.generate_access_point_policy_template id arn prefix) "Statement"
    = Ok (VList [t0; t1]) ->
  getitem P "Statement" =
    Ok (VList ((d ++ [(VStr (id +:+ "0"), t0); (VStr (id +:+ "1"), t1)] ++ rest).*2)) ->
  well_keyed [] (d ++ [(VStr (id +:+ "0"), t0); (VStr (id +:+ "1"), t1)] ++ rest) ->
  dict_lookup (VStr (id +:+ "0")) d = None ->
  dict_lookup (VStr (id +:+ "1")) d = None ->
  update_access_point_policy (Some (json_dumps P)) id arn prefix = Ok P.
Proof.
  intros Ht HP Hwk H0 H1.
  eapply (update_access_point_policy_settled P _ id arn prefix t0 t1);
    [exact HP | exact Hwk | | | | | |].
  - rewrite dict_lookup_app, H0. simpl. by rewrite String.eqb_refl.
  - rewrite dict_lookup_app, H1. simpl.
    destruct (String.eqb (id +:+ "0") (id +:+ "1")) eqn:E.
    + apply String.eqb_eq in E. by apply sid0_ne_sid1 in E.
    + by rewrite String.eqb_refl.
  - injection Ht as <- <-. reflexivity.
  - simpl. by rewrite String.eqb_refl.
  - injection Ht as <- <-. reflexivity.
  - simpl. by rewrite String.eqb_refl.
Qed.

Lemma by_sid_not_list P stmts d :
  getitem P "Statement" = Ok stmts -> isinstance_list stmts = false ->
  by_sid P = Ok d -> d = [].
Proof.
  unfold by_sid. intros -> Hl. simpl.
  destruct stmts as [| | |s|l|fields]; simpl; try done.
  - destruct s; simpl; [by intros [= <-] | done].
  - destruct fields as [|[k v] fields]; simpl; [by intros [= <-] | done].
Qed.

(** The update of the policy an access point has: applied to its own
    result, it changes nothing. *)
Lemma update_access_point_policy_again P id arn prefix P1 :
  distinct_sids P = true -> paired_sids id P = true ->
  update_access_point_policy (Some (json_dumps P)) id arn prefix = Ok P1 ->
  update_access_point_policy (Some (json_dumps P1)) id arn prefix = Ok P1.
Proof.
  unfold distinct_sids, paired_sids, update_access_point_policy. simpl.
  intros Hdistinct Hpaired H.
  destruct (by_sid P) as [d|] eqn:Hd; [|done]. simpl in H.
  pose proof Hd as Hd'. unfold by_sid in Hd'.
  next_rbind Hd' as stmts Hstmts. next_rbind Hd' as items Hitems.
  rewrite Hstmts in Hdistinct. simpl in Hdistinct.
  destruct (isinstance_list stmts) eqn:Hlist.
  - destruct stmts as [| | | |l|]; try done. simpl in Hitems, Hdistinct.
    injection Hitems as <-. apply Nat.eqb_eq in Hdistinct.
    destruct (by_sid_from_distinct [] l d Hd' Hdistinct) as (d' & -> & Hvals & Hwk).
    simpl in *. subst l.
    destruct (dict_mem (VStr (id +:+ "0")) d') eqn:Hmem.
    + by eapply extend_role_statements_settles.
    + destruct (dict_mem (VStr (id +:+ "1")) d') eqn:Hmem1; [done|].
      unfold dict_mem in Hmem, Hmem1.
      destruct (dict_lookup (VStr (id +:+ "0")) d') eqn:H0; [done|].
      destruct (dict_lookup (VStr (id +:+ "1")) d') eqn:H1; [done|].
      unfold extend_at in H. rewrite Hstmts in H. simpl in H.
      eapply (template_statements_settled _ d' []); [reflexivity | | | done | done].
      * rewrite (getitem_setitem_eq _ _ _ _ H). by rewrite fmap_app.
      * apply well_keyed_app; [done|]. simpl.
        apply dict_lookup_seen in H0, H1.
        split; [done|]. split; [done|]. split; [done|].
        split; [done|]. split; [done|]. split; [|done].
        rewrite existsb_app, H1. simpl.
        destruct (String.eqb (id +:+ "0") (id +:+ "1")) eqn:E; [|done].
        apply String.eqb_eq in E. by apply sid0_ne_sid1 in E.
  - apply (by_sid_not_list _ _ _ Hstmts Hlist) in Hd. subst d. simpl in H.
    unfold extend_at in H. rewrite Hstmts in H. simpl in H.
    by destruct stmts.
Qed.

(** The first policy of an access point: the update leaves it as it is. *)
Lemma first_access_point_policy_settled id arn prefix exceptions_roleId P1 :
  append_at (S3.generate_access_point_policy_template id arn prefix) "Statement"
    (VDict [("Sid", VStr "AllowAllToAdmin");
            ("Effect", VStr "Allow");
            ("Principal", VStr "*");
            ("Action", VStr "s3:*");
            ("Resource", VStr arn);
            ("Condition", VDict [("StringLike",
               VDict [("aws:userId", VList exceptions_roleId)])])]) = Ok P1 ->
  update_access_point_policy (Some (json_dumps P1)) id arn prefix = Ok P1.
Proof.
  intros H. injection H as <-.
  eapply (template_statements_settled _ [] [(VStr "AllowAllToAdmin", _)]);
    [reflexivity | reflexivity | | done | done].
  simpl. rewrite !orb_false_r.
  repeat split; try done.
  - destruct (String.eqb (id +:+ "0") (id +:+ "1")) eqn:E; [|done].
    apply String.eqb_eq in E. by apply sid0_ne_sid1 in E.
  - by rewrite !sid_ne_AllowAllToAdmin.
Qed.

Lemma set_access_points_id f c :
  f (access_points c) = access_points c -> set_access_points f c = c.
Proof. destruct c; unfold set_access_points; simpl. by intros ->. Qed.

Lemma json_dumps_document t : json_dumps (document t) = t.
Proof. by destruct t. Qed.

(** Getting or creating an access point that exists gives its ARN and
    changes nothing. *)
Lemma get_or_create_existing {A} c account_id bucket_name name policy (k : string -> Aws A) :
  access_points c !! (account_id, name) = Some policy ->
  bind (S3.get_bucket_access_point_arn account_id name)
    (fun access_point_arn =>
       bind match access_point_arn with
            | Some arn =>
                if Py.truthy_str arn then ret arn
                else S3.create_bucket_access_point account_id bucket_name name
            | None => S3.create_bucket_access_point account_id bucket_name name
            end k) c
  = k (access_point_arns c account_id name) c.
Proof.
  intros Hap. unfold S3.get_bucket_access_point_arn, S3.create_bucket_access_point.
  erewrite bind_eq; [|reflexivity]. simpl. rewrite Hap.
  destruct (Py.truthy_str _); (erewrite bind_eq; [|reflexivity]); [done|].
  rewrite set_access_points_id; [done | cbv beta; by rewrite Hap].
Qed.

(** What getting or creating the access point leaves behind. *)
Lemma get_or_create_spec c account_id bucket_name name access_point_arn arn c' :
  S3.get_bucket_access_point_arn account_id name c = (Ok access_point_arn, c) ->
  match access_point_arn with
  | Some arn =>
      if Py.truthy_str arn then ret arn
      else S3.create_bucket_access_point account_id bucket_name name
  | None => S3.create_bucket_access_point account_id bucket_name name
  end c = (Ok arn, c') ->
  arn = access_point_arns c account_id name /\
  exists f, c' = set_access_points f c /\
    is_Some (f (access_points c) !! (account_id, name)) /\
    mjoin (f (access_points c) !! (account_id, name)) =
      mjoin (access_points c !! (account_id, name)).
Proof.
  unfold S3.get_bucket_access_point_arn, S3.create_bucket_access_point, gets, ret.
  intros [= <-].
  destruct (access_points c !! (account_id, name)) as [policy|] eqn:Hap.
  - destruct (Py.truthy_str _); intros [= <- <-]; (split; [done|]).
    + exists (fun m => m). rewrite set_access_points_id by done.
      cbv beta. rewrite Hap. eauto.
    + exists (fun m => m).
      rewrite !set_access_points_id; [|done|cbv beta; by rewrite Hap].
      cbv beta. rewrite Hap. eauto.
  - intros [= <- <-]. split; [done|]. eexists. split; [reflexivity|].
    simpl. rewrite Hap, lookup_insert_eq. eauto.
Qed.

Lemma manage_access_point_and_policy_again
    dataset_admin source_account_id target_account_id source_env_admin
    target_env_admin bucket_name s3_prefix access_point_name c c1 :
  access_point_policy_well_formed c source_account_id access_point_name
    (role_ids c target_account_id target_env_admin) = true ->
  manage_access_point_and_policy dataset_admin source_account_id target_account_id
    source_env_admin target_env_admin bucket_name s3_prefix access_point_name c
    = (Ok tt, c1) ->
  manage_access_point_and_policy dataset_admin source_account_id target_account_id
    source_env_admin target_env_admin bucket_name s3_prefix access_point_name c1
    = (Ok tt, c1).
Proof.
  intros Hwf H. unfold manage_access_point_and_policy in H.
  next_bind H as access_point_arn c' Harn.
  assert (c' = c) as -> by (by injection Harn).
  next_bind H as arn c' Hcreate.
  destruct (get_or_create_spec _ _ _ _ _ _ _ Harn Hcreate)
    as (-> & f & -> & [ap Hap] & Hpolicy).
  clear Harn Hcreate.
  next_bind H as existing_policy c' Hex. injection Hex as <- <-.
  next_bind H as id c' Hid. injection Hid as <- <-.
  next_bind H as policy c' Hpol.
  injection H as <-.
  simpl in Hpol. rewrite Hpolicy in Hpol.
  assert (update_access_point_policy (Some (json_dumps policy))
            (role_ids c target_account_id target_env_admin)
            (access_point_arns c source_account_id access_point_name) s3_prefix
          = Ok policy /\ c' = set_access_points f c) as [Hsettled ->].
  { unfold access_point_policy_well_formed in Hwf.
    destruct (mjoin (access_points c !! (source_account_id, access_point_name)))
      as [t|]; simpl in Hpol.
    - apply of_result_Ok_inv in Hpol as [Hpol ->]. split; [|done].
      apply andb_true_iff in Hwf as [Hd Hp].
      rewrite <- (json_dumps_document t) in Hpol.
      by apply update_access_point_policy_again in Hpol.
    - next_bind Hpol as delegation c'' Hd. injection Hd as <- <-.
      next_bind Hpol as ids c'' Hids. injection Hids as <- <-.
      apply of_result_Ok_inv in Hpol as [Hpol ->]. split; [|done].
      by apply first_access_point_policy_settled in Hpol. }
  unfold manage_access_point_and_policy.
  erewrite get_or_create_existing; [|simpl; apply lookup_insert_eq].
  erewrite bind_eq; [|reflexivity].
  erewrite bind_eq; [|reflexivity].
  simpl. rewrite lookup_insert_eq. simpl.
  erewrite bind_eq; [|unfold of_result; by rewrite Hsettled].
  unfold S3.attach_access_point_policy, modify. f_equal.
  apply set_access_points_id. simpl. by rewrite insert_insert_eq.
Qed.

(** C1, as the code has it: each policy step of a folder share (bucket
    policy, access point policy, key policy), applied a second time after a
    first application that succeeded, succeeds and changes nothing: it
    finds the Sid, the prefix and the resource it wrote (a single string
    read as a one-element list) and adds no statement or resource.  For the
    access point policy this needs the policy it starts from to have
    pairwise distinct Sids and the role's statements in pairs; for the key
    policy it needs the role id to be made of characters JSON writes as
    they are, as the ids IAM issues are. *)
Theorem policy_steps_applied_twice :
  (forall dataset_admin source_account_id bucket_name source_env_admin c,
     applied_twice_as_once
       (manage_bucket_policy dataset_admin source_account_id bucket_name source_env_admin)
       c) /\
  (forall dataset_admin source_account_id target_account_id source_env_admin
          target_env_admin bucket_name s3_prefix access_point_name c,
     access_point_policy_well_formed c source_account_id access_point_name
       (role_ids c target_account_id target_env_admin) = true ->
     applied_twice_as_once
       (manage_access_point_and_policy dataset_admin source_account_id target_account_id
          source_env_admin target_env_admin bucket_name s3_prefix access_point_name)
       c) /\
  (forall source_account_id target_account_id target_env_admin dataset c,
     Json.plain (role_ids c target_account_id target_env_admin) = true ->
     applied_twice_as_once
       (update_dataset_bucket_key_policy source_account_id target_account_id
          target_env_admin dataset)
       c).
Proof.
  split; [|split].
  - intros * c1. apply manage_bucket_policy_again.
  - intros * Hwf c1. by apply manage_access_point_and_policy_again.
  - intros * Hplain c1. by apply update_dataset_bucket_key_policy_again.
Qed.

Lemma policy_steps_applied_twice_witness :
  let c := Sample.with_access_point
             [Sample.statement "AROAother0" "Allow"; Sample.statement "AROAother1" "Allow"]
             (Sample.cloud_with Sample.ok_services []) in
  (exists c1,
     manage_bucket_policy "ds1-admin" Sample.source_account "b1" "producers" c = (Ok tt, c1) /\
     manage_bucket_policy "ds1-admin" Sample.source_account "b1" "producers" c1 = (Ok tt, c1)) /\
  (exists c1,
     Sample.access_point_step c = (Ok tt, c1) /\
     Sample.access_point_step c1 = (Ok tt, c1) /\
     access_point_statement_count c1 Sample.source_account "ds1-consumers" = Some 4) /\
  (exists c1,
     update_dataset_bucket_key_policy Sample.source_account Sample.target_account
       "consumers" Sample.sales c = (Ok tt, c1) /\
     update_dataset_bucket_key_policy Sample.source_account Sample.target_account
       "consumers" Sample.sales c1 = (Ok tt, c1)).
Proof.
  intros c. split; [|split].
  - exists (manage_bucket_policy "ds1-admin" Sample.source_account "b1" "producers" c).2.
    assert (manage_bucket_policy "ds1-admin" Sample.source_account "b1" "producers" c
            = (Ok tt, (manage_bucket_policy "ds1-admin" Sample.source_account "b1"
                         "producers" c).2)) as Hfirst
      by (apply run_eta_Ok; vm_compute; reflexivity).
    split; [exact Hfirst|].
    exact (proj1 policy_steps_applied_twice
             "ds1-admin" Sample.source_account "b1" "producers" c _ Hfirst).
  - exists (Sample.access_point_step c).2.
    assert (Sample.access_point_step c = (Ok tt, (Sample.access_point_step c).2))
      as Hfirst by (apply run_eta_Ok; vm_compute; reflexivity).
    split; [exact Hfirst|]. split; [|vm_compute; reflexivity].
    apply (proj1 (proj2 policy_steps_applied_twice)
             "ds1-admin" Sample.source_account Sample.target_account
             "arn:aws:iam::111111111111:role/producers" "consumers" "b1" "p1"
             "ds1-consumers" c); [vm_compute; reflexivity | exact Hfirst].
  - exists (update_dataset_bucket_key_policy Sample.source_account Sample.target_account
              "consumers" Sample.sales c).2.
    assert (update_dataset_bucket_key_policy Sample.source_account Sample.target_account
              "consumers" Sample.sales c
            = (Ok tt, (update_dataset_bucket_key_policy Sample.source_account
                         Sample.target_account "consumers" Sample.sales c).2)) as Hfirst
      by (apply run_eta_Ok; vm_compute; reflexivity).
    split; [exact Hfirst|].
    apply (proj2 (proj2 policy_steps_applied_twice)
             Sample.source_account Sample.target_account "consumers" Sample.sales c);
      [vm_compute; reflexivity | exact Hfirst].
Defined.

(** C1 as stated fails: on an access point policy in which two statements
    share a Sid, the first application appends the role's two statements
    and the second one, keying the statements by Sid, drops one of the two
    that share it. *)
Lemma duplicate_sids_not_applied_twice_as_once :
  ~ applied_twice_as_once Sample.access_point_step
      (Sample.with_access_point
         [Sample.statement "Readers" "Allow"; Sample.statement "Readers" "Deny"]
         (Sample.cloud_with Sample.ok_services [])).
Proof.
  intros H.
  specialize (H _ eq_refl).
  apply (f_equal (fun r => access_point_statement_count r.2
                             Sample.source_account "ds1-consumers")) in H.
  vm_compute in H. discriminate H.
Qed.

(** ** One item at a time: [share_tables] and [share_folders] *)

Lemma lift_aws_eq {A} (m : Aws A) w r c :
  m (aws w) = (r, c) -> lift_aws m w = (r, set_aws (fun _ => c) w).
Proof. unfold lift_aws. by intros ->. Qed.

Lemma for_each_cons {S A} (x : A) xs (body : A -> Run S unit) s :
  for_each (x :: xs) body s = bind (body x) (fun _ => for_each xs body) s.
Proof. reflexivity. Qed.

Lemma try_except_Ok {S A} (body : Run S A) catches handler s a s' :
  body s = (Ok a, s') -> try_except body catches handler s = (Ok a, s').
Proof. unfold try_except. by intros ->. Qed.

Lemma try_except_Raise {S A} (body : Run S A) catches handler s e s' :
  body s = (Raise e, s') -> catches e = true ->
  try_except body catches handler s = handler e s'.
Proof. unfold try_except. by intros -> ->. Qed.

Lemma with_status_with_status s s' i : with_status s (with_status s' i) = with_status s i.
Proof. reflexivity. Qed.

Lemma alter_with_status_twice s s' i (l : list ShareObjectItem.t) :
  alter (with_status s) i (alter (with_status s') i l) = alter (with_status s) i l.
Proof.
  apply list_eq. intros j. destruct (decide (i = j)) as [->|Hne].
  - rewrite !list_lookup_alter_eq. by destruct (l !! j).
  - by rewrite !list_lookup_alter_ne.
Qed.

Lemma set_status_twice s s' i d :
  set_share_object_items (alter (with_status s) i)
    (set_share_object_items (alter (with_status s') i) d) =
  set_share_object_items (alter (with_status s) i) d.
Proof.
  unfold set_share_object_items. simpl. f_equal. apply alter_with_status_twice.
Qed.

(** [get_share_item] finds the row of an item the share has, and changes
    nothing. *)
Lemma get_share_item_found share category uri w :
  match category with
  | a_table t => DatasetTable.tableUri t = uri
  | a_folder l => DatasetStorageLocation.locationUri l = uri
  | anything_else => False
  end ->
  has_share_item (session w) share uri ->
  exists i row, get_share_item share category w = (Ok i, w) /\
                share_object_items (session w) !! i = Some row.
Proof.
  intros Huri Hitem. unfold get_share_item.
  assert (exists i row,
            list_find (fun i => ShareObjectItem.itemUri i = uri /\
                                ShareObjectItem.shareUri i = ShareObject.shareUri share)
                      (share_object_items (session w)) = Some (i, row))
    as (i & row & Hfind).
  { apply Exists_exists in Hitem as (row & Hin & Hrow).
    destruct (list_find_elem_of
                (fun i => ShareObjectItem.itemUri i = uri /\
                          ShareObjectItem.shareUri i = ShareObject.shareUri share)
                _ row Hin Hrow) as [[i row'] Hfind]. eauto. }
  exists i, row. split.
  - destruct category; [| |done]; subst uri;
      (erewrite bind_eq; [|reflexivity]); (erewrite bind_eq; [|reflexivity]);
      by rewrite Hfind.
  - by apply list_find_Some in Hfind as (? & _).
Qed.

(** Status updates keep the items a share has. *)
Lemma has_share_item_alter s share uri status i :
  has_share_item (set_share_object_items (alter (with_status status) i) s) share uri <->
  has_share_item s share uri.
Proof.
  unfold has_share_item. simpl. rewrite !Exists_exists. split.
  - intros (row & Hin & Hrow).
    apply list_elem_of_lookup in Hin as [j Hj].
    destruct (decide (i = j)) as [->|Hne].
    + rewrite list_lookup_alter_eq in Hj.
      destruct (share_object_items s !! j) as [row0|] eqn:E; [|done].
      injection Hj as <-. exists row0. split; [|done].
      apply list_elem_of_lookup. eauto.
    + rewrite list_lookup_alter_ne in Hj by done.
      exists row. split; [|done]. apply list_elem_of_lookup. eauto.
  - intros (row & Hin & Hrow).
    apply list_elem_of_lookup in Hin as [j Hj].
    destruct (decide (i = j)) as [->|Hne].
    + exists (with_status status row). split; [|done].
      apply list_elem_of_lookup. exists j. by rewrite list_lookup_alter_eq, Hj.
    + exists row. split; [|done].
      apply list_elem_of_lookup. exists j. by rewrite list_lookup_alter_ne.
Qed.

Lemma lift_aws_seq3 {X Y Z D} (a : Aws X) (b : Aws Y) (c : Aws Z) (k : Z -> M D) w :
  bind (lift_aws a) (fun _ => bind (lift_aws b) (fun _ => bind (lift_aws c) k)) w =
  bind (lift_aws (bind a (fun _ => bind b (fun _ => c)))) k w.
Proof.
  unfold bind, lift_aws.
  destruct (a (aws w)) as [[x|e] c1]; simpl; [|done].
  destruct (b c1) as [[y|e] c2]; simpl; [|done].
  by destruct (c c2) as [[z|e] c3].
Qed.

Lemma lift_aws_seq4 {X Y Z V D} (a : Aws X) (b : Aws Y) (c : Aws Z) (d : Aws V)
    (k : V -> M D) w :
  bind (lift_aws a)
    (fun _ => bind (lift_aws b) (fun _ => bind (lift_aws c) (fun _ => bind (lift_aws d) k))) w =
  bind (lift_aws (bind a (fun _ => bind b (fun _ => bind c (fun _ => d))))) k w.
Proof.
  unfold bind, lift_aws.
  destruct (a (aws w)) as [[x|e] c1]; simpl; [|done].
  destruct (b c1) as [[y|e] c2]; simpl; [|done].
  destruct (c c2) as [[z|e] c3]; simpl; [|done].
  by destruct (d c3) as [[v|e] c4].
Qed.

(** One turn of the loop of [share_tables]. *)
Lemma share_tables_turn share source_environment target_environment table rest
    principals w i r c :
  get_share_item share (a_table table) w = (Ok i, w) ->
  table_grant_sequence (table_source source_environment table)
    (table_target target_environment principals) (aws w) = (r, c) ->
  share_tables share source_environment target_environment (table :: rest) principals w =
  share_tables share source_environment target_environment rest principals
    (match r with
     | Ok _ => item_ended w i Share_Succeeded c []
     | Raise _ =>
         item_ended w i Share_Failed c
           [table_sharing_failure_alarm table share target_environment]
     end).
Proof.
  intros Hitem Hseq. unfold share_tables at 1. rewrite for_each_cons.
  fold (share_tables share source_environment target_environment rest principals).
  erewrite bind_eq; [reflexivity|].
  erewrite bind_eq; [|exact Hitem]. erewrite bind_eq; [|reflexivity].
  unfold try_except. rewrite lift_aws_seq3. unfold bind at 1.
  erewrite lift_aws_eq; [|exact Hseq].
  unfold item_ended. destruct r as [[]|e]; simpl.
  - unfold bind, update_share_item_status, modify, ret, set_aws, set_session. simpl.
    do 2 f_equal; [apply set_status_twice | by rewrite app_nil_r].
  - unfold bind, update_share_item_status, AlarmService.trigger_table_sharing_failure_alarm,
      AlarmService.trigger, modify, ret, set_aws, set_session, set_alarms. simpl.
    do 2 f_equal. apply set_status_twice.
Qed.

Lemma share_tables_returns share source_environment target_environment principals tables :
  forall w,
    Forall (fun t => has_share_item (session w) share (DatasetTable.tableUri t)) tables ->
    exists w',
      share_tables share source_environment target_environment tables principals w
        = (Ok tt, w').
Proof.
  induction tables as [|table rest IH]; intros w Hitems; [by eexists|].
  apply Forall_cons in Hitems as [Hitem Hrest].
  destruct (get_share_item_found share (a_table table) _ w eq_refl Hitem)
    as (i & row & Hget & _).
  destruct (table_grant_sequence (table_source source_environment table)
              (table_target target_environment principals) (aws w)) as [r c] eqn:Hseq.
  rewrite (share_tables_turn _ _ _ _ _ _ _ _ _ _ Hget Hseq).
  apply IH. eapply Forall_impl; [exact Hrest|]. intros t Ht.
  destruct r; by apply has_share_item_alter.
Qed.

(** One turn of the loop of [share_folders]. *)
Lemma share_folders_turn share source_env_group target_env_group target_environment
    folder rest dataset w i row r c :
  get_share_item share (a_folder folder) w = (Ok i, w) ->
  share_object_items (session w) !! i = Some row ->
  folder_grant_sequence source_env_group target_env_group target_environment folder
    dataset (ShareObjectItem.S3AccessPointName row) (aws w) = (r, c) ->
  share_folders share (Some source_env_group) target_env_group target_environment
    (folder :: rest) dataset w =
  share_folders share (Some source_env_group) target_env_group target_environment
    rest dataset
    (match r with
     | Ok _ => item_ended w i Share_Succeeded c []
     | Raise _ =>
         item_ended w i Share_Failed c
           [folder_sharing_failure_alarm folder share target_environment]
     end).
Proof.
  intros Hitem Hrow Hseq. unfold share_folders at 1. rewrite for_each_cons.
  fold (share_folders share (Some source_env_group) target_env_group target_environment
          rest dataset).
  erewrite bind_eq; [reflexivity|].
  erewrite bind_eq; [|exact Hitem]. erewrite bind_eq; [|reflexivity].
  erewrite bind_eq.
  2:{ unfold S3AccessPointName_of, gets.
      erewrite bind_eq; [|reflexivity]. simpl.
      rewrite list_lookup_alter_eq, Hrow. reflexivity. }
  erewrite bind_eq; [|reflexivity].
  unfold try_except. rewrite lift_aws_seq4. unfold bind at 1.
  erewrite lift_aws_eq; [|exact Hseq].
  unfold item_ended. destruct r as [[]|e]; simpl.
  - unfold bind, update_share_item_status, modify, ret, set_aws, set_session. simpl.
    do 2 f_equal; [apply set_status_twice | by rewrite app_nil_r].
  - unfold bind, update_share_item_status, AlarmService.trigger_folder_sharing_failure_alarm,
      AlarmService.trigger, modify, ret, set_aws, set_session, set_alarms. simpl.
    do 2 f_equal. apply set_status_twice.
Qed.

Lemma share_folders_returns share source_env_group target_env_group target_environment
    dataset folders :
  forall w,
    Forall (fun f => has_share_item (session w) share
                       (DatasetStorageLocation.locationUri f)) folders ->
    exists w',
      share_folders share (Some source_env_group) target_env_group target_environment
        folders dataset w = (Ok tt, w').
Proof.
  induction folders as [|folder rest IH]; intros w Hitems; [by eexists|].
  apply Forall_cons in Hitems as [Hitem Hrest].
  destruct (get_share_item_found share (a_folder folder) _ w eq_refl Hitem)
    as (i & row & Hget & Hrow).
  destruct (folder_grant_sequence source_env_group target_env_group target_environment
              folder dataset (ShareObjectItem.S3AccessPointName row) (aws w))
    as [r c] eqn:Hseq.
  rewrite (share_folders_turn _ _ _ _ _ _ _ _ _ _ _ _ Hget Hrow Hseq).
  apply IH. eapply Forall_impl; [exact Hrest|]. intros f Hf.
  destruct r; by apply has_share_item_alter.
Qed.

Lemma get_share_item_row share category w i w' :
  get_share_item share category w = (Ok i, w') ->
  exists row, share_object_items (session w) !! i = Some row.
Proof.
  unfold get_share_item. intros H.
  next_bind H as uri w1 Huri.
  assert (w1 = w) as -> by (destruct category; by inversion Huri).
  next_bind H as found w1 Hfound. injection Hfound as <- <-.
  destruct (list_find _ _) as [[j row]|] eqn:Hfind; [|done].
  injection H as <- <-. apply list_find_Some in Hfind as (? & _). eauto.
Qed.

Lemma get_share_item_Ok share category w i :
  (get_share_item share category w).1 = Ok i ->
  get_share_item share category w = (Ok i, w).
Proof.
  unfold get_share_item, bind, gets, ret, raise.
  destruct category; simpl; try done;
    destruct (list_find _ _) as [[j row]|]; simpl; try done; by intros [= ->].
Qed.

Lemma status_of_item_ended w i row status c sent :
  share_object_items (session w) !! i = Some row ->
  status_of (item_ended w i status c sent) i = Some status.
Proof.
  intros Hrow. unfold status_of, item_ended. simpl.
  by rewrite list_lookup_alter_eq, Hrow.
Qed.

(** C2: when the grant sequence of a table or of a folder raises, the
    exception is caught at that item: the item ends in [Share_Failed], the
    alarm of the item is sent, and the loop goes on with the items after it
    from there; and no exception of an item leaves [share_tables] or
    [share_folders], which return normally whenever the share has an item
    row for each table or folder. *)
Theorem item_failure_stays_with_the_item :
  (forall share source_environment target_environment table rest principals w i e c,
     get_share_item share (a_table table) w = (Ok i, w) ->
     table_grant_sequence (table_source source_environment table)
       (table_target target_environment principals) (aws w) = (Raise e, c) ->
     let failed :=
       item_ended w i Share_Failed c
         [table_sharing_failure_alarm table share target_environment] in
     status_of failed i = Some Share_Failed /\
     share_tables share source_environment target_environment (table :: rest) principals w =
     share_tables share source_environment target_environment rest principals failed) /\
  (forall share source_environment target_environment tables principals w,
     Forall (fun t => has_share_item (session w) share (DatasetTable.tableUri t)) tables ->
     exists w',
       share_tables share source_environment target_environment tables principals w
         = (Ok tt, w')) /\
  (forall share source_env_group target_env_group target_environment folder rest
          dataset w i row e c,
     get_share_item share (a_folder folder) w = (Ok i, w) ->
     share_object_items (session w) !! i = Some row ->
     folder_grant_sequence source_env_group target_env_group target_environment folder
       dataset (ShareObjectItem.S3AccessPointName row) (aws w) = (Raise e, c) ->
     let failed :=
       item_ended w i Share_Failed c
         [folder_sharing_failure_alarm folder share target_environment] in
     status_of failed i = Some Share_Failed /\
     share_folders share (Some source_env_group) target_env_group target_environment
       (folder :: rest) dataset w =
     share_folders share (Some source_env_group) target_env_group target_environment
       rest dataset failed) /\
  (forall share source_env_group target_env_group target_environment folders dataset w,
     Forall (fun f => has_share_item (session w) share
                        (DatasetStorageLocation.locationUri f)) folders ->
     exists w',
       share_folders share (Some source_env_group) target_env_group target_environment
         folders dataset w = (Ok tt, w')).
Proof.
  split; [|split; [|split]].
  - intros * Hitem Hseq failed.
    destruct (get_share_item_row _ _ _ _ _ Hitem) as [row Hrow].
    split; [by eapply status_of_item_ended|].
    by rewrite (share_tables_turn _ _ _ _ _ _ _ _ _ _ Hitem Hseq).
  - intros *. apply share_tables_returns.
  - intros * Hitem Hrow Hseq failed.
    split; [by eapply status_of_item_ended|].
    by rewrite (share_folders_turn _ _ _ _ _ _ _ _ _ _ _ _ Hitem Hrow Hseq).
  - intros *. apply share_folders_returns.
Qed.

Lemma item_failure_stays_with_the_item_witness :
  let store := Sample.store Approved []
                 [Sample.item "share-1" "table-invoices" "invoices" EmptyString] in
  let principals := ["arn:aws:iam::222222222222:role/consumers"] in
  let tables_run :=
    share_tables (Sample.share1 Approved) Sample.source_env Sample.target_env
      [Sample.orders; Sample.invoices] principals
      (Sample.world_with store (Sample.cloud_with Sample.ram_down_services [])) in
  let folders_run :=
    share_folders (Sample.share1 Approved) (Some Sample.producers) Sample.consumers
      Sample.target_env [Sample.p1] Sample.sales
      (Sample.world_with store (Sample.empty_cloud Sample.ok_services)) in
  (tables_run.1 = Ok tt /\
   status_of tables_run.2 0 = Some Share_Failed /\
   status_of tables_run.2 2 = Some Share_Failed /\
   length (alarms tables_run.2) = 2) /\
  (folders_run.1 = Ok tt /\
   status_of folders_run.2 1 = Some Share_Failed /\
   length (alarms folders_run.2) = 1).
Proof.
  intros store principals tables_run folders_run. split.
  - set (w := Sample.world_with store (Sample.cloud_with Sample.ram_down_services [])).
    destruct (run_eta_Raise
                (table_grant_sequence (table_source Sample.source_env Sample.orders)
                   (table_target Sample.target_env principals) (aws w)))
      as [e Hseq]; [vm_compute; reflexivity|].
    destruct (proj1 item_failure_stays_with_the_item
                (Sample.share1 Approved) Sample.source_env Sample.target_env
                Sample.orders [Sample.invoices] principals w 0 e _
                (get_share_item_Ok (Sample.share1 Approved) (a_table Sample.orders) w 0
                   ltac:(vm_compute; reflexivity)) Hseq)
      as [_ Heq].
    unfold tables_run. fold w. rewrite Heq. clear Heq Hseq.
    repeat split; vm_compute; reflexivity.
  - set (w := Sample.world_with store (Sample.empty_cloud Sample.ok_services)).
    destruct (run_eta_Raise
                (folder_grant_sequence Sample.producers Sample.consumers Sample.target_env
                   Sample.p1 Sample.sales "ds1-consumers" (aws w)))
      as [e Hseq]; [vm_compute; reflexivity|].
    destruct (proj1 (proj2 (proj2 item_failure_stays_with_the_item))
                (Sample.share1 Approved) Sample.producers Sample.consumers
                Sample.target_env Sample.p1 [] Sample.sales w 1
                (Sample.item "share-1" "folder-p1" EmptyString "ds1-consumers") e _
                (get_share_item_Ok (Sample.share1 Approved) (a_folder Sample.p1) w 1
                   ltac:(vm_compute; reflexivity))
                ltac:(vm_compute; reflexivity) Hseq)
      as [_ Heq].
    unfold folders_run. fold w. rewrite Heq. clear Heq Hseq.
    repeat split; vm_compute; reflexivity.
Defined.

(** ** The legacy grant of a table *)

Lemma batch_revoke_permissions_raises_ClientError client accountid entries c e :
  (batch_revoke_permissions client accountid entries c).1 = Raise e ->
  is_ClientError e = true.
Proof.
  unfold batch_revoke_permissions.
  destruct (revoke_chunks client accountid (entries_chunks entries) [] c)
    as [[failures tried] c'] eqn:Hrun.
  apply revoke_chunks_spec in Hrun as (answers & _ & _ & _ & Hend).
  destruct Hend as [(-> & _ & _)|(code & msg & -> & _)]; simpl.
  - destruct failures as [|f fs]; [done|].
    cbn [is_ClientError fst]. rewrite raise_unless_already_revoked_spec.
    destruct (existsb _ _); [by intros [= <-] | done].
  - rewrite raise_unless_already_revoked_spec.
    destruct (existsb _ _); simpl; [by intros [= <-] | done].
Qed.

Lemma revoke_iamallowedgroups_returns client accountid database table c :
  (revoke_iamallowedgroups_super_permission_from_table client accountid database table c).1
  = Ok tt.
Proof.
  unfold revoke_iamallowedgroups_super_permission_from_table, try_except.
  erewrite bind_eq; [|reflexivity].
  match goal with
  | |- context [batch_revoke_permissions ?cl ?a ?es ?s] =>
      pose proof (batch_revoke_permissions_raises_ClientError cl a es s) as Hce;
      destruct (batch_revoke_permissions cl a es s) as [[[]|e] c1]
  end; simpl in *; [done|].
  by rewrite (Hce e eq_refl).
Qed.

Lemma grant_permissions_to_table_returns client principal database_name table_name
    permissions permissions_with_grant_options c :
  (grant_permissions_to_table client principal database_name table_name permissions
     permissions_with_grant_options c).1 = Ok tt.
Proof.
  unfold grant_permissions_to_table, try_except, Client.grant_permissions.
  by destruct (lf_grant_permissions _ _ _ _) as [[]|code msg].
Qed.

Lemma share_table_with_target_account_returns source target c :
  (share_table_with_target_account source target c).1 = Ok true.
Proof.
  unfold share_table_with_target_account, try_except, bind.
  match goal with
  | |- context [revoke_iamallowedgroups_super_permission_from_table ?cl ?a ?d ?t ?s] =>
      pose proof (revoke_iamallowedgroups_returns cl a d t s) as Hr;
      destruct (revoke_iamallowedgroups_super_permission_from_table cl a d t s)
        as [[[]|e] c1]
  end; simpl in Hr; [|done].
  match goal with
  | |- context [grant_permissions_to_table ?cl ?p ?d ?t ?ps ?g ?s] =>
      pose proof (grant_permissions_to_table_returns cl p d t ps g s) as Hg;
      destruct (grant_permissions_to_table cl p d t ps g s) as [[[]|e] c2]
  end; simpl in Hg; [done|done].
Qed.

(** C8: revoking the legacy 'EVERYONE' grant of a table returns normally
    whatever Lake Formation answers, so also when it reports that there is
    no such grant; the step of the table sequence that does it returns
    normally as well, and when the steps after it succeed the item of the
    table ends in [Share_Succeeded]. *)
Theorem revoking_the_legacy_grant_never_fails_the_item :
  (forall client accountid database table c,
     (revoke_iamallowedgroups_super_permission_from_table client accountid database
        table c).1 = Ok tt) /\
  (forall source target c,
     (share_table_with_target_account source target c).1 = Ok true) /\
  (forall share source_environment target_environment table rest principals w i c,
     let source := table_source source_environment table in
     let target := table_target target_environment principals in
     get_share_item share (a_table table) w = (Ok i, w) ->
     (accept_ram_invitation source target >>
      create_resource_link_on_target_account source target)%run
       (share_table_with_target_account source target (aws w)).2 = (Ok tt, c) ->
     share_tables share source_environment target_environment (table :: rest) principals w =
     share_tables share source_environment target_environment rest principals
       (item_ended w i Share_Succeeded c [])).
Proof.
  split; [|split].
  - apply revoke_iamallowedgroups_returns.
  - apply share_table_with_target_account_returns.
  - intros * Hitem Hrest. subst source target.
    apply (share_tables_turn _ _ _ _ _ _ _ _ (Ok tt) _ Hitem).
    unfold table_grant_sequence. unfold bind at 1.
    match goal with
    | |- context [share_table_with_target_account ?s ?t ?a] =>
        pose proof (share_table_with_target_account_returns s t a) as Hfirst;
        destruct (share_table_with_target_account s t a) as [[b|e] c1]
    end; simpl in *; [exact Hrest | done].
Qed.

Lemma revoking_the_legacy_grant_never_fails_the_item_witness :
  let w := Sample.world_with (Sample.store Approved [] [])
             (Sample.cloud_with Sample.no_legacy_grant_services []) in
  let principals := ["arn:aws:iam::222222222222:role/consumers"] in
  let run := share_tables (Sample.share1 Approved) Sample.source_env Sample.target_env
               [Sample.orders] principals w in
  (revoke_iamallowedgroups_super_permission_from_table Sample.lf_client
     Sample.source_account "sales" "orders" (aws w)).1 = Ok tt /\
  reported_failures
    (omap (fun x => match x with
                    | BatchRevokePermissions _ _ _ answer => Some answer
                    | _ => None
                    end) (calls (aws run.2)))
  = [ {| ErrorCode := "InvalidInputException";
         ErrorMessage := "Grantee has no permissions on the resource" |} ] /\
  run.1 = Ok tt /\
  status_of run.2 0 = Some Share_Succeeded /\
  alarms run.2 = [].
Proof.
  intros w principals run. split.
  { apply (proj1 revoking_the_legacy_grant_never_fails_the_item). }
  unfold run.
  rewrite (proj2 (proj2 revoking_the_legacy_grant_never_fails_the_item)
             (Sample.share1 Approved) Sample.source_env Sample.target_env
             Sample.orders [] principals w 0 _
             (get_share_item_Ok (Sample.share1 Approved) (a_table Sample.orders) w 0
                ltac:(vm_compute; reflexivity))
             (run_eta_Ok
                ((accept_ram_invitation (table_source Sample.source_env Sample.orders)
                    (table_target Sample.target_env principals) >>
                  create_resource_link_on_target_account
                    (table_source Sample.source_env Sample.orders)
                    (table_target Sample.target_env principals))%run
                   (share_table_with_target_account
                      (table_source Sample.source_env Sample.orders)
                      (table_target Sample.target_env principals) (aws w)).2)
                tt ltac:(vm_compute; reflexivity))).
  repeat split; vm_compute; reflexivity.
Defined.

(** ** The target role policy *)

(** C4, what the code does: with an inline policy in place whose first
    statement does not mention the bucket, the document handed to
    [IAM.update_role_policy] is the JSON text [null] (the value of
    [list.extend]), not the existing policy with the four resources
    appended; with the bucket mentioned, nothing is written. *)
Theorem grant_target_role_access_policy_on_existing_policy
    bucket_name access_point_name target_account_id target_env_admin dataset c
    existing resource joined :
  role_policies c !! (target_account_id, target_env_admin,
                      "targetDatasetAccessControlPolicy") = Some existing ->
  Json.truthy (document existing) = true ->
  first_statement_resource (document existing) = Ok (VList resource) ->
  str_join "," (VList resource) = Ok joined ->
  grant_target_role_access_policy bucket_name access_point_name target_account_id
    target_env_admin dataset c =
  if Py.str_in bucket_name joined then (Ok tt, c)
  else (Ok tt,
        set_role_policies
          <[(target_account_id, target_env_admin, "targetDatasetAccessControlPolicy") :=
              json_dumps VNone]> c).
Proof.
  intros Hexisting Htruthy Hresource Hjoined.
  unfold grant_target_role_access_policy.
  unfold IAM.get_role_policy, IAM.update_role_policy, gets, modify, bind.
  rewrite Hexisting.
  cbn [fmap option_fmap option_map truthy_policy]. rewrite Htruthy.
  unfold not_None, of_result, ret. rewrite Hresource, Hjoined.
  by destruct (Py.str_in bucket_name joined).
Qed.

Lemma grant_target_role_access_policy_on_existing_policy_witness :
  let c := Sample.with_role_policy ["arn:aws:s3:::b0"; "arn:aws:s3:::b0/*"]
             (Sample.cloud_with Sample.ok_services []) in
  let c' := (grant_target_role_access_policy "b1" "ds1-consumers" Sample.target_account
               "consumers" Sample.sales c).2 in
  Json.dumps <$> (document <$>
    role_policies c' !! (Sample.target_account, "consumers",
                         "targetDatasetAccessControlPolicy")) = Some "null".
Proof.
  intros c c'. unfold c'.
  rewrite (grant_target_role_access_policy_on_existing_policy
             "b1" "ds1-consumers" Sample.target_account "consumers" Sample.sales c
             (Sample.role_policy_text ["arn:aws:s3:::b0"; "arn:aws:s3:::b0/*"])
             [VStr "arn:aws:s3:::b0"; VStr "arn:aws:s3:::b0/*"]
             "arn:aws:s3:::b0,arn:aws:s3:::b0/*");
    [|vm_compute; reflexivity..].
  vm_compute. reflexivity.
Defined.

(** ** Revoking the resource links *)

Lemma outer_eq {L S A} (m : Run S A) (l : L) s r s' :
  m s = (r, s') -> outer m (l, s) = (r, (l, s')).
Proof. unfold outer. simpl. by intros ->. Qed.

(** C7, what the code does: a table whose resource link is not in the
    shadow database of the target account goes through its turn of
    [revoke_resource_links_access_on_target_account] without a terminal
    status: its item is set to [Revoke_In_Progress] and the loop moves on
    with the item still there. *)
Theorem revoke_of_a_missing_link_leaves_the_item_in_progress
    env_group share table rest target_environment w i :
  get_share_item share (a_table table) w = (Ok i, w) ->
  DatasetTable.GlueTableName table ∉ resource_links (aws w) target_environment table ->
  revoke_resource_links_access_on_target_account env_group share (table :: rest)
    target_environment w =
  revoke_resource_links_access_on_target_account env_group share rest
    target_environment (item_begun w i Revoke_In_Progress).
Proof.
  intros Hitem Hmissing.
  unfold revoke_resource_links_access_on_target_account, with_local.
  rewrite for_each_cons.
  erewrite bind_eq; [reflexivity|].
  erewrite bind_eq; [|by apply outer_eq].
  erewrite bind_eq; [|apply outer_eq; reflexivity].
  apply try_except_Ok.
  erewrite bind_eq.
  2:{ apply outer_eq. apply lift_aws_eq. reflexivity. }
  simpl. rewrite bool_decide_eq_false_2 by exact Hmissing.
  unfold ret, item_begun, set_aws, set_session. simpl. reflexivity.
Qed.

Lemma revoke_of_a_missing_link_leaves_the_item_in_progress_witness :
  let w := Sample.world_with (Sample.store Rejected [] [])
             (Sample.cloud_with Sample.ok_services []) in
  status_of
    (revoke_resource_links_access_on_target_account (Some Sample.producers)
       (Sample.share1 Rejected) [Sample.orders] Sample.target_env w).2 0
    = Some Revoke_In_Progress /\
  (reject_share "share-1" w).1 = Ok true /\
  status_of (reject_share "share-1" w).2 0 = Some Revoke_In_Progress.
Proof.
  intros w. split; [|split; vm_compute; reflexivity].
  rewrite (revoke_of_a_missing_link_leaves_the_item_in_progress
             (Some Sample.producers) (Sample.share1 Rejected) Sample.orders []
             Sample.target_env w 0
             (get_share_item_Ok (Sample.share1 Rejected) (a_table Sample.orders) w 0
                ltac:(vm_compute; reflexivity))).
  - vm_compute. reflexivity.
  - assert (resource_links (aws w) Sample.target_env Sample.orders = []) as ->
      by (vm_compute; reflexivity).
    apply not_elem_of_nil.
Defined.

(** ** The source grant on reject *)

(** What the query of [other_approved_share_object_exists] finds: the
    approved share objects of any environment, as soon as the environment
    asked for exists. *)
Lemma other_approved_share_object_exists_spec environment_uri w :
  exists found,
    other_approved_share_object_exists environment_uri w = (Ok found, w) /\
    forall share,
      share ∈ found <->
      share ∈ share_objects (session w) /\ ShareObject.status share = Approved /\
      exists environment,
        environment ∈ environments (session w) /\
        Environment.environmentUri environment = environment_uri.
Proof.
  eexists. split; [reflexivity|]. intros share. rewrite list_elem_of_bind. split.
  - intros (share' & Hin & Hshare). apply list_elem_of_bind in Hin as (env & Hin & Henv).
    destruct (String.eqb _ _) eqn:Huri; [|by apply elem_of_nil in Hin].
    destruct (bool_decide _) eqn:Hst; [|by apply elem_of_nil in Hin].
    apply list_elem_of_singleton in Hin as ->.
    apply bool_decide_eq_true in Hst. apply String.eqb_eq in Huri. eauto.
  - intros (Hshare & Hst & env & Henv & Huri). exists share. split; [|done].
    apply list_elem_of_bind. exists env. split; [|done].
    rewrite (proj2 (String.eqb_eq _ _) Huri), bool_decide_eq_true_2 by done.
    by apply list_elem_of_singleton.
Qed.

(** C3, what the code does: [reject_share] leaves the source grant alone
    as soon as an approved share object exists for any environment; with
    [share-1] rejected and the only approved share one of another dataset
    with another environment, no approved share is left for the target
    environment and still the source account is not asked to revoke. *)
Theorem reject_share_keeps_the_source_grant_for_a_share_elsewhere :
  let w := Sample.world_with (Sample.store Rejected [Sample.share2] [])
             (Sample.cloud_with Sample.ok_services ["orders"]) in
  filter (fun s => ShareObject.environmentUri s = "env-tgt" /\
                   ShareObject.status s = Approved) (share_objects (session w)) = [] /\
  (other_approved_share_object_exists "env-tgt" w).1 = Ok [Sample.share2] /\
  (reject_share "share-1" w).1 = Ok true /\
  journal (reject_share "share-1" w).2 =
    ["get_share_data"; "revoke_resource_links_access_on_target_account";
     "delete_resource_links_on_target_account"; "clean_shared_database";
     "revoke_shared_folders"] /\
  batch_revokes_at Sample.source_account (aws (reject_share "share-1" w).2) = [].
Proof.
  intros w. repeat split; vm_compute; reflexivity.
Qed.

(** ** The sweep of the shadow database *)

Lemma set_calls_id c : set_calls (fun l => l) c = c.
Proof. by destruct c. Qed.

(** Revoking one entry is one call, with that entry. *)
Lemma batch_revoke_permissions_one client accountid entry c :
  exists answer,
    (batch_revoke_permissions client accountid [entry] c).2 =
    set_calls (fun l => l ++ [BatchRevokePermissions client accountid [entry] answer]) c.
Proof.
  unfold batch_revoke_permissions, entries_chunks. simpl.
  unfold Client.batch_revoke_permissions.
  destruct (lf_batch_revoke_permissions _ _ _ _ _) as [fs|code msg]; simpl.
  - eexists. destruct fs as [|f fs]; [done|].
    simpl. by repeat case_match.
  - by eexists.
Qed.

(** What holds before a loop and is kept by every turn that returns holds
    after a loop that returns. *)
Lemma for_each_invariant {S A} (I : list A -> S -> Prop) (body : A -> Run S unit) :
  (forall x done s s', I done s -> body x s = (Ok tt, s') -> I (done ++ [x]) s') ->
  forall xs done s s', I done s -> for_each xs body s = (Ok tt, s') -> I (done ++ xs) s'.
Proof.
  intros Hstep xs. induction xs as [|x xs IH]; intros done s s' HI Hrun.
  - injection Hrun as <-. by rewrite app_nil_r.
  - simpl in Hrun. unfold bind in Hrun.
    destruct (body x s) as [[[]|e] s1] eqn:Hbody; [|done].
    rewrite (assoc_L (++) done [x] xs : done ++ x :: xs = (done ++ [x]) ++ xs).
    eapply IH; [|done]. by eapply Hstep.
Qed.

Lemma filter_complement_nil {A} (P : A -> Prop) `{!forall x, Decision (P x)} (l : list A) :
  filter (fun x => ~ P x) l = [] -> filter P l = l.
Proof.
  induction l as [|x l IH]; [done|]. rewrite !filter_cons.
  destruct (decide (P x)), (decide (~ P x)); try done.
  intros Hnil. by rewrite IH.
Qed.

Lemma filter_not_in_filtered {A} `{!EqDecision A} (P : A -> Prop)
    `{!forall x, Decision (P x)} (l : list A) :
  filter (fun x => x ∉ filter (fun y => ~ P y) l) l = filter P l.
Proof.
  assert (forall l', l' ⊆ l ->
            filter (fun x => x ∉ filter (fun y => ~ P y) l) l' = filter P l') as Hsub.
  { induction l' as [|x l' IH]; [done|]. intros Hl'. rewrite !filter_cons.
    rewrite IH by (intros y Hy; apply Hl'; by right).
    assert (x ∈ l) as Hx by (apply Hl'; by left).
    destruct (decide (P x)) as [HP|HP].
    - rewrite decide_True; [done|]. intros Hin%list_elem_of_filter. tauto.
    - rewrite decide_False; [done|]. intros Hnot. apply Hnot.
      by apply list_elem_of_filter. }
  by apply Hsub.
Qed.

(** C6, what the code does: a sweep that returns leaves in the shadow
    database exactly the objects named by the tables handed to it and
    touches no other database; it has asked the source account to revoke the
    grant of an orphan when the orphan is a table of the source and no
    approved share of the dataset with the target environment has an item of
    that name.  That query decides about the revoke only: the link of a
    table which an approved share still has is deleted like every other
    link not handed to the sweep, and the share is approved as before. *)
Theorem clean_shared_database_deletes_every_link_it_was_not_handed
    dataset shared_tables target_environment w w' :
  clean_shared_database dataset shared_tables target_environment w = (Ok tt, w') ->
  shadow_tables (aws w') dataset target_environment =
    filter (fun t => t ∈ DatasetTable.GlueTableName <$> shared_tables)
           (shadow_tables (aws w) dataset target_environment) /\
  (forall k, k <> shadow_database dataset target_environment ->
             glue (aws w') !! k = glue (aws w) !! k) /\
  revoked_tables (aws w') =
    revoked_tables (aws w) ++
    filter (fun t => is_shared_in w dataset target_environment t = false /\
                     exists_at_source w dataset t = true)
           (orphans (aws w) dataset target_environment shared_tables) /\
  session w' = session w /\
  (forall table,
     table ∈ shadow_tables (aws w) dataset target_environment ->
     table ∉ DatasetTable.GlueTableName <$> shared_tables ->
     is_shared_in w dataset target_environment table = true ->
     (table ∉ shadow_tables (aws w') dataset target_environment) /\
     (table ∉ drop (length (revoked_tables (aws w))) (revoked_tables (aws w'))) /\
     is_shared_in w' dataset target_environment table = true).
Proof.
  intros Hrun.
  enough (shadow_tables (aws w') dataset target_environment =
            filter (fun t => t ∈ DatasetTable.GlueTableName <$> shared_tables)
                   (shadow_tables (aws w) dataset target_environment) /\
          (forall k, k <> shadow_database dataset target_environment ->
                     glue (aws w') !! k = glue (aws w) !! k) /\
          revoked_tables (aws w') =
            revoked_tables (aws w) ++
            filter (fun t => is_shared_in w dataset target_environment t = false /\
                             exists_at_source w dataset t = true)
                   (orphans (aws w) dataset target_environment shared_tables) /\
          session w' = session w) as (Hshadow & Hothers & Hrevoked & Hsession).
  { repeat split; try done.
    - rewrite Hshadow. intros Hin%list_elem_of_filter. tauto.
    - rewrite Hrevoked, drop_app_length. intros Hin%list_elem_of_filter.
      destruct Hin as [[Hnot _] _]. congruence.
    - unfold is_shared_in, is_shared_query, gets in *. simpl in *. by rewrite Hsession. }
  unfold clean_shared_database in Hrun.
  unfold bind at 1 in Hrun. cbn [lift_aws Glue.list_glue_database_tables gets] in Hrun.
  unfold lift_aws at 1, Glue.list_glue_database_tables, gets in Hrun.
  cbn beta iota zeta in Hrun.
  unfold bind at 1, with_local in Hrun.
  match type of Hrun with context [for_each ?l ?b] => set (body := b) in Hrun end.
  set (names := default [] _) in Hrun.
  set (s0 := ([], set_aws _ w)) in Hrun.
  set (shared := DatasetTable.GlueTableName <$> shared_tables) in *.
  set (P := fun t => is_shared_in w dataset target_environment t = false /\
                     exists_at_source w dataset t = true).
  set (I := fun (done : list string) (s : list string * world) =>
              session s.2 = session w /\ glue (aws s.2) = glue (aws w) /\
              s.1 = filter (fun t => t ∉ shared) done /\
              revoked_tables (aws s.2) =
                revoked_tables (aws w) ++ filter P (filter (fun t => t ∉ shared) done)).
  assert (forall x done s s', I done s -> body x s = (Ok tt, s') -> I (done ++ [x]) s')
    as Hstep.
  { intros x done [acc0 wa] [acc1 wb] (Hs & Hg & Hacc & Hrev) Hbody. simpl in Hs, Hg, Hacc, Hrev.
    unfold I. simpl. rewrite !filter_app, !filter_cons, !filter_nil.
    unfold body in Hbody. destruct (decide (x ∉ shared)) as [Horph|Horph].
    - rewrite bool_decide_eq_true_2 in Hbody by done.
      unfold bind, outer, local, set_local, gets, modify, ret, is_shared_query, lift_aws,
        Glue.table_exists in Hbody.
      cbn -[batch_revoke_permissions List.find existsb] in Hbody.
      rewrite Hs in Hbody.
      assert (filter P [x] = if is_shared_in w dataset target_environment x then []
                             else if exists_at_source w dataset x then [x] else []) as ->.
      { rewrite filter_cons, filter_nil. unfold P.
        destruct (is_shared_in _ _ _ _), (exists_at_source _ _ _);
          destruct (decide _) as [[? ?]|Hn]; try done.
        exfalso. by apply Hn. }
      unfold is_shared_in, exists_at_source, is_shared_query, Glue.table_exists, gets.
      cbn [fst].
      destruct (List.find _ _) as [found|].
      + cbn in Hbody. injection Hbody as <- <-.
        rewrite app_nil_r. repeat split; simpl; first [done | by rewrite Hacc].
      + cbn -[batch_revoke_permissions] in Hbody. rewrite Hg in Hbody.
        destruct (bool_decide _).
        * match type of Hbody with
          | context [batch_revoke_permissions ?cl ?acct [?entry] ?c0] =>
              destruct (batch_revoke_permissions_one cl acct entry c0) as [answer Hone];
              destruct (batch_revoke_permissions cl acct [entry] c0) as [r c]
          end.
          simpl in Hone. subst c. destruct r as [[]|e]; [|done].
          injection Hbody as <- <-. repeat split; simpl; try first [done | by rewrite Hacc].
          unfold revoked_tables in *. simpl. rewrite bind_app, Hrev.
          by rewrite <- app_assoc.
        * injection Hbody as <- <-.
          rewrite app_nil_r. repeat split; simpl; first [done | by rewrite Hacc].
    - rewrite bool_decide_eq_false_2 in Hbody by done. injection Hbody as <- <-.
      rewrite !app_nil_r. repeat split; simpl; done. }
  unfold bind at 1 in Hrun.
  destruct (for_each names body s0) as [[[]|e] [acc w1]] eqn:Hloop; [|done].
  apply (for_each_invariant I body Hstep names [] s0) in Hloop;
    [|unfold I; repeat split; simpl; by rewrite ?filter_nil, ?app_nil_r].
  destruct Hloop as (Hs & Hg & Hacc & Hrev). simpl in Hs, Hg, Hacc, Hrev.
  cbn [local gets fst] in Hrun. subst acc.
  change (filter (fun t => t ∉ shared) names)
    with (orphans (aws w) dataset target_environment shared_tables) in *.
  change (shadow_tables (aws w) dataset target_environment) with names.
  assert (names = default [] (glue (aws w) !! shadow_database dataset target_environment))
    as Hnames by done.
  unfold shadow_tables.
  destruct (orphans (aws w) dataset target_environment shared_tables) as [|o os] eqn:Horph.
  - injection Hrun as <-. rewrite Hg, <- Hnames. repeat split; try done.
    symmetry. by apply filter_complement_nil.
  - rewrite <- Horph in *. unfold lift_aws, Glue.batch_delete_tables, modify in Hrun.
    injection Hrun as <-. simpl. rewrite Hg.
    fold (shadow_database dataset target_environment).
    destruct (glue (aws w) !! shadow_database dataset target_environment)
      as [present|] eqn:Hpresent; simpl in Hnames; rewrite Hnames.
    + repeat split; try done.
      * rewrite lookup_insert_eq. simpl. unfold orphans, shadow_tables.
        rewrite Hpresent. apply filter_not_in_filtered.
      * intros k Hk. by rewrite lookup_insert_ne.
    + rewrite Hpresent. by repeat split.
Qed.

Lemma clean_shared_database_deletes_every_link_it_was_not_handed_witness :
  let w := Sample.two_shares_world in
  let w' := (clean_shared_database Sample.sales [Sample.orders] Sample.target_env w).2 in
  shadow_tables (aws w') Sample.sales Sample.target_env = ["orders"] /\
  revoked_tables (aws w') = [] /\
  ("invoices" ∉ shadow_tables (aws w') Sample.sales Sample.target_env) /\
  is_shared_in w' Sample.sales Sample.target_env "invoices" = true.
Proof.
  intros w w'.
  destruct (clean_shared_database_deletes_every_link_it_was_not_handed
              Sample.sales [Sample.orders] Sample.target_env w w'
              (run_eta_Ok
                 (clean_shared_database Sample.sales [Sample.orders] Sample.target_env w)
                 tt ltac:(vm_compute; reflexivity)))
    as (Hshadow & _ & Hrev & _ & Hlink).
  destruct (Hlink "invoices") as (Hgone & _ & Hshared).
  - apply (bool_decide_unpack _). vm_compute. exact I.
  - apply (bool_decide_unpack _). vm_compute. exact I.
  - vm_compute. reflexivity.
  - split; [|split; [|split]].
    + rewrite Hshadow. vm_compute. reflexivity.
    + rewrite Hrev. vm_compute. reflexivity.
    + exact Hgone.
    + exact Hshared.
Defined.

(** The failing run of C6: [share-1] is rejected while [share-3], an
    approved share of the same dataset with the same target environment,
    has the table [invoices].  The sweep of the run is handed the tables of
    [share-1] only: the run returns with the link of [invoices] deleted
    from the shadow database, although [share-3] is approved as before and
    the grant at the source has not been revoked. *)
Lemma reject_share_deletes_the_link_of_an_approved_share :
  let w := Sample.two_shares_world in
  let run := reject_share "share-1" w in
  run.1 = Ok true /\
  shadow_tables (aws w) Sample.sales Sample.target_env = ["orders"; "invoices"] /\
  is_shared_in w Sample.sales Sample.target_env "invoices" = true /\
  exists_at_source w Sample.sales "invoices" = true /\
  shadow_tables (aws run.2) Sample.sales Sample.target_env = [] /\
  is_shared_in run.2 Sample.sales Sample.target_env "invoices" = true /\
  revoked_tables (aws run.2) = [].
Proof.
  intros w run. repeat split; vm_compute; reflexivity.
Qed.

(** ** The order of the steps of a run *)

Section keeps.
Context {S J : Type} (f : S -> J).

Lemma keeps_ret {A} (a : A) : keeps f (ret a).
Proof. done. Qed.

Lemma keeps_raise {A} e : keeps f (raise (A := A) e).
Proof. done. Qed.

Lemma keeps_gets {A} (g : S -> A) : keeps f (gets g).
Proof. done. Qed.

Lemma keeps_of_result {A} (r : result A) : keeps f (of_result r).
Proof. done. Qed.

Lemma keeps_not_None {A} attribute (o : option A) : keeps f (not_None attribute o).
Proof. by destruct o. Qed.

Lemma keeps_modify (g : S -> S) : (forall s, f (g s) = f s) -> keeps f (modify g).
Proof. intros Hg s. apply Hg. Qed.

Lemma keeps_bind {A B} (m : Run S A) (k : A -> Run S B) :
  keeps f m -> (forall a, keeps f (k a)) -> keeps f (bind m k).
Proof.
  intros Hm Hk s. unfold bind. specialize (Hm s).
  destruct (m s) as [[a|e] s1]; [|done]. simpl in Hm. by rewrite Hk.
Qed.

Lemma keeps_try_except {A} (body : Run S A) catches handler :
  keeps f body -> (forall e, keeps f (handler e)) -> keeps f (try_except body catches handler).
Proof.
  intros Hbody Hhandler s. unfold try_except. specialize (Hbody s).
  destruct (body s) as [[a|e] s1]; [done|]. simpl in Hbody.
  destruct (catches e); [|done]. by rewrite Hhandler.
Qed.

Lemma keeps_for_each {A} (xs : list A) body :
  (forall x, keeps f (body x)) -> keeps f (for_each xs body).
Proof.
  intros Hbody. induction xs as [|x xs IH]; [done|].
  simpl. by apply keeps_bind.
Qed.

Lemma keeps_outer {L A} (m : Run S A) :
  keeps f m -> keeps (fun ls : L * S => f ls.2) (outer m).
Proof.
  intros Hm [l s]. unfold outer. simpl. specialize (Hm s). by destruct (m s).
Qed.

Lemma keeps_local {L} : keeps (fun ls : L * S => f ls.2) local.
Proof. done. Qed.

Lemma keeps_set_local {L} (l : L) : keeps (fun ls : L * S => f ls.2) (set_local l).
Proof. done. Qed.

Lemma keeps_with_local {L A} (init : L) (m : Run (L * S) A) :
  keeps (fun ls : L * S => f ls.2) m -> keeps f (with_local init m).
Proof.
  intros Hm s. unfold with_local. specialize (Hm (init, s)).
  by destruct (m (init, s)) as [r [l s1]].
Qed.

End keeps.

Lemma keeps_journal_lift_aws {A} (m : Aws A) : keeps journal (lift_aws m).
Proof. intros w. unfold lift_aws. by destruct (m (aws w)). Qed.

(** One step of a proof that a computation keeps the journal. *)
Ltac keeps_journal_step :=
  first
    [ apply keeps_journal_lift_aws
    | apply keeps_ret | apply keeps_raise | apply keeps_gets | apply keeps_of_result
    | apply keeps_not_None | apply keeps_local | apply keeps_set_local
    | apply keeps_modify; done
    | apply keeps_bind | apply keeps_try_except | apply keeps_for_each
    | apply (keeps_outer journal) | apply (keeps_with_local journal)
    | progress intros
    | case_match ].

Ltac keeps_journal := repeat keeps_journal_step.

Lemma get_share_item_keeps_journal share category :
  keeps journal (get_share_item share category).
Proof. unfold get_share_item. keeps_journal. Qed.

Lemma update_share_item_status_keeps_journal share_item status :
  keeps journal (update_share_item_status share_item status).
Proof. unfold update_share_item_status. keeps_journal. Qed.

Lemma S3AccessPointName_of_keeps_journal share_item :
  keeps journal (S3AccessPointName_of share_item).
Proof. unfold S3AccessPointName_of. keeps_journal. Qed.

Lemma trigger_keeps_journal a : keeps journal (AlarmService.trigger a).
Proof. unfold AlarmService.trigger. keeps_journal. Qed.

Ltac keeps_journal_calls :=
  repeat first
    [ apply get_share_item_keeps_journal
    | apply update_share_item_status_keeps_journal
    | apply S3AccessPointName_of_keeps_journal
    | apply trigger_keeps_journal
    | keeps_journal_step ].

Lemma share_tables_keeps_journal share source_environment target_environment
    shared_tables principals :
  keeps journal
    (share_tables share source_environment target_environment shared_tables principals).
Proof.
  unfold share_tables, AlarmService.trigger_table_sharing_failure_alarm.
  keeps_journal_calls.
Qed.

Lemma share_folders_keeps_journal share source_env_group target_env_group
    target_environment shared_folders dataset :
  keeps journal
    (share_folders share source_env_group target_env_group target_environment
       shared_folders dataset).
Proof.
  unfold share_folders, AlarmService.trigger_folder_sharing_failure_alarm.
  keeps_journal_calls.
Qed.

Lemma revoke_shared_folders_keeps_journal share source_env_group target_env_group
    target_environment rejected_folders dataset :
  keeps journal
    (revoke_shared_folders share source_env_group target_env_group target_environment
       rejected_folders dataset).
Proof.
  unfold revoke_shared_folders, AlarmService.trigger_revoke_folder_sharing_failure_alarm.
  keeps_journal_calls.
Qed.

Lemma clean_shared_folders_keeps_journal share source_env_group target_env_group
    target_environment dataset shared_folders :
  keeps journal
    (clean_shared_folders share source_env_group target_env_group target_environment
       dataset shared_folders).
Proof.
  unfold clean_shared_folders, AlarmService.trigger_revoke_folder_sharing_failure_alarm,
    api.get_location_by_s3_prefix.
  keeps_journal_calls.
Qed.

Lemma clean_shared_database_keeps_journal dataset shared_tables target_environment :
  keeps journal (clean_shared_database dataset shared_tables target_environment).
Proof.
  unfold clean_shared_database, is_shared_query.
  keeps_journal_calls.
Qed.

Lemma revoke_resource_links_access_on_target_account_keeps_journal env_group share
    shared_tables target_environment :
  keeps journal
    (revoke_resource_links_access_on_target_account env_group share shared_tables
       target_environment).
Proof.
  unfold revoke_resource_links_access_on_target_account,
    AlarmService.trigger_revoke_sharing_failure_alarm.
  keeps_journal_calls.
Qed.

Lemma get_share_data_keeps_journal share_uri status :
  keeps journal (get_share_data share_uri status).
Proof.
  unfold get_share_data, api.get_environment_by_uri, api.get_environment_group,
    api.get_dataset_tables_shared_with_env, api.get_dataset_locations_shared_with_env.
  keeps_journal_calls.
Qed.

Lemma logs_at_keeps {A} w (m : M A) : keeps journal m -> logs_at w [] m.
Proof.
  intros Hm. split; [exists 0|intros _]; rewrite Hm; simpl; by rewrite app_nil_r.
Qed.

Lemma logs_at_enter {A} w step (m : M A) :
  keeps journal m -> logs_at w [step] (enter step m).
Proof.
  intros Hm. unfold logs_at, enter, bind, modify.
  split; [exists 1|intros _]; by rewrite Hm.
Qed.

(** The steps of a sequence: those of its first part, then those of what
    follows; which steps follow may depend on how the first part ends. *)
Lemma logs_at_bind {A B C} `{!Inhabited C} w s1 (s2 : C -> list string)
    (m : M A) (k : A -> M B) :
  logs_at w s1 m ->
  (forall a w1, m w = (Ok a, w1) -> exists c, logs_at w1 (s2 c) (k a)) ->
  exists c, logs_at w (s1 ++ s2 c) (bind m k).
Proof.
  intros [[n Hn] Hok] Hk. unfold logs_at, bind.
  destruct (m w) as [[a|e] w1] eqn:Hm; simpl in *.
  - destruct (Hk a w1 eq_refl) as (c & [n2 Hn2] & Hok2). exists c.
    rewrite Hok in * by done. split.
    + exists (length s1 + n2). by rewrite Hn2, take_app_add, app_assoc.
    + intros Hr. rewrite Hok2 by done. by rewrite app_assoc.
  - exists inhabitant. split; [|done].
    exists (n `min` length s1). rewrite Hn. f_equal.
    rewrite take_app_le by lia.
    destruct (decide (n <= length s1)) as [Hle|Hgt].
    + by rewrite Nat.min_l.
    + rewrite Nat.min_r by lia. by rewrite !take_ge by lia.
Qed.

Lemma logs_at_then {A B} w s1 s2 (m : M A) (k : A -> M B) :
  logs_at w s1 m ->
  (forall a w1, logs_at w1 s2 (k a)) ->
  logs_at w (s1 ++ s2) (bind m k).
Proof.
  intros Hm Hk.
  destruct (logs_at_bind (C := unit) w s1 (fun _ => s2) m k Hm) as [_ H]; [|done].
  intros a w1 _. by exists tt.
Qed.

Lemma approve_share_logs share_uri w :
  logs_at w approve_phases (approve_share share_uri).
Proof.
  unfold approve_share.
  apply (logs_at_then w ["get_share_data"]
           ["share_tables"; "clean_shared_database"; "share_folders";
            "clean_shared_folders"]);
    [apply logs_at_enter, get_share_data_keeps_journal|].
  intros [[[[[[[source_env_group target_env_group] dataset] share] shared_tables]
             shared_folders] source_environment] target_environment] w1.
  apply (logs_at_then w1 []); [apply logs_at_keeps; keeps_journal|].
  intros principals w2.
  apply (logs_at_then w2 ["share_tables"]
           ["clean_shared_database"; "share_folders"; "clean_shared_folders"]);
    [apply logs_at_enter, share_tables_keeps_journal|].
  intros _ w3.
  apply (logs_at_then w3 ["clean_shared_database"]
           ["share_folders"; "clean_shared_folders"]);
    [apply logs_at_enter, clean_shared_database_keeps_journal|].
  intros _ w4.
  apply (logs_at_then w4 ["share_folders"] ["clean_shared_folders"]);
    [apply logs_at_enter, share_folders_keeps_journal|].
  intros _ w5.
  apply (logs_at_then w5 ["clean_shared_folders"] []);
    [apply logs_at_enter, clean_shared_folders_keeps_journal|].
  intros _ w6. apply logs_at_keeps, keeps_ret.
Qed.

Lemma reject_share_logs share_uri w :
  exists source_revoke, logs_at w (reject_phases source_revoke) (reject_share share_uri).
Proof.
  unfold reject_share.
  pose (tail := fun b : bool =>
          (if b then ["revoke_external_account_access_on_source_account"] else []) ++
          ["revoke_shared_folders"]).
  apply (logs_at_bind w ["get_share_data"]
           (fun b => ["revoke_resource_links_access_on_target_account";
                      "delete_resource_links_on_target_account";
                      "clean_shared_database"] ++ tail b));
    [apply logs_at_enter, get_share_data_keeps_journal|].
  intros [[[[[[[source_env_group target_env_group] dataset] share] shared_tables]
             shared_folders] source_environment] target_environment] w1 _.
  apply (logs_at_bind w1 ["revoke_resource_links_access_on_target_account"]
           (fun b => ["delete_resource_links_on_target_account";
                      "clean_shared_database"] ++ tail b));
    [apply logs_at_enter, revoke_resource_links_access_on_target_account_keeps_journal|].
  intros _ w2 _.
  apply (logs_at_bind w2 ["delete_resource_links_on_target_account"]
           (fun b => ["clean_shared_database"] ++ tail b));
    [apply logs_at_enter, keeps_journal_lift_aws|].
  intros _ w3 _.
  apply (logs_at_bind w3 ["clean_shared_database"] tail);
    [apply logs_at_enter, clean_shared_database_keeps_journal|].
  intros _ w4 _.
  apply (logs_at_bind w4 [] tail);
    [apply logs_at_keeps; unfold other_approved_share_object_exists; apply keeps_gets|].
  intros others w5 _.
  assert (forall w6, logs_at w6 ["revoke_shared_folders"]
            (enter "revoke_shared_folders"
               (revoke_shared_folders share source_env_group target_env_group
                  target_environment shared_folders dataset) >> ret true)) as Hlast.
  { intros w6. apply (logs_at_then w6 ["revoke_shared_folders"] []);
      [apply logs_at_enter, revoke_shared_folders_keeps_journal|].
    intros _ w7. apply logs_at_keeps, keeps_ret. }
  destruct others as [|other others].
  - exists true.
    apply (logs_at_then w5 ["revoke_external_account_access_on_source_account"]
             ["revoke_shared_folders"]);
      [apply logs_at_enter, keeps_journal_lift_aws|].
    intros _ w6. apply Hlast.
  - exists false.
    apply (logs_at_then w5 [] ["revoke_shared_folders"]);
      [apply logs_at_keeps, keeps_ret|].
    intros _ w6. apply Hlast.
Qed.


(** * Further properties of the code *)

(** ** Share items and share data *)

(** X1: [get_share_item] changes nothing; for a table or a folder it
    answers with the first item row of the share for that catalog object,
    and raises [ObjectNotFound] exactly when the share has no such row; for
    anything else it raises [InvalidInput]. *)
Theorem get_share_item_finds_the_first_row share category w :
  (get_share_item share category w).2 = w /\
  match category_uri category, (get_share_item share category w).1 with
  | None, r => r = Raise (InvalidInput "share_category")
  | Some uri, Ok i =>
      exists row,
        share_object_items (session w) !! i = Some row /\ is_item_of share uri row /\
        forall j earlier,
          j < i -> share_object_items (session w) !! j = Some earlier ->
          ~ is_item_of share uri earlier
  | Some uri, Raise e =>
      e = ObjectNotFound "ShareObjectItem" uri /\ ~ has_share_item (session w) share uri
  end.
Proof.
  assert (forall uri,
    let found := list_find (fun i => ShareObjectItem.itemUri i = uri /\
                                     ShareObjectItem.shareUri i = ShareObject.shareUri share)
                   (share_object_items (session w)) in
    match found with
    | Some (i, _) =>
        exists row,
          share_object_items (session w) !! i = Some row /\ is_item_of share uri row /\
          forall j earlier,
            j < i -> share_object_items (session w) !! j = Some earlier ->
            ~ is_item_of share uri earlier
    | None => ~ has_share_item (session w) share uri
    end) as Hfound.
  { intros uri found. subst found.
    destruct (list_find _ _) as [[i row]|] eqn:Hfind.
    - apply list_find_Some in Hfind as (Hrow & His & Hfirst).
      exists row. repeat split; try done; try apply His.
      intros j earlier Hj Hearlier. by apply (Hfirst j earlier).
    - apply list_find_None in Hfind. unfold has_share_item.
      rewrite Exists_exists. intros (row & Hin & Hrow).
      rewrite Forall_forall in Hfind. by apply (Hfind row). }
  destruct category as [table|folder|]; simpl.
  - specialize (Hfound (DatasetTable.tableUri table)). simpl in Hfound.
    unfold get_share_item, bind, gets, ret, raise. simpl.
    by destruct (list_find _ _) as [[i row]|].
  - specialize (Hfound (DatasetStorageLocation.locationUri folder)). simpl in Hfound.
    unfold get_share_item, bind, gets, ret, raise. simpl.
    by destruct (list_find _ _) as [[i row]|].
  - done.
Qed.

(** X2: [get_share_data] only reads.  What it returns belongs together:
    the share is the one asked for, the dataset is the share's, the target
    environment is the share's and the source environment the dataset's,
    and the target group is the share's team in the share's environment. *)
Theorem get_share_data_reads_the_share share_uri status w :
  (get_share_data share_uri status w).2 = w /\
  forall source_env_group target_env_group dataset share shared_tables shared_folders
         source_environment target_environment,
    (get_share_data share_uri status w).1 =
      Ok (source_env_group, target_env_group, dataset, share, shared_tables,
          shared_folders, source_environment, target_environment) ->
    share ∈ share_objects (session w) /\ ShareObject.shareUri share = share_uri /\
    dataset ∈ datasets (session w) /\
    Dataset.datasetUri dataset = ShareObject.datasetUri share /\
    Environment.environmentUri source_environment = Dataset.environmentUri dataset /\
    Environment.environmentUri target_environment = ShareObject.environmentUri share /\
    target_env_group ∈ environment_groups (session w) /\
    EnvironmentGroup.groupUri target_env_group = ShareObject.principalId share /\
    EnvironmentGroup.environmentUri target_env_group = ShareObject.environmentUri share /\
    shared_tables =
      dataset_tables_shared_with_env (session w) (Dataset.datasetUri dataset)
        (ShareObject.environmentUri share) status.
Proof.
  unfold get_share_data, api.get_environment_by_uri, api.get_environment_group,
    api.get_dataset_tables_shared_with_env, api.get_dataset_locations_shared_with_env,
    not_None, bind, gets, ret, raise.
  destruct (find _ (share_objects (session w))) as [share|] eqn:Hshare; [|done].
  destruct (find _ (datasets (session w))) as [dataset|] eqn:Hdataset; [|done].
  destruct (find (fun e => Environment.environmentUri e =? Dataset.environmentUri dataset)%string
              (environments (session w))) as [source_environment|] eqn:Hsource; [|done].
  destruct (find (fun e => Environment.environmentUri e =? ShareObject.environmentUri share)%string
              (environments (session w))) as [target_environment|] eqn:Htarget; [|done].
  destruct (find (fun g => (EnvironmentGroup.groupUri g =? ShareObject.principalId share)%string &&
                           (EnvironmentGroup.environmentUri g =?
                            ShareObject.environmentUri share)%string)
              (environment_groups (session w))) as [target_env_group|] eqn:Hgroup; [|done].
  split; [done|]. intros ? ? ? ? ? ? ? ? [= <- <- <- <- <- <- <- <-].
  apply find_some in Hshare as [Hshare_in Hshare%String.eqb_eq].
  apply find_some in Hdataset as [Hdataset_in Hdataset%String.eqb_eq].
  apply find_some in Hsource as [_ Hsource%String.eqb_eq].
  apply find_some in Htarget as [_ Htarget%String.eqb_eq].
  apply find_some in Hgroup as [Hgroup_in [Hteam%String.eqb_eq Henv%String.eqb_eq]%andb_prop].
  rewrite <- !list_elem_of_In in *. by rewrite Htarget.
Qed.

(** X3: a share whose team is not a member of the target environment is
    refused by [get_share_data] with the exception naming the team and the
    environment, whatever else the store holds. *)
Theorem get_share_data_refuses_a_team_outside_the_environment
    share_uri status w share dataset source_environment target_environment :
  find (fun s => ShareObject.shareUri s =? share_uri)%string (share_objects (session w))
    = Some share ->
  find (fun d => Dataset.datasetUri d =? ShareObject.datasetUri share)%string
    (datasets (session w)) = Some dataset ->
  (api.get_environment_by_uri (Dataset.environmentUri dataset) w).1 = Ok source_environment ->
  (api.get_environment_by_uri (ShareObject.environmentUri share) w).1
    = Ok target_environment ->
  (api.get_environment_group (ShareObject.principalId share)
     (ShareObject.environmentUri share) w).1 = Ok None ->
  get_share_data share_uri status w =
  (Raise (Exception ("Share object Team " +:+ ShareObject.principalId share +:+
                     " is not a member of the environment " +:+
                     Environment.name target_environment +:+ "/" +:+
                     Environment.AwsAccountId target_environment)), w).
Proof.
  unfold get_share_data, api.get_environment_by_uri, api.get_environment_group,
    api.get_dataset_tables_shared_with_env, api.get_dataset_locations_shared_with_env,
    not_None, bind, gets, ret, raise.
  intros -> -> Hsource Htarget Hgroup. simpl in *.
  destruct (find _ (environments (session w))) as [source|]; [|done].
  injection Hsource as ->.
  destruct (find _ (environments (session w))) as [target|]; [|done].
  injection Htarget as ->. injection Hgroup as ->. done.
Qed.

Lemma get_share_data_refuses_a_team_outside_the_environment_witness :
  let w := Sample.world_with (Sample.store Approved [Sample.share3] [])
             (Sample.cloud_with Sample.ok_services []) in
  (get_share_data "share-3" [Approved] w).1 =
  Raise (Exception
    "Share object Team analysts is not a member of the environment consumers-env/222222222222").
Proof.
  intros w.
  rewrite (get_share_data_refuses_a_team_outside_the_environment "share-3" [Approved] w
             Sample.share3 Sample.sales Sample.source_env Sample.target_env
             eq_refl eq_refl eq_refl eq_refl eq_refl).
  reflexivity.
Defined.

(** ** What a run changes in the store *)

Lemma item_key_alter_with_status status i (rows : list ShareObjectItem.t) :
  item_key <$> alter (with_status status) i rows = item_key <$> rows.
Proof.
  revert i. induction rows as [|row rows IH]; intros i; [done|].
  destruct i as [|i]; simpl; [done|]. f_equal. apply IH.
Qed.

Section frame.
Context {J : Type} (f : world -> J).
Hypothesis f_aws : forall g w, f (set_aws g w) = f w.
Hypothesis f_alarms : forall g w, f (set_alarms g w) = f w.

Lemma keeps_lift_aws {A} (m : Aws A) : keeps f (lift_aws m).
Proof. intros w. unfold lift_aws. destruct (m (aws w)). apply f_aws. Qed.

Lemma keeps_trigger a : keeps f (AlarmService.trigger a).
Proof. intros w. apply f_alarms. Qed.

Ltac sweep_step :=
  first
    [ apply keeps_lift_aws | apply keeps_trigger
    | apply keeps_ret | apply keeps_raise | apply keeps_gets | apply keeps_of_result
    | apply keeps_not_None | apply keeps_local | apply keeps_set_local
    | apply keeps_bind | apply keeps_try_except | apply keeps_for_each
    | apply (keeps_outer f) | apply (keeps_with_local f)
    | progress intros
    | case_match ].

Lemma clean_shared_database_keeps dataset shared_tables target_environment :
  keeps f (clean_shared_database dataset shared_tables target_environment).
Proof. unfold clean_shared_database, is_shared_query. repeat sweep_step. Qed.

Lemma clean_shared_folders_keeps share source_env_group target_env_group
    target_environment dataset shared_folders :
  keeps f (clean_shared_folders share source_env_group target_env_group
             target_environment dataset shared_folders).
Proof.
  unfold clean_shared_folders, AlarmService.trigger_revoke_folder_sharing_failure_alarm,
    api.get_location_by_s3_prefix.
  repeat sweep_step.
Qed.

Hypothesis f_journal : forall g w, f (set_journal g w) = f w.
Hypothesis f_status : forall status i w,
  f (set_session (set_share_object_items (alter (with_status status) i)) w) = f w.

Lemma keeps_enter {A} step (m : M A) : keeps f m -> keeps f (enter step m).
Proof.
  intros Hm. unfold enter. apply keeps_bind; [|done]. apply keeps_modify, f_journal.
Qed.

Lemma update_share_item_status_keeps share_item status :
  keeps f (update_share_item_status share_item status).
Proof.
  unfold update_share_item_status. apply keeps_bind; [|intros; apply keeps_ret].
  apply keeps_modify, f_status.
Qed.

Ltac run_step :=
  first
    [ apply update_share_item_status_keeps
    | apply keeps_enter
    | apply clean_shared_database_keeps
    | apply clean_shared_folders_keeps
    | sweep_step ].

Lemma share_tables_keeps share source_environment target_environment shared_tables
    principals :
  keeps f (share_tables share source_environment target_environment shared_tables
             principals).
Proof.
  unfold share_tables, get_share_item, AlarmService.trigger_table_sharing_failure_alarm.
  repeat run_step.
Qed.

Lemma share_folders_keeps share source_env_group target_env_group target_environment
    shared_folders dataset :
  keeps f (share_folders share source_env_group target_env_group target_environment
             shared_folders dataset).
Proof.
  unfold share_folders, get_share_item, S3AccessPointName_of,
    AlarmService.trigger_folder_sharing_failure_alarm.
  repeat run_step.
Qed.

Lemma revoke_shared_folders_keeps share source_env_group target_env_group
    target_environment rejected_folders dataset :
  keeps f (revoke_shared_folders share source_env_group target_env_group
             target_environment rejected_folders dataset).
Proof.
  unfold revoke_shared_folders, get_share_item, S3AccessPointName_of,
    AlarmService.trigger_revoke_folder_sharing_failure_alarm.
  repeat run_step.
Qed.

Lemma revoke_resource_links_access_on_target_account_keeps env_group share shared_tables
    target_environment :
  keeps f (revoke_resource_links_access_on_target_account env_group share shared_tables
             target_environment).
Proof.
  unfold revoke_resource_links_access_on_target_account, get_share_item,
    AlarmService.trigger_revoke_sharing_failure_alarm.
  repeat run_step.
Qed.

Lemma get_share_data_keeps share_uri status : keeps f (get_share_data share_uri status).
Proof.
  unfold get_share_data, api.get_environment_by_uri, api.get_environment_group,
    api.get_dataset_tables_shared_with_env, api.get_dataset_locations_shared_with_env.
  repeat run_step.
Qed.

Lemma approve_share_keeps share_uri : keeps f (approve_share share_uri).
Proof.
  unfold approve_share.
  repeat first
    [ apply get_share_data_keeps | apply share_tables_keeps | apply share_folders_keeps
    | run_step ].
Qed.

Lemma reject_share_keeps share_uri : keeps f (reject_share share_uri).
Proof.
  unfold reject_share, other_approved_share_object_exists.
  repeat first
    [ apply get_share_data_keeps | apply revoke_shared_folders_keeps
    | apply revoke_resource_links_access_on_target_account_keeps
    | run_step ].
Qed.

End frame.

(** X4: a run of [approve_share] or of [reject_share], whether it returns
    or raises, changes nothing in the store but statuses of share items:
    share objects, datasets, environments and teams are as before, and the
    items are the same rows, in the same order, with the same URIs, table
    names and access point names. *)
Theorem runs_change_only_the_statuses_of_items share_uri w :
  store_but_statuses (approve_share share_uri w).2 = store_but_statuses w /\
  store_but_statuses (reject_share share_uri w).2 = store_but_statuses w.
Proof.
  assert (forall status i w0,
            store_but_statuses
              (set_session (set_share_object_items (alter (with_status status) i)) w0) =
            store_but_statuses w0) as Hstatus.
  { intros status i w0. unfold store_but_statuses. simpl.
    by rewrite item_key_alter_with_status. }
  split.
  - by apply (approve_share_keeps store_but_statuses).
  - by apply (reject_share_keeps store_but_statuses).
Qed.

(** X5: the two sweeps leave the store alone: whatever they find and
    whether they return or raise, no row changes; a stale prefix whose
    revoke fails is reported by an alarm, not by a status. *)
Theorem sweeps_leave_the_store_alone share source_env_group target_env_group
    target_environment dataset shared_tables shared_folders w :
  session (clean_shared_database dataset shared_tables target_environment w).2 = session w /\
  session (clean_shared_folders share source_env_group target_env_group target_environment
             dataset shared_folders w).2 = session w.
Proof.
  split.
  - by apply (clean_shared_database_keeps session).
  - by apply (clean_shared_folders_keeps session).
Qed.

(** ** Grants in the target account *)

Lemma set_calls_set_calls f g c : set_calls f (set_calls g c) = set_calls (fun l => f (g l)) c.
Proof. done. Qed.

Lemma set_calls_app l1 l2 c :
  set_calls (fun l => l ++ l2) (set_calls (fun l => l ++ l1) c) =
  set_calls (fun l => l ++ l1 ++ l2) c.
Proof. unfold set_calls. simpl. by rewrite <- app_assoc. Qed.

(** A grant whose [ClientError] is only logged is one call, and returns. *)
Lemma swallowed_grant client grant c :
  try_except (Client.grant_permissions client grant) is_ClientError (fun _ => ret tt) c =
  (Ok tt,
   set_calls (fun l => l ++ [GrantPermissions client grant
                               (lf_grant_permissions (service c) (calls c) client grant)]) c).
Proof.
  unfold try_except, Client.grant_permissions.
  by destruct (lf_grant_permissions _ _ _ _) as [[]|code msg].
Qed.

Lemma for_each_swallowed_grants client (grant : string -> lf_entry) principals c :
  exists new,
    for_each principals (fun principal =>
      try_except (Client.grant_permissions client (grant principal)) is_ClientError
        (fun _ => ret tt)) c = (Ok tt, set_calls (fun l => l ++ new) c) /\
    Forall2 (fun principal x => is_grant client (grant principal) x) principals new.
Proof.
  revert c. induction principals as [|principal principals IH]; intros c.
  - exists []. split; [|done]. simpl. unfold ret. f_equal.
    rewrite <- (set_calls_id c) at 1. unfold set_calls. simpl. by rewrite app_nil_r.
  - simpl. unfold bind at 1. rewrite swallowed_grant.
    destruct (IH (set_calls (fun l => l ++ [GrantPermissions client (grant principal)
                (lf_grant_permissions (service c) (calls c) client (grant principal))]) c))
      as (new & -> & Hnew).
    eexists. split; [by rewrite set_calls_app|].
    constructor; [by eexists | done].
Qed.

(** X6: [grant_permissions_to_database] and [grant_resource_link_permission]
    return whatever Lake Formation answers: every principal gets its one
    grant call, in the order of the principals, a refused grant does not
    keep the later ones from being asked for, and nothing but the calls
    changes. *)
Theorem database_and_link_grants_ask_for_every_principal
    client source target target_database principals database_name permissions c :
  (exists new,
     grant_permissions_to_database client principals database_name permissions c =
       (Ok tt, set_calls (fun l => l ++ new) c) /\
     Forall2 (fun principal x =>
                is_grant client
                  {| Id := None; Principal := principal;
                     Resource := ResDatabase database_name;
                     Permissions := permissions; PermissionsWithGrantOption := None |} x)
             principals new) /\
  (exists new,
     grant_resource_link_permission client source target target_database c =
       (Ok tt, set_calls (fun l => l ++ new) c) /\
     Forall2 (fun principal x =>
                is_grant client
                  {| Id := None; Principal := principal;
                     Resource := ResTable target_database (source_tablename source)
                                   (Some (target_accountid target));
                     Permissions := ["DESCRIBE"; "DROP"; "ALL"];
                     PermissionsWithGrantOption := Some [] |} x)
             (target_principals target) new).
Proof.
  split.
  - apply (for_each_swallowed_grants client
             (fun principal =>
                {| Id := None; Principal := principal;
                   Resource := ResDatabase database_name;
                   Permissions := permissions; PermissionsWithGrantOption := None |})).
  - apply (for_each_swallowed_grants client
             (fun principal =>
                {| Id := None; Principal := principal;
                   Resource := ResTable target_database (source_tablename source)
                                 (Some (target_accountid target));
                   Permissions := ["DESCRIBE"; "DROP"; "ALL"];
                   PermissionsWithGrantOption := Some [] |})).
Qed.

Section raises_only.
Context {S : Type} (allowed : exn -> bool).

Lemma raises_only_ret {A} (a : A) : raises_only (S := S) allowed (ret a).
Proof. done. Qed.

Lemma raises_only_gets {A} (g : S -> A) : raises_only allowed (gets g).
Proof. done. Qed.

Lemma raises_only_modify (g : S -> S) : raises_only allowed (modify g).
Proof. done. Qed.

Lemma raises_only_raise {A} e : allowed e = true -> raises_only (S := S) allowed (raise (A := A) e).
Proof. by intros He s. Qed.

Lemma raises_only_bind {A B} (m : Run S A) (k : A -> Run S B) :
  raises_only allowed m -> (forall a, raises_only allowed (k a)) ->
  raises_only allowed (bind m k).
Proof.
  intros Hm Hk s. unfold bind. specialize (Hm s).
  destruct (m s) as [[a|e] s1]; [apply Hk | done].
Qed.

Lemma raises_only_for_each {A} (xs : list A) (body : A -> Run S unit) :
  (forall x, raises_only allowed (body x)) -> raises_only allowed (for_each xs body).
Proof.
  intros Hbody. induction xs as [|x xs IH]; [done|].
  simpl. by apply raises_only_bind.
Qed.

(** What a [try] lets out is what its handlers let out, and what the body
    raises past them. *)
Lemma raises_only_try_except {A} (body : Run S A) catches handler :
  raises_only (fun e => catches e || allowed e) body ->
  (forall e, catches e = true -> raises_only allowed (handler e)) ->
  raises_only allowed (try_except body catches handler).
Proof.
  intros Hbody Hhandler s. unfold try_except. specialize (Hbody s).
  destruct (body s) as [[a|e] s1]; [done|]. simpl in Hbody.
  destruct (catches e) eqn:Hcatches; [by apply Hhandler | done].
Qed.

Lemma raises_only_weaken {A} (allowed' : exn -> bool) (m : Run S A) :
  (forall e, allowed' e = true -> allowed e = true) ->
  raises_only allowed' m -> raises_only allowed m.
Proof.
  intros Hallowed Hm s. specialize (Hm s). destruct (m s).1; [done|]. by apply Hallowed.
Qed.

End raises_only.

Lemma grant_permissions_raises_only_ClientError client grant :
  raises_only is_ClientError (Client.grant_permissions client grant).
Proof.
  intros c. unfold Client.grant_permissions. simpl.
  by destruct (lf_grant_permissions _ _ _ _).
Qed.

Lemma grant_permissions_keeps_glue client grant :
  keeps glue (Client.grant_permissions client grant).
Proof. done. Qed.

(** X7: [create_resource_link_on_target_account] raises nothing but
    [ClientError]: what its [except] clause catches it raises again.
    Whether it returns or raises, the shadow database of the target
    account holds afterwards the objects it held, in their order, and at
    most the resource link after them, and every other database of the
    catalog is as it was: a grant that fails after the link was created
    does not take the link away again.  When the call returns, the
    resource link is in the shadow database. *)
Theorem create_resource_link_returns_with_the_link source target c :
  let run := create_resource_link_on_target_account source target c in
  let shadow := (target_accountid target, target_region target,
                 source_database source +:+ "shared") in
  let before := default [] (glue c !! shadow) in
  let after := default [] (glue run.2 !! shadow) in
  (is_raise run.1 = false -> source_tablename source ∈ after) /\
  (after = before \/ after = before ++ [source_tablename source]) /\
  (forall k, k <> shadow -> glue run.2 !! k = glue c !! k) /\
  (is_raise run.1 = true -> exists code msg, run.1 = Raise (ClientError code msg)).
Proof.
  intros run shadow before after.
  assert (glue run.2 =
          <[shadow := if bool_decide (source_tablename source ∈ before) then before
                      else before ++ [source_tablename source]]> (glue c)) as Hglue.
  { assert (keeps glue
      (grant_permissions_to_database
         (SessionHelper.client (target_accountid target) (target_region target))
         (target_principals target) (source_database source +:+ "shared") ["ALL"] >>
       grant_resource_link_permission
         (SessionHelper.client (target_accountid target) (target_region target))
         source target (source_database source +:+ "shared") >>
       grant_resource_link_permission_on_target
         (SessionHelper.client (target_accountid target) (target_region target))
         source target)) as Hrest.
    { unfold grant_permissions_to_database, grant_resource_link_permission,
        grant_resource_link_permission_on_target.
      repeat first
        [ apply grant_permissions_keeps_glue | apply keeps_ret | apply keeps_bind
        | apply keeps_try_except | apply keeps_for_each | progress intros ]. }
    subst run. unfold create_resource_link_on_target_account, try_except.
    unfold bind at 1. unfold Glue._create_table, modify.
    match goal with |- context [bind ?m ?k ?c1] =>
      specialize (Hrest c1); destruct (bind m k c1) as [[[]|e] c2] end;
      simpl in Hrest; [|destruct (is_ClientError e)]; simpl; by rewrite Hrest. }
  assert (after = if bool_decide (source_tablename source ∈ before) then before
                  else before ++ [source_tablename source]) as Hafter.
  { subst after. by rewrite Hglue, lookup_insert_eq. }
  split_and!.
  - intros _. rewrite Hafter. case_bool_decide; [done|].
    apply elem_of_app. right. by apply list_elem_of_singleton.
  - rewrite Hafter. case_bool_decide; [by left | by right].
  - intros k Hk. by rewrite Hglue, lookup_insert_ne.
  - assert (raises_only is_ClientError
              (create_resource_link_on_target_account source target)) as Honly.
    { unfold create_resource_link_on_target_account, grant_permissions_to_database,
        grant_resource_link_permission, grant_resource_link_permission_on_target,
        Glue._create_table.
      apply raises_only_try_except; [|by intros e He; apply raises_only_raise].
      apply (raises_only_weaken _ is_ClientError); [by intros e ->|].
      repeat first
        [ apply grant_permissions_raises_only_ClientError
        | apply raises_only_ret | apply raises_only_modify
        | apply raises_only_bind | apply raises_only_for_each
        | apply raises_only_try_except;
            [apply (raises_only_weaken _ is_ClientError); [by intros e ->|]|]
        | progress intros ]. }
    specialize (Honly c). fold run in Honly.
    destruct run.1 as [[]|e]; [done|]. intros _.
    destruct e; simpl in Honly; try done. eauto.
Qed.

(** ** RAM invitations and the dashboard group *)

Lemma accept_resource_share_invitation_outcome client arn c :
  accept_resource_share_invitation client arn c =
  (match ram_accept_resource_share_invitation (service c) (calls c) client arn with
   | Answer _ => Ok tt
   | ServiceError code msg =>
       if String.eqb code "ResourceShareInvitationAlreadyAcceptedException" then Ok tt
       else Raise (ClientError code msg)
   end,
   set_calls (fun l => l ++ [AcceptResourceShareInvitation client arn
       (ram_accept_resource_share_invitation (service c) (calls c) client arn)]) c).
Proof.
  unfold accept_resource_share_invitation, try_except,
    Client.accept_resource_share_invitation.
  destruct (ram_accept_resource_share_invitation _ _ _ _) as [[]|code msg]; simpl; [done|].
  by destruct (String.eqb code _).
Qed.

Lemma accept_invitations_in_turn ram invitations c :
  let run := for_each invitations (fun invitation =>
               accept_resource_share_invitation ram invitation) c in
  exists accepts,
    run.2 = set_calls (fun l => l ++ accepts) c /\
    match run.1 with
    | Ok _ => Forall2 (is_accepted ram) invitations accepts
    | Raise e =>
        exists code msg,
          e = ClientError code msg /\ call_error <$> last accepts = Some (Some (code, msg))
    end.
Proof.
  revert c. induction invitations as [|arn invitations IH]; intros c; simpl.
  - exists []. split; [|done].
    rewrite <- (set_calls_id c) at 1. unfold set_calls. simpl. by rewrite app_nil_r.
  - unfold bind. rewrite accept_resource_share_invitation_outcome.
    assert (forall answer,
      is_accepted ram arn (AcceptResourceShareInvitation ram arn answer) ->
      let c1 := set_calls (fun l => l ++ [AcceptResourceShareInvitation ram arn answer]) c in
      exists accepts,
        (for_each invitations (fun invitation =>
           accept_resource_share_invitation ram invitation) c1).2 =
          set_calls (fun l => l ++ accepts) c /\
        match (for_each invitations (fun invitation =>
                 accept_resource_share_invitation ram invitation) c1).1 with
        | Ok _ => Forall2 (is_accepted ram) (arn :: invitations) accepts
        | Raise e =>
            exists code msg,
              e = ClientError code msg /\
              call_error <$> last accepts = Some (Some (code, msg))
        end) as Hnext.
    { intros answer Haccepted c1. destruct (IH c1) as (accepts & Hstate & Hresult).
      exists (AcceptResourceShareInvitation ram arn answer :: accepts).
      split; [rewrite Hstate; subst c1; by rewrite set_calls_app|].
      destruct (for_each _ _ c1).1 as [[]|e].
      - by constructor.
      - destruct Hresult as (code & msg & -> & Hlast). exists code, msg. split; [done|].
        rewrite last_cons. by destruct (last accepts). }
    destruct (ram_accept_resource_share_invitation (service c) (calls c) ram arn)
      as [[]|code msg]; simpl.
    + apply (Hnext (Answer tt)). by exists (Answer tt).
    + destruct (String.eqb code "ResourceShareInvitationAlreadyAcceptedException")
        eqn:Hcode; simpl.
      * apply (Hnext (ServiceError code msg)). exists (ServiceError code msg).
        split; [done|]. by apply String.eqb_eq.
      * exists [AcceptResourceShareInvitation ram arn (ServiceError code msg)].
        split; [done|]. by exists code, msg.
Qed.

Lemma get_resource_share_invitations_outcome client c :
  get_resource_share_invitations client c =
  (response_result (ram_get_resource_share_invitations (service c) (calls c) client),
   set_calls (fun l => l ++ [GetResourceShareInvitations client
       (ram_get_resource_share_invitations (service c) (calls c) client)]) c).
Proof.
  unfold get_resource_share_invitations, try_except, Client.get_resource_share_invitations.
  by destruct (ram_get_resource_share_invitations _ _ _).
Qed.

(** X8: [accept_ram_invitation] asks for the invitations once and accepts
    them in order.  When it returns, it returns [True] and every invitation
    listed has been accepted, by its call or as it was accepted already;
    when it raises, it raises the [ClientError] of the last call it made:
    nothing is asked for after a refusal.  Nothing but the calls changes. *)
Theorem accept_ram_invitation_stops_at_the_first_refusal source target c :
  let ram := SessionHelper.client (target_accountid target) (target_region target) in
  let run := accept_ram_invitation source target c in
  exists new,
    run.2 = set_calls (fun l => l ++ new) c /\
    match run.1 with
    | Ok answer =>
        answer = true /\
        exists invitations accepts,
          new = GetResourceShareInvitations ram (Answer invitations) :: accepts /\
          Forall2 (is_accepted ram) invitations accepts
    | Raise e =>
        exists code msg,
          e = ClientError code msg /\ call_error <$> last new = Some (Some (code, msg))
    end.
Proof.
  intros ram run. subst run.
  unfold accept_ram_invitation. fold ram.
  unfold bind. rewrite get_resource_share_invitations_outcome.
  destruct (ram_get_resource_share_invitations (service c) (calls c) ram)
    as [invitations|code msg]; simpl.
  - set (c1 := set_calls (fun l => l ++ [GetResourceShareInvitations ram
                                           (Answer invitations)]) c).
    destruct (accept_invitations_in_turn ram invitations c1) as (accepts & Hstate & Hresult).
    cbv zeta in Hstate, Hresult.
    destruct (for_each invitations (fun invitation =>
                accept_resource_share_invitation ram invitation) c1) as [[[]|e] c2];
      simpl in *; subst c2.
    + exists (GetResourceShareInvitations ram (Answer invitations) :: accepts).
      split; [subst c1; by rewrite set_calls_app|]. split; [done|]. eauto.
    + exists (GetResourceShareInvitations ram (Answer invitations) :: accepts).
      split; [subst c1; by rewrite set_calls_app|].
      destruct Hresult as (code & msg & -> & Hlast). exists code, msg. split; [done|].
      rewrite last_cons. by destruct (last accepts).
  - exists [GetResourceShareInvitations ram (ServiceError code msg)].
    split; [done|]. by exists code, msg.
Qed.

(** X9: [add_quicksight_group_to_shared_with_principals] never raises: it
    asks Quicksight once and gives back the principals it was given, in
    order, followed by the ARN of the group when Quicksight answered with a
    group that has one; an error of Quicksight leaves the principals as
    they were. *)
Theorem add_quicksight_group_keeps_the_principals target_environment principals c :
  let answer := quicksight_describe_group (service c) (calls c)
                  (Environment.AwsAccountId target_environment) in
  add_quicksight_group_to_shared_with_principals target_environment principals c =
  (Ok (principals ++
       match answer with
       | Answer (Some Arn) => if Py.truthy_str Arn then [Arn] else []
       | _ => []
       end),
   set_calls (fun l => l ++ [DescribeGroup (Environment.AwsAccountId target_environment)
                               answer]) c).
Proof.
  intros answer. subst answer.
  unfold add_quicksight_group_to_shared_with_principals, try_except, bind,
    Quicksight.describe_group.
  destruct (quicksight_describe_group _ _ _) as [[Arn|]|code msg]; simpl;
    [destruct (Py.truthy_str Arn)| |]; unfold ret; by rewrite ?app_nil_r.
Qed.

(** ** The policies of a folder share *)

Lemma append_at_spec p k l x :
  getitem p k = Ok (VList l) ->
  exists p', append_at p k x = Ok p' /\
             getitem p' k = Ok (VList (l ++ [x])) /\
             forall k', k <> k' -> getitem p' k' = getitem p k'.
Proof.
  intros Hl. unfold append_at. rewrite Hl. simpl.
  destruct p as [| | | | |d]; try done. simpl.
  eexists. split; [done|]. split.
  - by eapply (getitem_setitem_eq (VDict d)).
  - intros k' Hk. by eapply (getitem_setitem_ne (VDict d)).
Qed.

(** X10: [delete_access_point] answers [True] and deletes the access point
    exactly when its policy has at most one statement; with more statements
    it answers [False] and changes nothing, and so does it, raising, for an
    access point without a policy.  No other access point is touched. *)
Theorem delete_access_point_goes_by_the_statement_count source_account_id
    access_point_name c :
  let run := delete_access_point source_account_id access_point_name c in
  (forall k, k <> (source_account_id, access_point_name) ->
             access_points run.2 !! k = access_points c !! k) /\
  match mjoin (access_points c !! (source_account_id, access_point_name)) with
  | None => is_raise run.1 = true /\ run.2 = c
  | Some policy_text =>
      forall statements,
        getitem (document policy_text) "Statement" = Ok (VList statements) ->
        if bool_decide (length statements <= 1)
        then run.1 = Ok true /\
             access_points run.2 !! (source_account_id, access_point_name) = None
        else run.1 = Ok false /\ run.2 = c
  end.
Proof.
  intros run. subst run.
  unfold delete_access_point, S3.get_access_point_policy, S3.delete_bucket_access_point,
    bind, gets, modify, of_result, ret.
  destruct (mjoin _) as [policy_text|] eqn:Hpolicy; simpl.
  - split.
    + intros k Hk. destruct (getitem _ _) as [s|e]; simpl; [|done].
      destruct (len s) as [n|e]; simpl; [|done].
      destruct (Nat.leb n 1); simpl; [|done]. by rewrite lookup_delete_ne.
    + intros statements ->. simpl.
      destruct (Nat.leb_spec (length statements) 1) as [Hle|Hgt].
      * rewrite bool_decide_eq_true_2 by done. simpl. by rewrite lookup_delete_eq.
      * rewrite bool_decide_eq_false_2 by lia. done.
  - done.
Qed.

(** X11: on a bucket policy without a statement of the Sids
    [AllowAllToAdmin] and [DelegateAccessToAccessPoint],
    [manage_bucket_policy] keeps the statements there are, in their order,
    and puts these two behind them, both on the bucket and its objects;
    nothing else of the policy and no other policy changes. *)
Theorem manage_bucket_policy_appends_the_two_statements
    dataset_admin source_account_id bucket_name source_env_admin c policy_text statements :
  bucket_policies c !! (source_account_id, bucket_name) = Some policy_text ->
  getitem (document policy_text) "Statement" = Ok (VList statements) ->
  has_admin_statement statements = Ok false ->
  exists policy allow_owner_access delegated_to_accesspoint,
    manage_bucket_policy dataset_admin source_account_id bucket_name source_env_admin c =
      (Ok tt,
       set_bucket_policies <[(source_account_id, bucket_name) := json_dumps policy]> c) /\
    getitem policy "Statement" =
      Ok (VList (statements ++ [allow_owner_access; delegated_to_accesspoint])) /\
    (forall k, k <> "Statement" -> getitem policy k = getitem (document policy_text) k) /\
    getitem allow_owner_access "Sid" = Ok (VStr "AllowAllToAdmin") /\
    getitem delegated_to_accesspoint "Sid" = Ok (VStr "DelegateAccessToAccessPoint") /\
    getitem allow_owner_access "Resource" = Ok (bucket_resources bucket_name) /\
    getitem delegated_to_accesspoint "Resource" = Ok (bucket_resources bucket_name).
Proof.
  intros Hpolicy Hstatements Hadmin.
  unfold manage_bucket_policy, S3.get_bucket_policy, S3.create_bucket_policy,
    SessionHelper.get_delegation_role_arn, SessionHelper.get_role_ids,
    bind, gets, modify, of_result, ret.
  rewrite Hpolicy. cbn [json_loads]. rewrite Hstatements. cbn [rbind iter].
  rewrite Hadmin.
  match goal with |- context [append_at (document policy_text) "Statement" ?x] =>
    destruct (append_at_spec (document policy_text) "Statement" statements x Hstatements)
      as (policy1 & Happend1 & Hstatements1 & Hother1);
    rewrite Happend1;
    set (allow_owner_access := x) in *
  end.
  match goal with |- context [append_at policy1 "Statement" ?y] =>
    destruct (append_at_spec policy1 "Statement" (statements ++ [allow_owner_access]) y
                Hstatements1) as (policy2 & Happend2 & Hstatements2 & Hother2);
    rewrite Happend2;
    set (delegated_to_accesspoint := y) in *
  end.
  exists policy2, allow_owner_access, delegated_to_accesspoint.
  split; [done|]. split; [by rewrite Hstatements2, <- app_assoc|].
  split; [|done].
  intros k Hk. rewrite Hother2, Hother1; done.
Qed.

Lemma manage_bucket_policy_appends_the_two_statements_witness :
  let c := Sample.cloud_with Sample.ok_services [] in
  exists policy,
    (manage_bucket_policy "ds1-admin" Sample.source_account "b1"
       "arn:aws:iam::111111111111:role/producers" c).2 =
      set_bucket_policies <[(Sample.source_account, "b1") := json_dumps policy]> c /\
    (let? statements := getitem policy "Statement" in len statements) = Ok 2.
Proof.
  intros c.
  destruct (manage_bucket_policy_appends_the_two_statements "ds1-admin"
              Sample.source_account "b1" "arn:aws:iam::111111111111:role/producers" c
              (Sample.policy_document []) [] eq_refl eq_refl eq_refl)
    as (policy & allow_owner_access & delegated_to_accesspoint & Hrun & Hstatements & _).
  exists policy. by rewrite Hrun, Hstatements.
Defined.

Lemma occurs_in_suffix a s : occurs_in s (a +:+ s).
Proof. exists a, EmptyString. by rewrite append_nil_r. Qed.

Lemma remove_all_resources_in_front names rest :
  remove_all_resources (role_policy_on ((VStr <$> names) ++ rest)) (VStr <$> names) =
  Ok (role_policy_on rest).
Proof.
  induction names as [|name names IH]; [done|].
  rewrite fmap_cons. cbn [app remove_all_resources].
  unfold remove_first_statement_resource at 1, role_policy_on at 1.
  simpl. rewrite String.eqb_refl. simpl. exact IH.
Qed.

(** X12: for a role without the inline policy,
    [grant_target_role_access_policy] creates it: one statement allowing
    [s3:*] on the four resources of the dataset, and nothing else changes.
    On the accounts it leaves, [delete_target_role_access_policy] with the
    same arguments takes it away again: the four resources are removed one
    by one, the resource list is empty then, and the policy is deleted; the
    accounts are as they were before the grant. *)
Theorem granting_and_deleting_the_role_policy_is_a_round_trip
    bucket_name access_point_name target_account_id target_env_admin dataset c :
  role_policies c !! (target_account_id, target_env_admin,
                      "targetDatasetAccessControlPolicy") = None ->
  let granted :=
    set_role_policies
      <[(target_account_id, target_env_admin, "targetDatasetAccessControlPolicy") :=
          json_dumps (role_policy_on
                        (dataset_resources bucket_name access_point_name dataset))]> c in
  grant_target_role_access_policy bucket_name access_point_name target_account_id
    target_env_admin dataset c = (Ok tt, granted) /\
  role_policies granted !! (target_account_id, target_env_admin,
                            "targetDatasetAccessControlPolicy") =
    Some (json_dumps (role_policy_on
                        (dataset_resources bucket_name access_point_name dataset))) /\
  delete_target_role_access_policy target_account_id target_env_admin bucket_name
    access_point_name dataset granted = (Ok tt, c) /\
  (grant_target_role_access_policy bucket_name access_point_name target_account_id
     target_env_admin dataset >>
   delete_target_role_access_policy target_account_id target_env_admin bucket_name
     access_point_name dataset) c = (Ok tt, c).
Proof.
  intros Hnone granted.
  set (key := (target_account_id, target_env_admin, "targetDatasetAccessControlPolicy"))
    in *.
  set (names := [ "arn:aws:s3:::" +:+ bucket_name;
                  "arn:aws:s3:::" +:+ bucket_name +:+ "/*";
                  "arn:aws:s3:" +:+ Dataset.region dataset +:+ ":" +:+
                  Dataset.AwsAccountId dataset +:+ ":accesspoint/" +:+ access_point_name;
                  ("arn:aws:s3:" +:+ Dataset.region dataset +:+ ":" +:+
                   Dataset.AwsAccountId dataset +:+ ":accesspoint/" +:+ access_point_name)
                  +:+ "/*" ]).
  assert (dataset_resources bucket_name access_point_name dataset = VStr <$> names)
    as Hresources by done.
  assert (Py.str_in bucket_name (Py.join "," names) = true) as Hmentioned.
  { apply str_in_occurs.
    eapply occurs_in_trans; [apply (occurs_in_suffix "arn:aws:s3:::")|].
    apply occurs_in_join. by left. }
  assert (str_join "," (VList (VStr <$> names)) = Ok (Py.join "," names)) as Hjoined by done.
  assert (grant_target_role_access_policy bucket_name access_point_name target_account_id
            target_env_admin dataset c = (Ok tt, granted)) as Hgrant.
  { unfold grant_target_role_access_policy, IAM.get_role_policy, IAM.update_role_policy,
      bind, gets, modify, ret. fold key. by rewrite Hnone. }
  assert (role_policies granted !! key =
          Some (json_dumps (role_policy_on
                              (dataset_resources bucket_name access_point_name dataset))))
    as Hgranted by apply lookup_insert_eq.
  assert (delete_target_role_access_policy target_account_id target_env_admin bucket_name
            access_point_name dataset granted = (Ok tt, c)) as Hdelete.
  { unfold delete_target_role_access_policy, IAM.get_role_policy.
    erewrite bind_eq; [|reflexivity]. fold key. rewrite Hgranted, Hresources.
    cbn [fmap option_fmap option_map truthy_policy json_dumps document].
    assert (Json.truthy (role_policy_on (VStr <$> names)) = true) as -> by done.
    erewrite bind_eq; [|reflexivity].
    erewrite bind_eq; [|reflexivity].
    erewrite bind_eq; [|unfold of_result; by rewrite Hjoined].
    rewrite Hmentioned.
    rewrite <- (app_nil_r (VStr <$> names)) at 1.
    rewrite remove_all_resources_in_front.
    erewrite bind_eq; [|reflexivity]. erewrite bind_eq; [|reflexivity].
    cbn [truthy negb]. unfold IAM.delete_role_policy, modify.
    f_equal. subst granted. destruct c. unfold set_role_policies. simpl in *. f_equal.
    by apply delete_insert_id. }
  split_and!; [done..|]. by erewrite bind_eq.
Qed.

Lemma granting_and_deleting_the_role_policy_is_a_round_trip_witness :
  let c := Sample.cloud_with Sample.ok_services [] in
  exists granted,
    grant_target_role_access_policy "b1" "ds1-consumers" Sample.target_account "consumers"
      Sample.sales c = (Ok tt, granted) /\
    role_policies granted !! (Sample.target_account, "consumers",
                              "targetDatasetAccessControlPolicy") =
      Some (Sample.role_policy_text
              ["arn:aws:s3:::b1"; "arn:aws:s3:::b1/*";
               "arn:aws:s3:eu-west-1:111111111111:accesspoint/ds1-consumers";
               "arn:aws:s3:eu-west-1:111111111111:accesspoint/ds1-consumers/*"]) /\
    delete_target_role_access_policy Sample.target_account "consumers" "b1" "ds1-consumers"
      Sample.sales granted = (Ok tt, c).
Proof.
  intros c.
  destruct (granting_and_deleting_the_role_policy_is_a_round_trip "b1" "ds1-consumers"
              Sample.target_account "consumers" Sample.sales c eq_refl)
    as (Hgrant & Hgranted & Hdelete & _).
  eexists. split; [exact Hgrant|]. split; [exact Hgranted | exact Hdelete].
Defined.

Lemma append_at_setitem p k l x :
  getitem p k = Ok (VList l) -> append_at p k x = setitem p k (VList (l ++ [x])).
Proof. intros Hl. unfold append_at. by rewrite Hl. Qed.

Lemma without_sid_appended id statements statement :
  Forall (fun s => exists sid, getitem s "Sid" = Ok sid /\ Json.eqb sid (VStr id) = false)
         statements ->
  getitem statement "Sid" = Ok (VStr id) ->
  without_sid id (statements ++ [statement]) = Ok statements.
Proof.
  intros Hothers Hsid. induction Hothers as [|s statements (sid & Hs & Hne) _ IH]; simpl.
  - rewrite Hsid. simpl. by rewrite String.eqb_refl.
  - rewrite Hs. simpl. rewrite IH. simpl. by rewrite Hne.
Qed.

(** X13: on a key policy that does not mention the role and whose
    statements carry other Sids, [update_dataset_bucket_key_policy] writes
    the policy back with one statement more, the last: the statement of the
    role, with the role id as its Sid, allowing [kms:Decrypt] to the user
    ids of the role; nothing else of the policy and nothing else of the
    accounts changes.  On the accounts it leaves,
    [delete_dataset_bucket_key_policy] filters that statement out again:
    the key policy, and everything else, is as it was before the update. *)
Theorem updating_and_deleting_the_key_policy_is_a_round_trip
    source_account_id target_account_id target_env_admin dataset c policy_text statements :
  key_policies c !! (source_account_id,
                     key_ids c source_account_id ("alias/" +:+ Dataset.KmsAlias dataset),
                     "default") = Some policy_text ->
  getitem (document policy_text) "Statement" = Ok (VList statements) ->
  str_in_text (role_ids c target_account_id target_env_admin +:+ ":*") policy_text = false ->
  Json.plain (role_ids c target_account_id target_env_admin) = true ->
  Forall (fun s => exists sid,
            getitem s "Sid" = Ok sid /\
            Json.eqb sid (VStr (role_ids c target_account_id target_env_admin)) = false)
         statements ->
  exists updated_policy,
    getitem updated_policy "Statement" =
      Ok (VList (statements ++
            [VDict [("Sid", VStr (role_ids c target_account_id target_env_admin));
                    ("Effect", VStr "Allow");
                    ("Principal", VDict [("AWS", VStr "*")]);
                    ("Action", VStr "kms:Decrypt"); ("Resource", VStr "*");
                    ("Condition", VDict [("StringLike",
                       VDict [("aws:userId",
                               VStr (role_ids c target_account_id target_env_admin
                                     +:+ ":*"))])])]])) /\
    (forall k, k <> "Statement" ->
               getitem updated_policy k = getitem (document policy_text) k) /\
    let updated :=
      set_key_policies
        <[(source_account_id,
           key_ids c source_account_id ("alias/" +:+ Dataset.KmsAlias dataset),
           "default") := json_dumps updated_policy]> c in
    update_dataset_bucket_key_policy source_account_id target_account_id target_env_admin
      dataset c = (Ok tt, updated) /\
    delete_dataset_bucket_key_policy source_account_id target_account_id target_env_admin
      dataset updated = (Ok tt, c) /\
    (update_dataset_bucket_key_policy source_account_id target_account_id target_env_admin
       dataset >>
     delete_dataset_bucket_key_policy source_account_id target_account_id target_env_admin
       dataset) c = (Ok tt, c).
Proof.
  intros Hpolicy Hstatements Hnot Hplain Hothers.
  set (id := role_ids c target_account_id target_env_admin) in *.
  set (key := (source_account_id,
               key_ids c source_account_id ("alias/" +:+ Dataset.KmsAlias dataset),
               "default")) in *.
  set (statement :=
         VDict [("Sid", VStr id); ("Effect", VStr "Allow");
                ("Principal", VDict [("AWS", VStr "*")]);
                ("Action", VStr "kms:Decrypt"); ("Resource", VStr "*");
                ("Condition", VDict [("StringLike",
                   VDict [("aws:userId", VStr (id +:+ ":*"))])])]).
  destruct (append_at_spec (document policy_text) "Statement" statements statement
              Hstatements) as (policy1 & Happend & Hstatements1 & Hrest).
  exists policy1. split; [exact Hstatements1|].
  split; [by intros k Hk; apply Hrest|].
  intros updated.
  assert (update_dataset_bucket_key_policy source_account_id target_account_id
            target_env_admin dataset c = (Ok tt, updated)) as Hupdate.
  { unfold update_dataset_bucket_key_policy, KMS.get_key_id, KMS.get_key_policy,
      KMS.put_key_policy, SessionHelper.get_role_id, bind, gets, modify, of_result.
    fold id key. rewrite Hpolicy, Hnot. cbn [negb json_loads].
    fold statement. by rewrite Happend. }
  assert (delete_dataset_bucket_key_policy source_account_id target_account_id
            target_env_admin dataset updated = (Ok tt, c)) as Hdelete.
  { assert (str_in_text (id +:+ ":*") (json_dumps policy1) = true) as Hmentioned.
    { apply str_in_occurs. simpl.
      eapply occurs_in_trans; [|by eapply occurs_in_dumps_getitem].
      eapply occurs_in_trans;
        [|apply (occurs_in_dumps_elem statement); apply elem_of_app; right;
          by apply list_elem_of_singleton].
      eapply occurs_in_trans; [|by apply (occurs_in_dumps_getitem _ "Condition")].
      eapply occurs_in_trans; [|by apply (occurs_in_dumps_getitem _ "StringLike")].
      eapply occurs_in_trans; [|by apply (occurs_in_dumps_getitem _ "aws:userId")].
      apply occurs_in_dumps_plain. by apply plain_append. }
    unfold delete_dataset_bucket_key_policy, KMS.get_key_id, KMS.get_key_policy,
      KMS.put_key_policy, SessionHelper.get_role_id, bind, gets, modify, of_result.
    change (key_ids updated) with (key_ids c). change (role_ids updated) with (role_ids c).
    fold id key.
    assert (key_policies updated !! key = Some (json_dumps policy1)) as ->
      by apply lookup_insert_eq.
    rewrite Hmentioned. cbn [json_loads json_dumps document].
    rewrite Hstatements1. cbn [rbind iter].
    rewrite (without_sid_appended id statements statement Hothers eq_refl). cbn [rbind].
    rewrite (append_at_setitem _ _ _ _ Hstatements) in Happend.
    rewrite (setitem_setitem _ _ _ _ _ Happend).
    rewrite (setitem_same _ _ _ Hstatements).
    f_equal. rewrite json_dumps_document.
    subst updated. destruct c. unfold set_key_policies. simpl in *. f_equal.
    rewrite insert_insert_eq. by apply insert_id. }
  split_and!; [done..|]. by erewrite bind_eq.
Qed.

Lemma updating_and_deleting_the_key_policy_is_a_round_trip_witness :
  let c := set_key_policies
             <[(Sample.source_account, "key-alias/ds1", "default") :=
                 Sample.policy_document [Sample.statement "owner" "Allow"]]>
             (Sample.cloud_with Sample.ok_services []) in
  exists updated,
    update_dataset_bucket_key_policy Sample.source_account Sample.target_account
      "consumers" Sample.sales c = (Ok tt, updated) /\
    (exists policy,
       key_policies updated !! (Sample.source_account, "key-alias/ds1", "default") =
         Some (json_dumps policy) /\
       (let? statements := getitem policy "Statement" in len statements) = Ok 2) /\
    delete_dataset_bucket_key_policy Sample.source_account Sample.target_account
      "consumers" Sample.sales updated = (Ok tt, c).
Proof.
  intros c.
  destruct (updating_and_deleting_the_key_policy_is_a_round_trip Sample.source_account
              Sample.target_account "consumers" Sample.sales c
              (Sample.policy_document [Sample.statement "owner" "Allow"])
              [Sample.statement "owner" "Allow"])
    as (policy & Hstatements & _ & Hupdate & Hdelete & _).
  - reflexivity.
  - reflexivity.
  - vm_compute. reflexivity.
  - vm_compute. reflexivity.
  - constructor; [|constructor]. exists (VStr "owner"). split; reflexivity.
  - eexists. split; [exact Hupdate|]. split; [|exact Hdelete].
    exists policy. split; [apply lookup_insert_eq|]. by rewrite Hstatements.
Defined.

(** ** Revoking folders *)

Lemma lift_aws_revoke_sequence {X D} (a : Aws X) (b : Aws bool) (c d : Aws unit)
    (k : unit -> M D) w :
  bind (lift_aws a)
    (fun _ => bind (lift_aws b)
       (fun cleanup =>
          bind (if cleanup : bool then bind (lift_aws c) (fun _ => lift_aws d) else ret tt) k))
    w =
  bind (lift_aws (bind a (fun _ => bind b (fun cleanup =>
          if cleanup : bool then bind c (fun _ => d) else ret tt)))) k w.
Proof.
  unfold bind, lift_aws, ret.
  destruct (a (aws w)) as [[x|e] c1]; simpl; [|done].
  destruct (b c1) as [[[]|] c2]; simpl; [| |done].
  - destruct (c c2) as [[y|e] c3]; simpl; [|done].
    by destruct (d c3) as [[v|e] c4].
  - done.
Qed.

(** X14: in [revoke_shared_folders] every folder whose revoke begins ends
    in a terminal status: [Revoke_Share_Succeeded] when the revoke sequence
    returns, [Revoke_Share_Failed], with the alarm of the folder, when it
    raises; either way the loop goes on with the folders that are left. *)
Theorem revoke_shared_folders_ends_every_item
    share source_env_group target_env_group target_environment folder rest dataset
    w i row r c :
  get_share_item share (a_folder folder) w = (Ok i, w) ->
  share_object_items (session w) !! i = Some row ->
  folder_revoke_sequence target_env_group target_environment folder dataset
    (ShareObjectItem.S3AccessPointName row) (aws w) = (r, c) ->
  let status := match r with
                | Ok _ => Revoke_Share_Succeeded
                | Raise _ => Revoke_Share_Failed
                end in
  let ended :=
    item_ended w i status c
      match r with
      | Ok _ => []
      | Raise _ => [revoke_folder_sharing_failure_alarm (Some folder) share
                      target_environment]
      end in
  status_of ended i = Some status /\
  revoke_shared_folders share source_env_group target_env_group target_environment
    (folder :: rest) dataset w =
  revoke_shared_folders share source_env_group target_env_group target_environment
    rest dataset ended.
Proof.
  intros Hitem Hrow Hseq status ended. split; [by eapply status_of_item_ended|].
  unfold revoke_shared_folders at 1. rewrite for_each_cons.
  fold (revoke_shared_folders share source_env_group target_env_group target_environment
          rest dataset).
  erewrite bind_eq; [reflexivity|].
  erewrite bind_eq; [|exact Hitem]. erewrite bind_eq; [|reflexivity].
  erewrite bind_eq.
  2:{ unfold S3AccessPointName_of, gets.
      erewrite bind_eq; [|reflexivity]. simpl.
      rewrite list_lookup_alter_eq, Hrow. reflexivity. }
  unfold try_except. rewrite lift_aws_revoke_sequence. unfold bind at 1.
  erewrite lift_aws_eq; [|exact Hseq].
  subst ended status. unfold item_ended. destruct r as [[]|e]; simpl.
  - unfold bind, update_share_item_status, modify, ret, set_aws, set_session. simpl.
    do 2 f_equal; [apply set_status_twice | by rewrite app_nil_r].
  - unfold bind, update_share_item_status,
      AlarmService.trigger_revoke_folder_sharing_failure_alarm,
      AlarmService.trigger, modify, ret, set_aws, set_session, set_alarms. simpl.
    do 2 f_equal. apply set_status_twice.
Qed.

Lemma revoke_shared_folders_ends_every_item_witness :
  let w := Sample.world_with (Sample.store Rejected [] [])
             (Sample.with_access_point [Sample.statement "AllowAllToAdmin" "Allow"]
                (Sample.cloud_with Sample.ok_services [])) in
  let run := revoke_shared_folders (Sample.share1 Rejected) (Some Sample.producers)
               Sample.consumers Sample.target_env [Sample.p1] Sample.sales w in
  status_of run.2 1 = Some Revoke_Share_Succeeded.
Proof.
  intros w run. subst run.
  destruct (revoke_shared_folders_ends_every_item (Sample.share1 Rejected)
              (Some Sample.producers) Sample.consumers Sample.target_env Sample.p1 []
              Sample.sales w 1
              (Sample.item "share-1" "folder-p1" EmptyString "ds1-consumers")
              (Ok tt)
              (folder_revoke_sequence Sample.consumers Sample.target_env Sample.p1
                 Sample.sales "ds1-consumers" (aws w)).2
              (get_share_item_Ok (Sample.share1 Rejected) (a_folder Sample.p1) w 1
                 ltac:(vm_compute; reflexivity))
              eq_refl
              (run_eta_Ok
                 (folder_revoke_sequence Sample.consumers Sample.target_env Sample.p1
                    Sample.sales "ds1-consumers" (aws w))
                 tt ltac:(vm_compute; reflexivity)))
    as [Hstatus Hturn].
  rewrite Hturn. exact Hstatus.
Defined.

(** ** Revokes and the catalog *)

(** A batch revoke only adds to the calls made. *)
Lemma revoke_chunks_frame client accountid chunks :
  forall failures c failures' tried c',
    revoke_chunks client accountid chunks failures c = ((failures', tried), c') ->
    exists new, c' = set_calls (fun l => l ++ new) c.
Proof.
  induction chunks as [|chunk rest IH]; intros failures c failures' tried c' H; simpl in H.
  - injection H as <- <- <-. exists []. rewrite <- (set_calls_id c) at 1.
    unfold set_calls. simpl. by rewrite app_nil_r.
  - unfold Client.batch_revoke_permissions in H.
    destruct (lf_batch_revoke_permissions _ _ _ _ _) as [fs|code msg]; simpl in H.
    + apply IH in H as [new ->]. eexists. by rewrite set_calls_app.
    + injection H as <- <- <-. by eexists.
Qed.

Lemma batch_revoke_permissions_frame client accountid entries c :
  exists new,
    (batch_revoke_permissions client accountid entries c).2 = set_calls (fun l => l ++ new) c.
Proof.
  unfold batch_revoke_permissions.
  destruct (revoke_chunks client accountid (entries_chunks entries) [] c)
    as [[failures tried] c'] eqn:Hrun.
  apply revoke_chunks_frame in Hrun as [new ->]. exists new.
  destruct tried as [[]|e]; [by destruct failures|].
  simpl. by destruct (is_ClientError e).
Qed.

Lemma batch_revoke_permissions_keeps_glue client accountid entries :
  keeps glue (batch_revoke_permissions client accountid entries).
Proof.
  intros c. destruct (batch_revoke_permissions_frame client accountid entries c) as [new ->].
  done.
Qed.

Lemma keeps_lift_aws_of {J A} (g : cloud -> J) (m : Aws A) :
  keeps g m -> keeps (fun w => g (aws w)) (lift_aws m).
Proof.
  intros Hm w. unfold lift_aws. specialize (Hm (aws w)). by destruct (m (aws w)).
Qed.

(** X15: when [clean_shared_database] raises, because a revoke did, the
    sweep has ended before its deletion: the catalogs of all accounts are
    as they were, and with them the orphans of the shadow database. *)
Theorem a_sweep_that_raises_has_deleted_nothing dataset shared_tables target_environment w :
  is_raise (clean_shared_database dataset shared_tables target_environment w).1 = true ->
  glue (aws (clean_shared_database dataset shared_tables target_environment w).2) =
  glue (aws w).
Proof.
  intros Hraise. unfold clean_shared_database in *.
  unfold bind at 1 in Hraise. unfold bind at 1.
  pose proof (keeps_lift_aws_of glue
                (Glue.list_glue_database_tables (Environment.AwsAccountId target_environment)
                   (Dataset.GlueDatabaseName dataset +:+ "shared")
                   (Environment.region target_environment)) ltac:(done) w) as Hlist.
  destruct (lift_aws (Glue.list_glue_database_tables _ _ _) w) as [[names|e] w0];
    simpl in Hlist; [|done].
  unfold bind at 1 in Hraise. unfold bind at 1.
  match goal with |- context [with_local ?init ?m w0] =>
    assert (keeps (fun w => glue (aws w)) (with_local init m)) as Hloop;
    [|specialize (Hloop w0); destruct (with_local init m w0) as [[tables|e] w1]]
  end.
  - clear Hraise. apply (keeps_with_local (fun w => glue (aws w))).
    unfold is_shared_query.
    repeat first
      [ apply (keeps_outer (fun w => glue (aws w)))
      | apply keeps_lift_aws_of; first
          [ apply batch_revoke_permissions_keeps_glue | done ]
      | apply keeps_ret | apply keeps_gets
      | apply (keeps_local (fun w => glue (aws w)))
      | apply (keeps_set_local (fun w => glue (aws w)))
      | apply keeps_bind | apply keeps_for_each
      | progress intros
      | match goal with |- context [if ?b then _ else _] => destruct b end ].
  - by destruct tables.
  - simpl in *. by rewrite Hloop.
Qed.

Lemma a_sweep_that_raises_has_deleted_nothing_witness :
  let w := Sample.world_with (Sample.store Approved [] [])
             (Sample.cloud_with Sample.denied_services ["orders"; "invoices"]) in
  let run := clean_shared_database Sample.sales [Sample.orders] Sample.target_env w in
  is_raise run.1 = true /\
  shadow_tables (aws run.2) Sample.sales Sample.target_env = ["orders"; "invoices"].
Proof.
  intros w run.
  assert (is_raise run.1 = true) as Hraise by (vm_compute; reflexivity).
  split; [done|]. unfold shadow_tables. subst run.
  rewrite (a_sweep_that_raises_has_deleted_nothing Sample.sales [Sample.orders]
             Sample.target_env w Hraise).
  reflexivity.
Defined.

Lemma entries_chunks_one entries :
  0 < length entries <= 20 -> entries_chunks entries = [entries].
Proof.
  intros Hlen.
  pose proof (entries_chunks_length entries) as Hchunks.
  pose proof (entries_chunks_concat entries) as Hconcat.
  assert ((length entries + 19) / 20 = 1) as Hone.
  { symmetry. apply Nat.div_unique with (r := length entries - 1); lia. }
  rewrite Hone in Hchunks.
  destruct (entries_chunks entries) as [|chunk [|? ?]]; try done.
  simpl in Hconcat. by rewrite app_nil_r in Hconcat; subst.
Qed.

(** Revoking at most twenty entries is one call, with these entries. *)
Lemma batch_revoke_permissions_one_chunk client accountid entries c :
  0 < length entries <= 20 ->
  exists answer,
    (batch_revoke_permissions client accountid entries c).2 =
    set_calls (fun l => l ++ [BatchRevokePermissions client accountid entries answer]) c.
Proof.
  intros Hlen. unfold batch_revoke_permissions. rewrite (entries_chunks_one _ Hlen). simpl.
  unfold Client.batch_revoke_permissions.
  destruct (lf_batch_revoke_permissions _ _ _ _ _) as [fs|code msg]; simpl.
  - eexists. destruct fs as [|f fs]; [done|].
    simpl. by repeat case_match.
  - by eexists.
Qed.

Lemma bind_take_app {A} (l : list A) y (ks : list nat) :
  Forall (fun k => k <= length l) ks ->
  (k ← ks; take k (l ++ [y])) = (k ← ks; take k l).
Proof.
  induction 1 as [|k ks Hk _ IH]; [done|].
  rewrite !bind_cons, IH. by rewrite take_app_le.
Qed.

Lemma bind_take_snoc {A} (l : list A) y :
  (k ← seq 1 (length (l ++ [y])); take k (l ++ [y])) =
  (k ← seq 1 (length l); take k l) ++ l ++ [y].
Proof.
  rewrite length_app. simpl. rewrite seq_app, bind_app. f_equal.
  - apply bind_take_app. apply Forall_seq. intros; lia.
  - simpl. rewrite app_nil_r. apply take_ge. rewrite length_app. simpl. lia.
Qed.

(** X16: [revoke_external_account_access_on_source_account] never empties
    its list of entries: the turn of a table revokes, in one call, the
    grants of all tables up to this one.  For up to twenty tables, a run
    that returns has made one call per table, and has asked to revoke the
    first table, then the first two, and so on. *)
Theorem source_revokes_are_asked_for_again_with_every_table
    shared_tables source_environment target_environment c :
  length shared_tables <= 20 ->
  (revoke_external_account_access_on_source_account shared_tables source_environment
     target_environment c).1 = Ok tt ->
  let after := (revoke_external_account_access_on_source_account shared_tables
                  source_environment target_environment c).2 in
  revoked_tables after =
    revoked_tables c ++
    (k ← seq 1 (length shared_tables);
     take k (DatasetTable.GlueTableName <$> shared_tables)) /\
  length (calls after) = length (calls c) + length shared_tables.
Proof.
  intros Hlen Hok after. subst after.
  unfold revoke_external_account_access_on_source_account, with_local in *.
  match type of Hok with context [for_each _ ?b] => set (body := b) in * end.
  set (I := fun (done : list DatasetTable.t) (s : list lf_entry * cloud) =>
              length done <= 20 ->
              entry_tables s.1 = DatasetTable.GlueTableName <$> done /\
              length s.1 = length done /\
              revoked_tables s.2 =
                revoked_tables c ++
                (k ← seq 1 (length done); take k (DatasetTable.GlueTableName <$> done)) /\
              length (calls s.2) = length (calls c) + length done).
  assert (forall x done s s', I done s -> body x s = (Ok tt, s') -> I (done ++ [x]) s')
    as Hstep.
  { intros x done [entries c0] [entries1 c1] Hdone Hbody Hshort.
    rewrite length_app in Hshort. simpl in Hshort.
    destruct Hdone as (Hnames & Hcount & Hrevoked & Hcalls); [lia|]. simpl in *.
    unfold body, bind, outer, local, set_local, gets, modify, uuid4 in Hbody.
    simpl in Hbody.
    match type of Hbody with
    | context [batch_revoke_permissions ?cl ?acct ?es ?c'] =>
        destruct (batch_revoke_permissions_one_chunk cl acct es c') as [answer Hone];
          [rewrite length_app; simpl; lia|];
        destruct (batch_revoke_permissions cl acct es c') as [r c2]
    end.
    simpl in Hone. subst c2. destruct r as [[]|e]; [|done].
    injection Hbody as <- <-.
    assert (entry_tables
              (entries ++
               [{| Id := Some (pretty (uuids c0));
                   Principal := Environment.AwsAccountId target_environment;
                   Resource := ResTableWithColumns (DatasetTable.GlueDatabaseName x)
                                 (DatasetTable.GlueTableName x)
                                 (Environment.AwsAccountId source_environment);
                   Permissions := ["SELECT"];
                   PermissionsWithGrantOption := Some ["SELECT"] |}]) =
            DatasetTable.GlueTableName <$> (done ++ [x])) as Hnames1.
    { unfold entry_tables in *. by rewrite omap_app, Hnames, fmap_app. }
    repeat split.
    - exact Hnames1.
    - rewrite !length_app. simpl. lia.
    - unfold revoked_tables in *. simpl. rewrite bind_app, Hrevoked. simpl.
      rewrite app_nil_r. fold (entry_tables
        (entries ++
         [{| Id := Some (pretty (uuids c0));
             Principal := Environment.AwsAccountId target_environment;
             Resource := ResTableWithColumns (DatasetTable.GlueDatabaseName x)
                           (DatasetTable.GlueTableName x)
                           (Environment.AwsAccountId source_environment);
             Permissions := ["SELECT"];
             PermissionsWithGrantOption := Some ["SELECT"] |}])).
      rewrite Hnames1, <- app_assoc. f_equal.
      rewrite fmap_app. simpl.
      rewrite <- (length_fmap DatasetTable.GlueTableName (done ++ [x])), fmap_app. simpl.
      rewrite bind_take_snoc. by rewrite length_fmap.
    - simpl. rewrite !length_app, Hcalls. simpl. lia. }
  destruct (for_each shared_tables body ([], c)) as [[[]|e] [entries c1]] eqn:Hloop;
    simpl in Hok; [|done].
  apply (for_each_invariant I body Hstep shared_tables [] ([], c)) in Hloop.
  - destruct Hloop as (_ & _ & Hrevoked & Hcalls); [done|]. by simpl in *.
  - intros _. simpl. by rewrite app_nil_r.
Qed.

Lemma source_revokes_are_asked_for_again_with_every_table_witness :
  let c := Sample.cloud_with Sample.ok_services [] in
  revoked_tables
    (revoke_external_account_access_on_source_account [Sample.orders; Sample.invoices]
       Sample.source_env Sample.target_env c).2 = ["orders"; "orders"; "invoices"].
Proof.
  intros c.
  destruct (source_revokes_are_asked_for_again_with_every_table
              [Sample.orders; Sample.invoices] Sample.source_env Sample.target_env c
              ltac:(simpl; lia) ltac:(vm_compute; reflexivity)) as [Hrevoked _].
  rewrite Hrevoked. reflexivity.
Defined.

(** ** Revoking the only folder of an access point *)

Lemma sid_eqb_facts id :
  String.eqb (id +:+ "0") (id +:+ "1") = false /\
  String.eqb (id +:+ "1") (id +:+ "0") = false /\
  String.eqb (id +:+ "0") "AllowAllToAdmin" = false /\
  String.eqb (id +:+ "1") "AllowAllToAdmin" = false.
Proof.
  repeat split.
  - apply String.eqb_neq, sid0_ne_sid1.
  - apply String.eqb_neq. intros H. by apply (sid0_ne_sid1 id).
  - by apply sid_ne_AllowAllToAdmin.
  - by apply sid_ne_AllowAllToAdmin.
Qed.

(** X17: [delete_access_point_policy] for the only folder of a role goes
    by how the policy of the access point reads back.  With the prefix and
    the object resource of the folder as lists of one element, they are
    removed from their lists and the two statements of the role stay, with
    the lists empty: the policy keeps its three statements and
    [delete_access_point] answers [False], so that the access point is
    kept.  With the prefix as a string, the two statements of the role are
    removed: the policy is left with the admin statement, and
    [delete_access_point] answers [True]. *)
Theorem revoking_the_only_folder_goes_by_how_the_prefix_reads_back
    source_account_id target_account_id access_point_name target_env_admin s3_prefix
    (as_string : bool) admin_fields c :
  let id := role_ids c target_account_id target_env_admin in
  let arn := access_point_arns c source_account_id access_point_name in
  let admin_statement := VDict (("Sid", VStr "AllowAllToAdmin") :: admin_fields) in
  access_points c !! (source_account_id, access_point_name) =
    Some (Some (json_dumps (VDict [
      ("Version", VStr "2012-10-17");
      ("Statement",
       VList (role_statements id arn
                (read_back as_string (s3_prefix +:+ "/*"))
                (read_back as_string (arn +:+ "/object/" +:+ s3_prefix +:+ "/*")) ++
              [admin_statement]))]))) ->
  let revoked :=
    delete_access_point_policy source_account_id target_account_id access_point_name
      target_env_admin s3_prefix c in
  revoked.1 = Ok tt /\
  access_points revoked.2 !! (source_account_id, access_point_name) =
    Some (Some (json_dumps (VDict [
      ("Version", VStr "2012-10-17");
      ("Statement",
       VList (if as_string then [admin_statement]
              else role_statements id arn (VList []) (VList []) ++ [admin_statement]))]))) /\
  access_point_statement_count revoked.2 source_account_id access_point_name =
    Some (if as_string then 1 else 3) /\
  (delete_access_point source_account_id access_point_name revoked.2).1 = Ok as_string.
Proof.
  intros id arn admin_statement Hpolicy revoked.
  destruct (sid_eqb_facts id) as (H01 & H10 & H0A & H1A).
  assert (revoked = revoked) as Hrevoked by done.
  unfold revoked at 2 in Hrevoked.
  unfold delete_access_point_policy, S3.get_bucket_access_point_arn,
    S3.get_access_point_policy, S3.attach_access_point_policy, SessionHelper.get_role_id,
    bind, gets, modify, of_result, ret in Hrevoked.
  rewrite Hpolicy in Hrevoked.
  cbn [mjoin option_join json_loads json_dumps document] in Hrevoked.
  fold id arn in Hrevoked.
  unfold by_sid, role_statements, read_back, admin_statement in Hrevoked.
  destruct as_string; simpl in Hrevoked;
    repeat (progress (unfold dict_mem, dict_getitem, condition_prefix,
                        remove_condition_prefix, set_condition_prefix, remove_resource,
                        format_optional, dict_values in Hrevoked;
                      simpl in Hrevoked;
                      rewrite ?H01, ?H10, ?H0A, ?H1A, ?String.eqb_refl in Hrevoked));
    rewrite Hrevoked; (split; [done|]); (split; [by simpl; rewrite lookup_insert_eq|]);
    split.
  - unfold access_point_statement_count. simpl. by rewrite lookup_insert_eq.
  - unfold delete_access_point, S3.get_access_point_policy, bind, gets, of_result.
    simpl. by rewrite lookup_insert_eq.
  - unfold access_point_statement_count. simpl. by rewrite lookup_insert_eq.
  - unfold delete_access_point, S3.get_access_point_policy, bind, gets, of_result.
    simpl. by rewrite lookup_insert_eq.
Qed.

Lemma revoking_the_only_folder_goes_by_how_the_prefix_reads_back_witness :
  let c := (Sample.access_point_step (Sample.cloud_with Sample.ok_services [])).2 in
  let revoked :=
    (delete_access_point_policy Sample.source_account Sample.target_account
       "ds1-consumers" "consumers" "p1" c).2 in
  access_point_statement_count revoked Sample.source_account "ds1-consumers" = Some 3 /\
  (delete_access_point Sample.source_account "ds1-consumers" revoked).1 = Ok false.
Proof.
  intros c revoked.
  destruct (revoking_the_only_folder_goes_by_how_the_prefix_reads_back
              Sample.source_account Sample.target_account "ds1-consumers" "consumers" "p1"
              false
              [("Effect", VStr "Allow"); ("Principal", VStr "*"); ("Action", VStr "s3:*");
               ("Resource",
                VStr "arn:aws:s3:eu-west-1:111111111111:accesspoint/ds1-consumers");
               ("Condition",
                VDict [("StringLike",
                  VDict [("aws:userId",
                    VList [VStr "AROAds1-admin:*";
                           VStr "AROAarn:aws:iam::111111111111:role/producers:*";
                           VStr "AROAarn:aws:iam::111111111111:role/dataallPivotRole:*"])])])]
              c ltac:(vm_compute; reflexivity))
    as (_ & _ & Hcount & Hdelete).
  by split.
Defined.

(** ** The sweep of the access point *)

Lemma substring_prefix p s : String.substring 0 (String.length p) (p +:+ s) = p.
Proof.
  induction p as [|a p IH]; simpl.
  - by destruct s.
  - by rewrite IH.
Qed.

Lemma length_append_string (a b : string) :
  String.length (a +:+ b) = String.length a + String.length b.
Proof. induction a as [|x a IH]; [done|]. rewrite append_cons. simpl. by rewrite IH. Qed.

Lemma chop2_star p : Py.chop2 (p +:+ "/*") = p.
Proof.
  unfold Py.chop2.
  assert (String.length (p +:+ "/*") - 2 = String.length p) as ->.
  { rewrite length_append_string. simpl. lia. }
  apply substring_prefix.
Qed.

Lemma chop_prefixes_stars prefixes :
  chop_prefixes ((fun p => VStr (p +:+ "/*")) <$> prefixes) = Ok prefixes.
Proof.
  induction prefixes as [|p prefixes IH]; [done|].
  rewrite fmap_cons. simpl. rewrite IH. simpl. by rewrite chop2_star.
Qed.

Lemma set_aws_same w : set_aws (fun _ => aws w) w = w.
Proof. by destruct w. Qed.

Lemma set_aws_set_aws_same w :
  set_aws (fun _ => aws w) (set_aws (fun _ => aws w) w) = w.
Proof. by destruct w. Qed.

(** X18: when every prefix the access point policy lists for the role is
    the prefix of a folder that is still shared, [clean_shared_folders]
    finds nothing stale and changes nothing: no policy is rewritten, no
    status, no alarm. *)
Theorem clean_shared_folders_with_nothing_stale
    share source_env_group target_env_group target_environment dataset shared_folders w
    policy_text statements statement0 prefixes :
  mjoin (access_points (aws w) !!
           (Dataset.AwsAccountId dataset,
            Py.lower (Dataset.datasetUri dataset +:+ "-" +:+ ShareObject.principalId share)))
    = Some policy_text ->
  by_sid (document policy_text) = Ok statements ->
  dict_lookup
    (VStr (role_ids (aws w) (Environment.AwsAccountId target_environment)
             (EnvironmentGroup.environmentIAMRoleName target_env_group) +:+ "0"))
    statements = Some statement0 ->
  condition_prefix statement0 = Ok (VList ((fun p => VStr (p +:+ "/*")) <$> prefixes)) ->
  Forall (fun p => p ∈ DatasetStorageLocation.S3Prefix <$> shared_folders) prefixes ->
  clean_shared_folders share source_env_group target_env_group target_environment dataset
    shared_folders w = (Ok tt, w).
Proof.
  intros Hpolicy Hstatements Hstatement0 Hprefixes Hshared.
  unfold clean_shared_folders.
  erewrite bind_eq; [|apply lift_aws_eq; reflexivity].
  cbv beta. rewrite Hpolicy. cbn [truthy_text json_loads].
  erewrite bind_eq; [|reflexivity].
  erewrite bind_eq; [|apply lift_aws_eq; reflexivity].
  erewrite bind_eq; [|unfold of_result; by rewrite Hstatements].
  unfold dict_mem, dict_getitem. cbn [aws set_aws]. rewrite Hstatement0.
  erewrite bind_eq.
  2:{ unfold of_result. cbn [rbind]. rewrite Hprefixes. cbn [rbind as_list isinstance_str iter].
      by rewrite chop_prefixes_stars. }
  assert (filter (fun prefix => prefix ∉ DatasetStorageLocation.S3Prefix <$> shared_folders)
            prefixes = []) as ->.
  { clear Hprefixes. induction Hshared as [|p prefixes Hp _ IH]; [done|].
    rewrite filter_cons, IH. rewrite decide_False; [done|]. intros Hn. by apply Hn. }
  simpl. unfold ret. by rewrite !set_aws_set_aws_same.
Qed.

Lemma clean_shared_folders_with_nothing_stale_witness :
  let w := Sample.world_with (Sample.store Approved [] [])
             (Sample.access_point_step (Sample.cloud_with Sample.ok_services [])).2 in
  clean_shared_folders (Sample.share1 Approved) (Some Sample.producers) Sample.consumers
    Sample.target_env Sample.sales [Sample.p1] w = (Ok tt, w).
Proof.
  intros w.
  eapply (clean_shared_folders_with_nothing_stale (Sample.share1 Approved)
            (Some Sample.producers) Sample.consumers Sample.target_env Sample.sales
            [Sample.p1] w _ _ _ ["p1"]).
  - vm_compute. reflexivity.
  - vm_compute. reflexivity.
  - vm_compute. reflexivity.
  - vm_compute. reflexivity.
  - repeat constructor.
Defined.

(** ** A run that cannot load its share *)

Lemma reads_the_store_ret {A} (a : A) : reads_the_store (ret a).
Proof. by intros w w' H. Qed.

Lemma reads_the_store_raise {A} e : reads_the_store (raise (A := A) e).
Proof. by intros w w' H. Qed.

Lemma reads_the_store_gets {A} (g : db -> A) : reads_the_store (gets (fun w => g (session w))).
Proof. intros w w' H. simpl. by rewrite H. Qed.

Lemma reads_the_store_bind {A B} (m : M A) (k : A -> M B) :
  reads_the_store m -> (forall a, reads_the_store (k a)) -> reads_the_store (bind m k).
Proof.
  intros Hm Hk w w' H. unfold bind. destruct (Hm w w' H) as [Hr Hs].
  destruct (m w) as [[a|e] w1], (m w') as [[a'|e'] w1']; simpl in *; try done.
  - injection Hr as <-. by apply Hk.
  - by injection Hr as <-.
Qed.

Lemma get_share_data_reads_the_store share_uri status :
  reads_the_store (get_share_data share_uri status).
Proof.
  unfold get_share_data, api.get_environment_by_uri, api.get_environment_group,
    api.get_dataset_tables_shared_with_env, api.get_dataset_locations_shared_with_env,
    not_None.
  repeat first
    [ apply reads_the_store_ret | apply reads_the_store_raise
    | apply (reads_the_store_gets (fun s => find _ (share_objects s)))
    | apply (reads_the_store_gets (fun s => find _ (datasets s)))
    | apply (reads_the_store_gets (fun s => find _ (environments s)))
    | apply (reads_the_store_gets (fun s => find _ (environment_groups s)))
    | apply (reads_the_store_gets (fun s => dataset_tables_shared_with_env s _ _ _))
    | apply (reads_the_store_gets (fun s => dataset_locations_shared_with_env s _ _ _))
    | apply reads_the_store_bind
    | progress intros
    | case_match ].
Qed.

Lemma get_share_data_reads_the_session share_uri status w w' :
  session w = session w' ->
  (get_share_data share_uri status w).1 = (get_share_data share_uri status w').1.
Proof. intros H. by apply get_share_data_reads_the_store. Qed.

(** X19: when [get_share_data] raises, [approve_share] and [reject_share]
    raise the same exception before anything else is done: no call to AWS
    is made, no catalog or policy is touched, no status changes and no
    alarm is sent. *)
Theorem a_run_without_share_data_does_nothing share_uri w :
  (forall e,
     (get_share_data share_uri [Approved] w).1 = Raise e ->
     (approve_share share_uri w).1 = Raise e /\
     aws (approve_share share_uri w).2 = aws w /\
     session (approve_share share_uri w).2 = session w /\
     alarms (approve_share share_uri w).2 = alarms w) /\
  (forall e,
     (get_share_data share_uri [Rejected] w).1 = Raise e ->
     (reject_share share_uri w).1 = Raise e /\
     aws (reject_share share_uri w).2 = aws w /\
     session (reject_share share_uri w).2 = session w /\
     alarms (reject_share share_uri w).2 = alarms w).
Proof.
  assert (forall status e,
            (get_share_data share_uri status w).1 = Raise e ->
            enter "get_share_data" (get_share_data share_uri status) w =
            (Raise e, set_journal (fun j => j ++ ["get_share_data"]) w)) as Hload.
  { intros status e Hraise. unfold enter, bind, modify.
    pose proof (get_share_data_keeps (fun w => w) share_uri status
                  (set_journal (fun j => j ++ ["get_share_data"]) w)) as Hsame.
    assert ((get_share_data share_uri status
               (set_journal (fun j => j ++ ["get_share_data"]) w)).1 = Raise e) as Hagain
      by (by rewrite <- Hraise; apply get_share_data_reads_the_session).
    cbv beta in Hsame.
    destruct (get_share_data share_uri status
                (set_journal (fun j => j ++ ["get_share_data"]) w)) as [r w1].
    simpl in *. by subst r w1. }
  split; intros e Hraise.
  - assert (approve_share share_uri w =
            (Raise e, set_journal (fun j => j ++ ["get_share_data"]) w)) as ->; [|done].
    unfold approve_share. unfold bind at 1. by rewrite (Hload _ _ Hraise).
  - assert (reject_share share_uri w =
            (Raise e, set_journal (fun j => j ++ ["get_share_data"]) w)) as ->; [|done].
    unfold reject_share. unfold bind at 1. by rewrite (Hload _ _ Hraise).
Qed.

Lemma a_run_without_share_data_does_nothing_witness :
  let w := Sample.world_with (Sample.store Approved [Sample.share3] [])
             (Sample.cloud_with Sample.ok_services []) in
  is_raise (approve_share "share-3" w).1 = true /\
  aws (approve_share "share-3" w).2 = aws w.
Proof.
  intros w.
  destruct (a_run_without_share_data_does_nothing "share-3" w) as [Happrove _].
  destruct (Happrove
              (Exception "Share object Team analysts is not a member of the environment consumers-env/222222222222")
              ltac:(vm_compute; reflexivity)) as (Hraise & Haws & _).
  split; [by rewrite Hraise | exact Haws].
Defined.

(** ** Revoking a resource link that exists *)

(** X20: the loop of [revoke_resource_links_access_on_target_account] runs
    [revoke_link_turn] for every table, in order, on the entries the
    earlier turns have accumulated.  In the turn of a table, at whatever
    place of the list, whose resource link is in the shadow database, the
    item ends in a terminal status.  Without a source group no revoke is
    sent and the item ends [Revoke_Share_Failed], with the alarm of the
    table.  With a group, the entry of the table is added to the entries
    accumulated so far and all of them are sent in one batch revoke: the
    item ends [Revoke_Share_Succeeded] when that batch returns and
    [Revoke_Share_Failed], with the alarm of the table, when it raises, be
    it on an entry of an earlier table.  The turn itself returns, and the
    entry stays with the entries for the turns that follow. *)
Theorem revoke_of_an_existing_link_ends_terminal
    env_group share table target_environment revoke_entries w i :
  get_share_item share (a_table table) w = (Ok i, w) ->
  DatasetTable.GlueTableName table ∈ resource_links (aws w) target_environment table ->
  (forall shared_tables,
     revoke_resource_links_access_on_target_account env_group share shared_tables
       target_environment =
     with_local [] (for_each shared_tables
                      (revoke_link_turn env_group share target_environment))) /\
  revoke_link_turn env_group share target_environment table (revoke_entries, w) =
  (Ok tt,
   match env_group with
   | None =>
       (revoke_entries,
        item_ended w i Revoke_Share_Failed (set_uuids S (aws w))
          [revoke_sharing_failure_alarm table share target_environment])
   | Some group =>
       let entries :=
         revoke_entries ++
         [link_revoke_entry (pretty (uuids (aws w))) group target_environment table] in
       let revoke :=
         batch_revoke_permissions
           (SessionHelper.client (Environment.AwsAccountId target_environment)
              (Environment.region target_environment))
           (Environment.AwsAccountId target_environment) entries
           (set_uuids S (aws w)) in
       (entries,
        match revoke.1 with
        | Ok _ => item_ended w i Revoke_Share_Succeeded revoke.2 []
        | Raise _ =>
            item_ended w i Revoke_Share_Failed revoke.2
              [revoke_sharing_failure_alarm table share target_environment]
        end)
   end).
Proof.
  intros Hitem Hlink. split; [done|].
  unfold revoke_link_turn.
  erewrite bind_eq; [|by apply outer_eq].
  erewrite bind_eq; [|apply outer_eq; reflexivity].
  unfold try_except.
  erewrite bind_eq.
  2:{ apply outer_eq. apply lift_aws_eq. reflexivity. }
  simpl. unfold resource_links in Hlink. rewrite bool_decide_eq_true_2 by exact Hlink.
  erewrite bind_eq; [|apply outer_eq; apply lift_aws_eq; reflexivity].
  destruct env_group as [group|].
  - erewrite bind_eq; [|reflexivity].
    erewrite bind_eq; [|reflexivity].
    erewrite bind_eq; [|reflexivity].
    erewrite bind_eq; [|reflexivity].
    unfold bind, outer, lift_aws.
    cbn [fst snd aws set_aws set_session session alarms journal app].
    fold (link_revoke_entry (pretty (uuids (aws w))) group target_environment table).
    destruct (batch_revoke_permissions _ _ _ _) as [[[]|e] c]; simpl.
    + unfold update_share_item_status, bind, modify, ret, set_aws, set_session,
        item_ended. simpl.
      do 3 f_equal; [apply set_status_twice | by rewrite app_nil_r].
    + unfold update_share_item_status,
        AlarmService.trigger_revoke_sharing_failure_alarm, AlarmService.trigger,
        bind, modify, ret, set_aws, set_session, set_alarms, item_ended. simpl.
      do 3 f_equal. apply set_status_twice.
  - unfold not_None, bind, raise, outer, lift_aws. simpl.
    unfold update_share_item_status,
      AlarmService.trigger_revoke_sharing_failure_alarm, AlarmService.trigger,
      bind, modify, ret, set_aws, set_session, set_alarms, item_ended. simpl.
    do 3 f_equal. apply set_status_twice.
Qed.

Lemma revoke_of_an_existing_link_ends_terminal_witness :
  let w := Sample.world_with (Sample.store Rejected [] [])
             (Sample.cloud_with Sample.denied_services ["orders"]) in
  let earlier := [Sample.select_entry "invoices"] in
  let turn := revoke_link_turn (Some Sample.producers) (Sample.share1 Rejected)
                Sample.target_env Sample.orders (earlier, w) in
  turn.1 = Ok tt /\ length turn.2.1 = 2 /\ status_of turn.2.2 0 = Some Revoke_Share_Failed.
Proof.
  intros w earlier turn.
  destruct (revoke_of_an_existing_link_ends_terminal (Some Sample.producers)
              (Sample.share1 Rejected) Sample.orders Sample.target_env earlier w 0
              (get_share_item_Ok (Sample.share1 Rejected) (a_table Sample.orders) w 0
                 ltac:(vm_compute; reflexivity)))
    as [_ Hturn].
  - apply (bool_decide_unpack _). vm_compute. exact I.
  - subst turn. rewrite Hturn. split; [reflexivity|]. split; [reflexivity|].
    vm_compute. reflexivity.
Defined.

(** ** The phases of a run, in order *)

Lemma enter_eq {A} step (m : M A) w : enter step m w = m (entered step w).
Proof. done. Qed.

Lemma add_quicksight_group_returns target_environment principals c :
  exists principals' c',
    add_quicksight_group_to_shared_with_principals target_environment principals c =
    (Ok principals', c').
Proof.
  unfold add_quicksight_group_to_shared_with_principals, try_except, bind,
    Quicksight.describe_group.
  destruct (quicksight_describe_group _ _ _) as [[Arn|]|code msg]; simpl;
    [destruct (Py.truthy_str Arn)| |]; unfold ret; eauto.
Qed.

(** A phase that raises ends the run, whatever would have followed. *)
Lemma runs_in_order_app_raise phases rest w e w' :
  runs_in_order phases w (Raise e) w' -> runs_in_order (phases ++ rest) w (Raise e) w'.
Proof.
  intros Hruns. remember (Raise e) as r eqn:Hr.
  induction Hruns as [w|step phase phases w e' w' Hphase
                      |step phase phases w w1 r w' Hphase Hruns IH]; simpl.
  - done.
  - by apply runs_raise.
  - eapply runs_next; [done|]. by apply IH.
Qed.

(** Phases that return are followed by those that come after them. *)
Lemma runs_in_order_app phases rest w w1 r w' :
  runs_in_order phases w (Ok tt) w1 -> runs_in_order rest w1 r w' ->
  runs_in_order (phases ++ rest) w r w'.
Proof.
  intros Hruns Hrest. remember (Ok tt) as r1 eqn:Hr.
  induction Hruns as [w|step phase phases w e' w1 Hphase
                      |step phase phases w w0 r1 w1 Hphase Hruns IH]; simpl.
  - done.
  - done.
  - eapply runs_next; [done|]. by apply IH.
Qed.

(** C9, amended: [approve_share] loads the share context first, and ends
    there when that raises.  With the context loaded it runs, each from the
    world its predecessor left, the table workflow, the sweep of the shadow
    database, the folder workflow and the sweep of the access point, in
    this order; the first of them that raises ends the run with its
    exception, and a run in which none raises answers [True], in the world
    the last of them left.  [reject_share] loads the share context in the
    same way and then runs the revoke of the resource links, their
    deletion, the sweep of the shadow database, the revoke at the source
    when the store has no approved share object for the environment, and
    the revoke of the folder grants as its last phase; it runs neither the
    table nor the folder workflow.  The names of the steps entered are, in
    this order and with no other in between, those of the phases that have
    begun. *)
Theorem approve_and_reject_run_their_phases_in_order share_uri w :
  (forall e,
     (get_share_data share_uri [Approved] (entered "get_share_data" w)).1 = Raise e ->
     approve_share share_uri w = (Raise e, entered "get_share_data" w)) /\
  (forall source_env_group target_env_group dataset share shared_tables shared_folders
          source_environment target_environment,
     (get_share_data share_uri [Approved] (entered "get_share_data" w)).1 =
       Ok (source_env_group, target_env_group, dataset, share, shared_tables,
           shared_folders, source_environment, target_environment) ->
     exists principals w1 r w',
       (if Environment.dashboardsEnabled target_environment then
          lift_aws (add_quicksight_group_to_shared_with_principals target_environment
                      [EnvironmentGroup.environmentIAMRoleArn target_env_group])
        else ret [EnvironmentGroup.environmentIAMRoleArn target_env_group])
         (entered "get_share_data" w) = (Ok principals, w1) /\
       runs_in_order
         [("share_tables",
           share_tables share source_environment target_environment shared_tables
             principals);
          ("clean_shared_database",
           clean_shared_database dataset shared_tables target_environment);
          ("share_folders",
           share_folders share source_env_group target_env_group target_environment
             shared_folders dataset);
          ("clean_shared_folders",
           clean_shared_folders share source_env_group target_env_group
             target_environment dataset shared_folders)]
         w1 r w' /\
       approve_share share_uri w = (run_outcome r, w')) /\
  (forall e,
     (get_share_data share_uri [Rejected] (entered "get_share_data" w)).1 = Raise e ->
     reject_share share_uri w = (Raise e, entered "get_share_data" w)) /\
  (forall source_env_group target_env_group dataset share shared_tables shared_folders
          source_environment target_environment,
     (get_share_data share_uri [Rejected] (entered "get_share_data" w)).1 =
       Ok (source_env_group, target_env_group, dataset, share, shared_tables,
           shared_folders, source_environment, target_environment) ->
     exists r w',
       runs_in_order
         ([("revoke_resource_links_access_on_target_account",
            revoke_resource_links_access_on_target_account source_env_group share
              shared_tables target_environment);
           ("delete_resource_links_on_target_account",
            lift_aws (delete_resource_links_on_target_account dataset shared_tables
                        target_environment));
           ("clean_shared_database",
            clean_shared_database dataset shared_tables target_environment)] ++
          match (other_approved_share_object_exists
                   (Environment.environmentUri target_environment) w).1 with
          | Ok [] =>
              [("revoke_external_account_access_on_source_account",
                lift_aws (revoke_external_account_access_on_source_account shared_tables
                            source_environment target_environment))]
          | _ => []
          end ++
          [("revoke_shared_folders",
            revoke_shared_folders share source_env_group target_env_group
              target_environment shared_folders dataset)])
         (entered "get_share_data" w) r w' /\
       reject_share share_uri w = (run_outcome r, w')) /\
  (exists n, journal (approve_share share_uri w).2 = journal w ++ take n approve_phases) /\
  ((approve_share share_uri w).1 = Ok true ->
   journal (approve_share share_uri w).2 = journal w ++ approve_phases) /\
  exists source_revoke,
    (exists n, journal (reject_share share_uri w).2 =
               journal w ++ take n (reject_phases source_revoke)) /\
    ((reject_share share_uri w).1 = Ok true ->
     journal (reject_share share_uri w).2 = journal w ++ reject_phases source_revoke).
Proof.
  assert (forall status e,
            (get_share_data share_uri status (entered "get_share_data" w)).1 = Raise e ->
            get_share_data share_uri status (entered "get_share_data" w) =
            (Raise e, entered "get_share_data" w)) as Hfails.
  { intros status e He.
    pose proof (get_share_data_keeps (fun w => w) share_uri status
                  (entered "get_share_data" w)) as Hkeeps.
    destruct (get_share_data _ _ _) as [r w0]. simpl in *. by subst. }
  split; [|split; [|split; [|split]]].
  - intros e He. unfold approve_share.
    apply bind_raise. rewrite enter_eq. by apply Hfails.
  - intros source_env_group target_env_group dataset share shared_tables shared_folders
      source_environment target_environment Hdata.
    apply run_eta_Ok in Hdata.
    rewrite (get_share_data_keeps (fun w => w)) in Hdata.
    assert (exists principals w1,
              (if Environment.dashboardsEnabled target_environment then
                 lift_aws (add_quicksight_group_to_shared_with_principals
                             target_environment
                             [EnvironmentGroup.environmentIAMRoleArn target_env_group])
               else ret [EnvironmentGroup.environmentIAMRoleArn target_env_group])
                (entered "get_share_data" w) = (Ok principals, w1))
      as (principals & w1 & Hprincipals).
    { destruct (Environment.dashboardsEnabled target_environment); [|by eauto].
      unfold lift_aws.
      destruct (add_quicksight_group_returns target_environment
                  [EnvironmentGroup.environmentIAMRoleArn target_env_group]
                  (aws (entered "get_share_data" w))) as (ps & c' & ->).
      eauto. }
    exists principals, w1.
    unfold approve_share.
    erewrite bind_eq; [|rewrite enter_eq; exact Hdata].
    cbn beta iota zeta.
    erewrite bind_eq; [|exact Hprincipals].
    unfold bind. rewrite !enter_eq.
    destruct (share_tables _ _ _ _ _ _) as [[[]|e] w2] eqn:H1;
      [|exists (Raise e), w2; split_and!; [done|by apply runs_raise|done]].
    rewrite enter_eq.
    destruct (clean_shared_database _ _ _ _) as [[[]|e] w3] eqn:H2;
      [|exists (Raise e), w3; split_and!; [done| |done];
        eapply runs_next; [done|]; by apply runs_raise].
    rewrite enter_eq.
    destruct (share_folders _ _ _ _ _ _ _) as [[[]|e] w4] eqn:H3;
      [|exists (Raise e), w4; split_and!; [done| |done];
        do 2 (eapply runs_next; [done|]); by apply runs_raise].
    rewrite enter_eq.
    destruct (clean_shared_folders _ _ _ _ _ _ _) as [[[]|e] w5] eqn:H4;
      [|exists (Raise e), w5; split_and!; [done| |done];
        do 3 (eapply runs_next; [done|]); by apply runs_raise].
    exists (Ok tt), w5. split_and!; [done| |done].
    do 4 (eapply runs_next; [done|]). apply runs_none.
  - intros e He. unfold reject_share.
    apply bind_raise. rewrite enter_eq. by apply Hfails.
  - intros source_env_group target_env_group dataset share shared_tables shared_folders
      source_environment target_environment Hdata.
    apply run_eta_Ok in Hdata.
    rewrite (get_share_data_keeps (fun w => w)) in Hdata.
    unfold reject_share.
    erewrite bind_eq; [|rewrite enter_eq; exact Hdata].
    cbn beta iota zeta.
    set (query := other_approved_share_object_exists
                    (Environment.environmentUri target_environment)).
    set (f := fun w : world => (share_objects (session w), environments (session w))).
    assert (forall w1 w2, f w1 = f w2 -> query w2 = ((query w1).1, w2) /\
              (query w1).1 = (query w2).1) as Hquery.
    { intros w1 w2 [= Hshares Henvironments].
      unfold query, other_approved_share_object_exists, gets. simpl.
      by rewrite Hshares, Henvironments. }
    unfold bind. rewrite !enter_eq.
    set (phases3 := [_; _; _]).
    match goal with |- context [phases3 ++ ?sr ++ ?last] =>
      set (source_revoke := sr); set (revoke_folders := last) end.
    destruct (revoke_resource_links_access_on_target_account _ _ _ _ _)
      as [[[]|e] w2] eqn:H1;
      [|exists (Raise e), w2; split; [|done];
        apply runs_in_order_app_raise; by apply runs_raise].
    rewrite enter_eq.
    destruct (lift_aws _ (entered "delete_resource_links_on_target_account" w2))
      as [[[]|e] w3] eqn:H2;
      [|exists (Raise e), w3; split; [|done]; apply runs_in_order_app_raise;
        eapply runs_next; [done|]; by apply runs_raise].
    rewrite enter_eq.
    destruct (clean_shared_database _ _ _ _) as [[[]|e] w4] eqn:H3;
      [|exists (Raise e), w4; split; [|done]; apply runs_in_order_app_raise;
        do 2 (eapply runs_next; [done|]); by apply runs_raise].
    assert (runs_in_order phases3 (entered "get_share_data" w) (Ok tt) w4) as Hfirst.
    { do 3 (eapply runs_next; [done|]). apply runs_none. }
    assert (f w4 = f w) as Hsame.
    { assert (forall (g : cloud -> cloud) w, f (set_aws g w) = f w) as f_aws by done.
      assert (forall (g : list alarm -> list alarm) w, f (set_alarms g w) = f w)
        as f_alarms by done.
      assert (forall status i w,
                f (set_session (set_share_object_items (alter (with_status status) i)) w) =
                f w) as f_status by done.
      pose proof (clean_shared_database_keeps f f_aws dataset shared_tables
                    target_environment (entered "clean_shared_database" w3)) as K3.
      pose proof (keeps_lift_aws f f_aws
                    (delete_resource_links_on_target_account dataset shared_tables
                       target_environment)
                    (entered "delete_resource_links_on_target_account" w2)) as K2.
      pose proof (revoke_resource_links_access_on_target_account_keeps f f_aws f_alarms
                    f_status source_env_group share shared_tables target_environment
                    (entered "revoke_resource_links_access_on_target_account"
                       (entered "get_share_data" w))) as K1.
      rewrite H3 in K3. rewrite H2 in K2. rewrite H1 in K1.
      etransitivity; [exact K3|]. etransitivity; [exact K2|]. exact K1. }
    destruct (Hquery w w4) as [Hq4 Hq]; [done|].
    rewrite Hq4. cbn [fst snd].
    destruct (query w).1 as [[|other others]|e] eqn:Hothers.
    + cbn beta iota. rewrite !enter_eq.
      destruct (lift_aws _ (entered "revoke_external_account_access_on_source_account" w4))
        as [[[]|e] w5] eqn:H4.
      * rewrite enter_eq.
        destruct (revoke_shared_folders _ _ _ _ _ _ _) as [[[]|e] w6] eqn:H5.
        -- exists (Ok tt), w6. split; [|done].
           eapply runs_in_order_app; [exact Hfirst|].
           do 2 (eapply runs_next; [done|]). apply runs_none.
        -- exists (Raise e), w6. split; [|done].
           eapply runs_in_order_app; [exact Hfirst|].
           eapply runs_next; [done|]. by apply runs_raise.
      * exists (Raise e), w5. split; [|done].
        eapply runs_in_order_app; [exact Hfirst|]. by apply runs_raise.
    + cbn beta iota. unfold ret at 1. cbn beta iota. rewrite !enter_eq.
      destruct (revoke_shared_folders _ _ _ _ _ _ _) as [[[]|e] w6] eqn:H5.
      * exists (Ok tt), w6. split; [|done].
        eapply runs_in_order_app; [exact Hfirst|].
        eapply runs_next; [done|]. apply runs_none.
      * exists (Raise e), w6. split; [|done].
        eapply runs_in_order_app; [exact Hfirst|]. by apply runs_raise.
    + exfalso. unfold query, other_approved_share_object_exists, gets in Hothers.
      discriminate.
  - destruct (approve_share_logs share_uri w) as [Hsome Hall].
    destruct (reject_share_logs share_uri w) as (source_revoke & Hsome' & Hall').
    split; [done|]. split.
    + intros Hok. apply Hall. by rewrite Hok.
    + exists source_revoke. split; [done|]. intros Hok. apply Hall'. by rewrite Hok.
Qed.

Lemma approve_and_reject_run_their_phases_in_order_witness :
  let w := Sample.world_with (Sample.store Approved [] [])
             (Sample.cloud_with Sample.ok_services []) in
  exists r w',
    runs_in_order
      [("share_tables",
        share_tables (Sample.share1 Approved) Sample.source_env Sample.target_env
          [Sample.orders] ["arn:aws:iam::222222222222:role/consumers"]);
       ("clean_shared_database",
        clean_shared_database Sample.sales [Sample.orders] Sample.target_env);
       ("share_folders",
        share_folders (Sample.share1 Approved) (Some Sample.producers) Sample.consumers
          Sample.target_env [Sample.p1] Sample.sales);
       ("clean_shared_folders",
        clean_shared_folders (Sample.share1 Approved) (Some Sample.producers)
          Sample.consumers Sample.target_env Sample.sales [Sample.p1])]
      (entered "get_share_data" w) r w' /\
    approve_share "share-1" w = (run_outcome r, w').
Proof.
  intros w.
  destruct (approve_and_reject_run_their_phases_in_order "share-1" w)
    as (_ & Happrove & _).
  destruct (Happrove (Some Sample.producers) Sample.consumers Sample.sales
              (Sample.share1 Approved) [Sample.orders] [Sample.p1] Sample.source_env
              Sample.target_env)
    as (principals & w1 & r & w' & Hprincipals & Hruns & Hrun).
  - vm_compute. reflexivity.
  - injection Hprincipals as <- <-. exists r, w'. split; [exact Hruns | exact Hrun].
Defined.

(** C9 as stated fails: [approve_share] runs the sweep of the shadow
    database before the folder workflow, not after it, and the difference
    shows.  The shadow database holds a link that no share has any more, and
    the caller may not revoke at the source: the sweep raises, the run ends
    there, and the folder of the share has not been processed (its item is
    still [PendingApproval] and it has no access point).  With the steps in
    the order of the specification the folder workflow has run before the
    sweep raises: the item of the folder is [Share_Succeeded] and the access
    point exists. *)
Lemma approve_share_sweeps_the_database_before_the_folder_workflow :
  let w := Sample.world_with (Sample.store Approved [] [])
             (Sample.cloud_with Sample.denied_services ["orders"; "invoices"]) in
  let run := approve_share "share-1" w in
  let specified := approve_share_as_specified "share-1" w in
  is_raise run.1 = true /\
  journal run.2 = ["get_share_data"; "share_tables"; "clean_shared_database"] /\
  status_of run.2 1 = Some PendingApproval /\
  access_points (aws run.2) !! (Sample.source_account, "ds1-consumers") = None /\
  is_raise specified.1 = true /\
  journal specified.2 =
    ["get_share_data"; "share_tables"; "share_folders"; "clean_shared_database"] /\
  status_of specified.2 1 = Some Share_Succeeded /\
  access_points (aws specified.2) !! (Sample.source_account, "ds1-consumers") <> None.
Proof.
  intros w run specified.
  split_and!; try (vm_compute; reflexivity).
  vm_compute. discriminate.
Qed.
